(** * PhoenixCRM work-order controller: a shallow embedding

    This development embeds the request handlers of
    [src/server/controllers/workOrderController.js] (createWorkOrder,
    updateWorkOrder, updateStatus, addPart, addLabor) as executable functions
    over an in-memory document store, and proves properties of them.

    Conventions of the embedding
    - The numbers the handlers compute with (prices, quantities, hours,
      rates, totals) are IEEE 754 binary64 numbers, Rocq's primitive
      [float]: sums and products round as they do in JavaScript, and such a
      number is falsy exactly when it is [0], [-0] or [NaN].
    - Mileages and dates (milliseconds since the epoch) are only stored and
      compared; they are integers [Z], falsy exactly when [0].
    - A string is a [string] whose characters are code units below 256;
      the empty string is falsy.
    - A document field that may be missing is an [option]; [None] is
      [undefined]/[null].
    - The Mongoose models, the Twilio service and the clock are not part of
      the controller; what the handlers observe of them is collected in
      [Env].
    - Store calls are total: a lookup answers with the document or with
      nothing, and a write succeeds. Validation and casting by the schemas
      are not modelled.
    - [populate(path, 'a b c')] loads the fields it names and no others: a
      field outside the selection reads as [undefined] on the populated
      document ([SelectedCustomer]). [populate(path)] loads the document
      whole.
    - Every handler also produces the trace of its observable steps, in
      the order in which the source performs them. *)

From Stdlib Require Import ZArith List String Ascii Bool Lia Floats.
From stdpp Require Import gmap strings sorting.
Import ListNotations.

Local Open Scope Z_scope.
Local Open Scope string_scope.
Local Open Scope list_scope.

#[local] Set Warnings "-inexact-float".

(** ** JavaScript string operations used by the controller *)

Module JsString.

Definition newline : ascii := ascii_of_nat 10.

Definition nl : string := String newline EmptyString.

(** White space as [String.prototype.trim] sees it, for code units
    below 256: TAB, LF, VT, FF, CR, SPACE and NBSP. *)
Definition is_space (c : ascii) : bool :=
  let n := nat_of_ascii c in
  ((9 <=? n)%nat && (n <=? 13)%nat) || (n =? 32)%nat || (n =? 160)%nat.

Fixpoint trimStart (s : string) : string :=
  match s with
  | EmptyString => EmptyString
  | String c s' => if is_space c then trimStart s' else s
  end.

(** [trimEnd] keeps a character when it is not a space or when something
    survives after it. *)
Fixpoint trimEnd (s : string) : string :=
  match s with
  | EmptyString => EmptyString
  | String c s' =>
      match trimEnd s' with
      | EmptyString => if is_space c then EmptyString else String c EmptyString
      | r => String c r
      end
  end.

Definition trim (s : string) : string := trimEnd (trimStart s).

Definition is_empty (s : string) : bool :=
  match s with EmptyString => true | _ => false end.

(** [s.includes('\n')] *)
Fixpoint includes_char (c : ascii) (s : string) : bool :=
  match s with
  | EmptyString => false
  | String a s' => Ascii.eqb a c || includes_char c s'
  end.

(** [s.includes(sub)] *)
Fixpoint includes (sub s : string) : bool :=
  String.prefix sub s ||
  match s with
  | EmptyString => false
  | String _ s' => includes sub s'
  end.

(** [s.split(c)] for a one-character separator: never the empty list. *)
Fixpoint split (c : ascii) (s : string) : list string :=
  match s with
  | EmptyString => [EmptyString]
  | String a s' =>
      if Ascii.eqb a c then EmptyString :: split c s'
      else match split c s' with
           | [] => [String a EmptyString]
           | h :: t => String a h :: t
           end
  end.

(** [l.join(sep)] *)
Fixpoint join (sep : string) (l : list string) : string :=
  match l with
  | [] => EmptyString
  | [x] => x
  | x :: t => x ++ sep ++ join sep t
  end.

End JsString.

(** ** Truthiness of optional fields *)

Definition truthy_str (o : option string) : bool :=
  match o with
  | Some s => negb (JsString.is_empty s)
  | None => false
  end.

(** A number is falsy when it is [0], [-0] or [NaN]. *)
Definition truthy_num (o : option float) : bool :=
  match o with
  | Some x => negb (PrimFloat.is_zero x || PrimFloat.is_nan x)
  | None => false
  end.

Definition truthy_int (o : option Z) : bool :=
  match o with
  | Some z => negb (Z.eqb z 0)
  | None => false
  end.

(** ** Data model *)

Definition Id := string.
Definition Date := Z.

Record Part := mkPart { part_name : string; price : float; quantity : float }.
Record Labor := mkLabor { labor_description : string; hours : float; rate : float }.
Record Service := mkService { description : string }.

Record MileageEntry := mkMileageEntry {
  me_date : Date;
  me_mileage : Z;
  me_source : option string
}.

Record Vehicle := mkVehicle {
  v_customer : Id;
  serviceHistory : list Id;
  mileageHistory : list MileageEntry;
  v_currentMileage : option Z
}.

Record Customer := mkCustomer {
  communicationPreference : string;
  phone : option string;
  email : option string
}.

(** A customer loaded with a field selection: each field is [None] when
    the selection leaves it out. *)
Record SelectedCustomer := mkSelectedCustomer {
  sel_communicationPreference : option string;
  sel_phone : option string;
  sel_email : option string
}.

Definition selects (fields : list string) (name : string) : bool :=
  existsb (String.eqb name) fields.

Definition select_customer (fields : list string) (c : Customer) : SelectedCustomer :=
  {| sel_communicationPreference :=
       if selects fields "communicationPreference"
       then Some (communicationPreference c) else None;
     sel_phone := if selects fields "phone" then phone c else None;
     sel_email := if selects fields "email" then email c else None |}.

(** The selected customer as the object handed on to a service. *)
Definition as_customer (c : SelectedCustomer) : Customer :=
  {| communicationPreference :=
       match sel_communicationPreference c with Some p => p | None => "" end;
     phone := sel_phone c;
     email := sel_email c |}.

(** [{ field: s }], [field === s] on an optional string field. *)
Definition field_is (o : option string) (s : string) : bool :=
  match o with
  | Some x => String.eqb x s
  | None => false
  end.

(** An appointment, with its technician reference as [populate] resolves it. *)
Record Appointment := mkAppointment { technician : option Id }.

(** The fields of a work order document that the controller reads or
    writes. *)
Record WorkOrder := mkWorkOrder {
  wo_customer : Id;
  wo_vehicle : Id;
  wo_date : option Date;
  status : option string;
  services : list Service;
  serviceRequested : option string;
  parts : list Part;
  labor : list Labor;
  totalEstimate : option float;
  totalActual : option float;
  appointmentId : option Id;
  assignedTechnician : option Id
}.

(** [currentMileage] arrives as a JSON number or as a string. *)
Inductive MileageInput :=
| MNum (n : Z)
| MStr (s : string).

(** The JSON body of a create or update request ([req.body]). The
    [services] field is an array of service lines, the form the handlers
    work on; a body that sends [services] as a string (which the source
    first passes through [JSON.parse]) lies outside this type. *)
Record Body := mkBody {
  b_customer : option Id;
  b_vehicle : option Id;
  b_date : option Date;
  b_status : option string;
  b_services : option (list Service);
  b_serviceRequested : option string;
  b_parts : option (list Part);
  b_labor : option (list Labor);
  b_totalEstimate : option float;
  b_totalActual : option float;
  b_currentMileage : option MileageInput;
  b_appointmentId : option (option Id);
  b_assignedTechnician : option Id
}.

Record DB := mkDB {
  workOrders : gmap string WorkOrder;
  vehicles : gmap string Vehicle;
  customers : gmap string Customer;
  appointments : gmap string Appointment
}.

(** Values the schema of the WorkOrder model gives to fields a new document
    does not carry (the model file is outside the controller). *)
Record Defaults := mkDefaults {
  d_date : option Date;
  d_status : option string;
  d_totalEstimate : option float;
  d_totalActual : option float
}.

(** What a handler observes of its collaborators during one request. *)
Record Env := mkEnv {
  now : Date;                                   (* new Date() *)
  toDateString : Date -> string;                (* Date.prototype.toDateString *)
  parseFloat : string -> option Z;              (* None is NaN *)
  newObjectId : Id;                             (* _id given to a created document *)
  defaults : Defaults;
  (* twilioService.sendStatusUpdate: true when it resolves, false when it throws *)
  sendStatusUpdate : string -> Customer -> option Vehicle -> bool
}.

(** ** Responses, trace events and the handler monad *)

Inductive Response :=
| Json (code : Z) (workOrder : option WorkOrder)  (* res.status(code).json({status: 'success', data: {workOrder}}) *)
| AppError (message : string) (statusCode : Z)    (* next(new AppError(message, statusCode)) *)
| Thrown (what : string).                         (* an exception that reaches catchAsync *)

(** The observable steps of a handler, in the order they happen. *)
Inductive Event :=
| EvStatus (s : string)                  (* the work order is given status [s] *)
| EvTotal (total : float)                  (* a total is computed from the lines and assigned *)
| EvMileage (vehicle : Id) (mileage : Z) (* a vehicle's currentMileage is assigned *)
| EvSms (s : string) (ok : bool)         (* sendStatusUpdate is called; [ok = false]: it threw *)
| EvLogError (message : string)          (* console.error *)
| EvWriteWorkOrder (id : Id)             (* a work order document is written *)
| EvWriteVehicle (id : Id).              (* a vehicle document is written *)

Record World := mkWorld { w_db : DB; w_log : list Event }.

Inductive Outcome (A : Type) :=
| Continue (a : A)
| Finish (r : Response).

Arguments Continue {A} a.
Arguments Finish {A} r.

Definition Handler (A : Type) : Type := World -> Outcome A * World.

Definition ret {A} (a : A) : Handler A := fun w => (Continue a, w).

Definition bind {A B} (m : Handler A) (k : A -> Handler B) : Handler B :=
  fun w =>
    match m w with
    | (Continue a, w') => k a w'
    | (Finish r, w') => (Finish r, w')
    end.

(** [return next(...)] or [res.status(..).json(..)] as the last statement. *)
Definition finish {A} (r : Response) : Handler A := fun w => (Finish r, w).

Definition emit (e : Event) : Handler unit :=
  fun w => (Continue tt, {| w_db := w_db w; w_log := (w_log w ++ [e])%list |}).

Definition query {A} (f : DB -> A) : Handler A :=
  fun w => (Continue (f (w_db w)), w).

Definition modify (f : DB -> DB) : Handler unit :=
  fun w => (Continue tt, {| w_db := f (w_db w); w_log := w_log w |}).

Declare Scope handler_scope.
Delimit Scope handler_scope with handler.
Notation "x <- m ;; k" := (bind m (fun x => k))
  (at level 100, m at next level, right associativity) : handler_scope.
Notation "m ;; k" := (bind m (fun _ => k))
  (at level 100, right associativity) : handler_scope.
Local Open Scope handler_scope.

Definition when (b : bool) (m : Handler unit) : Handler unit :=
  if b then m else ret tt.

(** Running a handler on a store: the response, the store it leaves and
    the trace of its steps. *)
Definition handle (m : Handler Response) (d : DB) : Response * DB * list Event :=
  match m {| w_db := d; w_log := [] |} with
  | (Continue r, w) => (r, w_db w, w_log w)
  | (Finish r, w) => (r, w_db w, w_log w)
  end.

Definition response_of (x : Response * DB * list Event) : Response := fst (fst x).
Definition db_of (x : Response * DB * list Event) : DB := snd (fst x).
Definition trace_of (x : Response * DB * list Event) : list Event := snd x.

(** ** Store operations (Mongoose model calls) *)

Definition find_in {A} (m : gmap string A) (id : option Id) : option A :=
  match id with
  | Some i => m !! i
  | None => None
  end.

Definition WorkOrder_findById (id : Id) : Handler (option WorkOrder) :=
  query (fun d => workOrders d !! id).

Definition Vehicle_findById (id : option Id) : Handler (option Vehicle) :=
  query (fun d => find_in (vehicles d) id).

Definition Customer_findById (id : option Id) : Handler (option Customer) :=
  query (fun d => find_in (customers d) id).

Definition Appointment_findById (id : Id) : Handler (option Appointment) :=
  query (fun d => appointments d !! id).

(** [populate('customer', fields)]: the customer of the work order with the
    fields the selection names; a field it does not name is not loaded and
    reads as [undefined]. *)
Definition Customer_populate (fields : list string) (id : Id)
  : Handler (option SelectedCustomer) :=
  query (fun d => option_map (select_customer fields) (customers d !! id)).

Definition put_workOrder (id : Id) (wo : WorkOrder) (d : DB) : DB :=
  {| workOrders := <[id := wo]> (workOrders d);
     vehicles := vehicles d;
     customers := customers d;
     appointments := appointments d |}.

Definition put_vehicle (id : Id) (v : Vehicle) (d : DB) : DB :=
  {| workOrders := workOrders d;
     vehicles := <[id := v]> (vehicles d);
     customers := customers d;
     appointments := appointments d |}.

(** [workOrder.save()], [WorkOrder.create(..)] and the write of
    [findByIdAndUpdate]. *)
Definition WorkOrder_save (id : Id) (wo : WorkOrder) : Handler unit :=
  modify (put_workOrder id wo) ;; emit (EvWriteWorkOrder id).

(** [vehicle.save({ validateBeforeSave: false })] *)
Definition Vehicle_save (id : Id) (v : Vehicle) : Handler unit :=
  modify (put_vehicle id v) ;; emit (EvWriteVehicle id).

(** ** Totals *)

(** [parts.reduce((total, part) => total + (part.price * part.quantity), 0)] *)
Definition partsCost (ps : list Part) : float :=
  fold_left (fun total part => (total + price part * quantity part)%float) ps 0%float.

(** [labor.reduce((total, labor) => total + (labor.hours * labor.rate), 0)] *)
Definition laborCost (ls : list Labor) : float :=
  fold_left (fun total l => (total + hours l * rate l)%float) ls 0%float.

(** [x || 0] on an optional number. *)
Definition or_zero (o : option float) : float :=
  match o with
  | Some x => if truthy_num o then x else 0%float
  | None => 0%float
  end.

(** ** Field assignment on records *)

Definition set_b_services (b : Body) (v : option (list Service)) : Body :=
  mkBody (b_customer b) (b_vehicle b) (b_date b) (b_status b) v
         (b_serviceRequested b) (b_parts b) (b_labor b) (b_totalEstimate b)
         (b_totalActual b) (b_currentMileage b) (b_appointmentId b)
         (b_assignedTechnician b).

Definition set_b_serviceRequested (b : Body) (v : option string) : Body :=
  mkBody (b_customer b) (b_vehicle b) (b_date b) (b_status b) (b_services b)
         v (b_parts b) (b_labor b) (b_totalEstimate b)
         (b_totalActual b) (b_currentMileage b) (b_appointmentId b)
         (b_assignedTechnician b).

Definition set_b_totalEstimate (b : Body) (v : option float) : Body :=
  mkBody (b_customer b) (b_vehicle b) (b_date b) (b_status b) (b_services b)
         (b_serviceRequested b) (b_parts b) (b_labor b) v
         (b_totalActual b) (b_currentMileage b) (b_appointmentId b)
         (b_assignedTechnician b).

Definition set_b_assignedTechnician (b : Body) (v : option Id) : Body :=
  mkBody (b_customer b) (b_vehicle b) (b_date b) (b_status b) (b_services b)
         (b_serviceRequested b) (b_parts b) (b_labor b) (b_totalEstimate b)
         (b_totalActual b) (b_currentMileage b) (b_appointmentId b) v.

Definition set_status (w : WorkOrder) (v : option string) : WorkOrder :=
  mkWorkOrder (wo_customer w) (wo_vehicle w) (wo_date w) v (services w)
              (serviceRequested w) (parts w) (labor w) (totalEstimate w)
              (totalActual w) (appointmentId w) (assignedTechnician w).

Definition set_totalActual (w : WorkOrder) (v : option float) : WorkOrder :=
  mkWorkOrder (wo_customer w) (wo_vehicle w) (wo_date w) (status w) (services w)
              (serviceRequested w) (parts w) (labor w) (totalEstimate w)
              v (appointmentId w) (assignedTechnician w).

Definition set_totalEstimate (w : WorkOrder) (v : option float) : WorkOrder :=
  mkWorkOrder (wo_customer w) (wo_vehicle w) (wo_date w) (status w) (services w)
              (serviceRequested w) (parts w) (labor w) v
              (totalActual w) (appointmentId w) (assignedTechnician w).

Definition set_parts (w : WorkOrder) (v : list Part) : WorkOrder :=
  mkWorkOrder (wo_customer w) (wo_vehicle w) (wo_date w) (status w) (services w)
              (serviceRequested w) v (labor w) (totalEstimate w)
              (totalActual w) (appointmentId w) (assignedTechnician w).

Definition set_labor (w : WorkOrder) (v : list Labor) : WorkOrder :=
  mkWorkOrder (wo_customer w) (wo_vehicle w) (wo_date w) (status w) (services w)
              (serviceRequested w) (parts w) v (totalEstimate w)
              (totalActual w) (appointmentId w) (assignedTechnician w).

(** [a] when the request carries it, else [b]. *)
Definition or_else {A} (a b : option A) : option A :=
  match a with
  | Some x => Some x
  | None => b
  end.

Definition or_keep {A} (a : option A) (b : A) : A :=
  match a with
  | Some x => x
  | None => b
  end.

(** The document [WorkOrder.create(workOrderData)] builds: the fields of
    the data, the schema's values for those it lacks, empty arrays for the
    array fields. *)
Definition new_document (env : Env) (cid vid : Id) (data : Body) : WorkOrder :=
  {| wo_customer := cid;
     wo_vehicle := vid;
     wo_date := or_else (b_date data) (d_date (defaults env));
     status := or_else (b_status data) (d_status (defaults env));
     services := or_keep (b_services data) [];
     serviceRequested := b_serviceRequested data;
     parts := or_keep (b_parts data) [];
     labor := or_keep (b_labor data) [];
     totalEstimate := or_else (b_totalEstimate data) (d_totalEstimate (defaults env));
     totalActual := or_else (b_totalActual data) (d_totalActual (defaults env));
     appointmentId := or_keep (b_appointmentId data) None;
     assignedTechnician := b_assignedTechnician data |}.

(** The document [findByIdAndUpdate(id, workOrderData)] leaves: every field
    the data carries replaces the stored one. *)
Definition apply_update (data : Body) (w : WorkOrder) : WorkOrder :=
  {| wo_customer := or_keep (b_customer data) (wo_customer w);
     wo_vehicle := or_keep (b_vehicle data) (wo_vehicle w);
     wo_date := or_else (b_date data) (wo_date w);
     status := or_else (b_status data) (status w);
     services := or_keep (b_services data) (services w);
     serviceRequested := or_else (b_serviceRequested data) (serviceRequested w);
     parts := or_keep (b_parts data) (parts w);
     labor := or_keep (b_labor data) (labor w);
     totalEstimate := or_else (b_totalEstimate data) (totalEstimate w);
     totalActual := or_else (b_totalActual data) (totalActual w);
     appointmentId := or_keep (b_appointmentId data) (appointmentId w);
     assignedTechnician := or_else (b_assignedTechnician data) (assignedTechnician w) |}.

(** ** Shared pieces of the handlers *)

(** [serviceRequested] turned into a services array: one entry per
    non-blank line when the text has a newline, else the text itself. *)
Definition services_of_string (sr : string) : list Service :=
  if JsString.includes_char JsString.newline sr then
    List.map (fun line => mkService (JsString.trim line))
      (List.filter (fun line => negb (JsString.is_empty (JsString.trim line)))
         (JsString.split JsString.newline sr))
  else [mkService sr].

(** [services.map(service => service.description).join('\n')] *)
Definition serviceRequested_of (svcs : list Service) : string :=
  JsString.join JsString.nl (List.map description svcs).

(** [x && x.length > 0] *)
Definition has_items {A} (o : option (list A)) : bool :=
  match o with
  | Some (_ :: _) => true
  | _ => false
  end.

Definition truthy_mileage (m : option MileageInput) : bool :=
  match m with
  | Some (MNum n) => negb (Z.eqb n 0)
  | Some (MStr s) => negb (JsString.is_empty s)
  | None => false
  end.

(** [parseFloat(currentMileage)]; [None] is [NaN]. *)
Definition parse_mileage (env : Env) (m : option MileageInput) : option Z :=
  match m with
  | Some (MNum n) => Some n
  | Some (MStr s) => parseFloat env s
  | None => None
  end.

(** The guard [currentMileage && !isNaN(parseFloat(currentMileage))] and the
    value it lets through. *)
Definition mileage_update (env : Env) (m : option MileageInput) : option Z :=
  if truthy_mileage m then parse_mileage env m else None.

Definition mileage_source (id : Id) : string := "Work Order #" ++ id.

(** [workOrderData.date ? new Date(workOrderData.date) : new Date()] and
    [new Date(workOrderData.date || new Date())]: the date of the body when
    it is truthy, else the clock. *)
Definition entry_date (env : Env) (data : Body) : Date :=
  if truthy_int (b_date data) then or_keep (b_date data) 0 else now env.

(** The try/catch around [twilioService.sendStatusUpdate]. *)
Definition sms_notify (env : Env) (s : string) (c : Customer) (v : option Vehicle)
  : Handler unit :=
  let ok := sendStatusUpdate env s c v in
  emit (EvSms s ok) ;;
  when (negb ok) (emit (EvLogError "Failed to send SMS notification:")).

Definition not_found {A} : Handler A :=
  finish (AppError "No work order found with that ID" 404).

(** ** createWorkOrder *)

Definition create_services (data : Body) : Body :=
  let data :=
    if negb (has_items (b_services data)) then
      if truthy_str (b_serviceRequested data) then
        set_b_services data
          (Some (services_of_string (or_keep (b_serviceRequested data) "")))
      else set_b_services data (Some [])
    else data in
  if has_items (b_services data) then
    set_b_serviceRequested data
      (Some (serviceRequested_of (or_keep (b_services data) [])))
  else data.

Definition create_totals (data : Body) : Handler Body :=
  data <- (if has_items (b_parts data) then
             let cost := partsCost (or_keep (b_parts data) []) in
             if negb (truthy_num (b_totalEstimate data)) then
               emit (EvTotal cost) ;;
               ret (set_b_totalEstimate data (Some cost))
             else ret data
           else ret data) ;;
  if has_items (b_labor data) then
    let cost := laborCost (or_keep (b_labor data) []) in
    if negb (truthy_num (b_totalEstimate data)) then
      let total := (or_zero (b_totalEstimate data) + cost)%float in
      emit (EvTotal total) ;;
      ret (set_b_totalEstimate data (Some total))
    else ret data
  else ret data.

Definition createWorkOrder (env : Env) (body : Body) : Handler Response :=
  vehicle <- Vehicle_findById (b_vehicle body) ;;
  match b_vehicle body, vehicle with
  | Some vid, Some vehicle =>
      customer <- Customer_findById (b_customer body) ;;
      match b_customer body, customer with
      | Some cid, Some _ =>
          if negb (String.eqb (v_customer vehicle) cid) then
            finish (AppError "The vehicle does not belong to this customer" 400)
          else
            let workOrderData := create_services body in
            workOrderData <- create_totals workOrderData ;;
            let newWorkOrder := new_document env cid vid workOrderData in
            WorkOrder_save (newObjectId env) newWorkOrder ;;
            let history := (serviceHistory vehicle ++ [newObjectId env])%list in
            vehicle <-
              match mileage_update env (b_currentMileage workOrderData) with
              | Some mileageValue =>
                  emit (EvMileage vid mileageValue) ;;
                  ret {| v_customer := v_customer vehicle;
                         serviceHistory := history;
                         mileageHistory :=
                           (mileageHistory vehicle ++
                            [ {| me_date := entry_date env workOrderData;
                                 me_mileage := mileageValue;
                                 me_source := Some (mileage_source (newObjectId env)) |} ])%list;
                         v_currentMileage := Some mileageValue |}
              | None =>
                  ret {| v_customer := v_customer vehicle;
                         serviceHistory := history;
                         mileageHistory := mileageHistory vehicle;
                         v_currentMileage := v_currentMileage vehicle |}
              end ;;
            Vehicle_save vid vehicle ;;
            ret (Json 201 (Some newWorkOrder))
      | _, _ => finish (AppError "No customer found with that ID" 404)
      end
  | _, _ => finish (AppError "No vehicle found with that ID" 404)
  end.

(** ** updateWorkOrder *)

Definition update_services (data : Body) : Body :=
  match b_services data with
  | Some svcs => set_b_serviceRequested data (Some (serviceRequested_of svcs))
  | None =>
      if truthy_str (b_serviceRequested data) then
        set_b_services data
          (Some (services_of_string (or_keep (b_serviceRequested data) "")))
      else data
  end.

Definition update_totals (id : Id) (data : Body) : Handler Body :=
  match b_parts data, b_labor data with
  | None, None => ret data
  | _, _ =>
      workOrder <- WorkOrder_findById id ;;
      match workOrder with
      | None => not_found
      | Some workOrder =>
          data <- match b_parts data with
                  | Some ps =>
                      if negb (truthy_num (b_totalEstimate data)) then
                        let total :=
                          (partsCost ps +
                           laborCost (or_keep (b_labor data) (labor workOrder)))%float in
                        emit (EvTotal total) ;;
                        ret (set_b_totalEstimate data (Some total))
                      else ret data
                  | None => ret data
                  end ;;
          match b_labor data with
          | Some ls =>
              if negb (truthy_num (b_totalEstimate data)) then
                let total :=
                  (partsCost (or_keep (b_parts data) (parts workOrder)) +
                   laborCost ls)%float in
                emit (EvTotal total) ;;
                ret (set_b_totalEstimate data (Some total))
              else ret data
          | None => ret data
          end
      end
  end.

(** The duplicate check on the vehicle's mileage history. *)
Definition same_mileage_entry (env : Env) (id : Id) (data : Body)
           (mileageValue : Z) (entry : MileageEntry) : bool :=
  Z.eqb (me_mileage entry) mileageValue &&
  String.eqb (toDateString env (me_date entry))
             (toDateString env (entry_date env data)) &&
  JsString.includes (mileage_source id) (or_keep (me_source entry) "").

Definition update_mileage (env : Env) (id : Id) (data : Body) : Handler unit :=
  match mileage_update env (b_currentMileage data) with
  | Some mileageValue =>
      workOrderForVehicle <- WorkOrder_findById id ;;
      match workOrderForVehicle with
      | Some wo =>
          vehicleToUpdate <- Vehicle_findById (Some (wo_vehicle wo)) ;;
          match vehicleToUpdate with
          | Some v =>
              let history :=
                match List.find (same_mileage_entry env id data mileageValue)
                                (mileageHistory v) with
                | Some _ => mileageHistory v
                | None =>
                    (mileageHistory v ++
                     [ {| me_date := entry_date env data;
                          me_mileage := mileageValue;
                          me_source := Some (mileage_source id) |} ])%list
                end in
              emit (EvMileage (wo_vehicle wo) mileageValue) ;;
              Vehicle_save (wo_vehicle wo)
                {| v_customer := v_customer v;
                   serviceHistory := serviceHistory v;
                   mileageHistory := history;
                   v_currentMileage := Some mileageValue |}
          | None => ret tt
          end
      | None => ret tt
      end
  | None => ret tt
  end.

Definition notifiableStatuses : list string :=
  [ "Inspected - Need Parts Ordered";
    "Parts Received";
    "Repair In Progress";
    "Completed - Need Payment";
    "Completed - Paid" ].

Definition is_notifiable (s : string) : bool :=
  existsb (String.eqb s) notifiableStatuses.

Definition status_differs (old : option string) (s : string) : bool :=
  match old with
  | Some o => negb (String.eqb o s)
  | None => true
  end.

(** The notification block; the e-mail branch of the source has an empty
    body and does nothing. *)
Definition update_notify (env : Env) (id : Id) (data : Body) : Handler unit :=
  if truthy_str (b_status data) then
    let s := or_keep (b_status data) "" in
    oldWorkOrder <- WorkOrder_findById id ;;
    match oldWorkOrder with
    | Some old =>
        customer <- Customer_findById (Some (wo_customer old)) ;;
        vehicle <- Vehicle_findById (Some (wo_vehicle old)) ;;
        if status_differs (status old) s then
          match customer, vehicle with
          | Some c, Some v =>
              if is_notifiable s then
                when (String.eqb (communicationPreference c) "SMS" &&
                      truthy_str (phone c))
                     (sms_notify env s c (Some v))
              else ret tt
          | _, _ => ret tt
          end
        else ret tt
    | None => ret tt
    end
  else ret tt.

Definition update_technician (data : Body) : Handler Body :=
  match b_appointmentId data with
  | Some (Some aid) =>
      if negb (JsString.is_empty aid) then
        appointment <- Appointment_findById aid ;;
        match appointment with
        | Some a =>
            match technician a with
            | Some t => ret (set_b_assignedTechnician data (Some t))
            | None => ret data
            end
        | None => ret data
        end
      else ret data
  | _ => ret data
  end.

(** [WorkOrder.findByIdAndUpdate(id, workOrderData, { new: true })] *)
Definition WorkOrder_findByIdAndUpdate (id : Id) (data : Body)
  : Handler (option WorkOrder) :=
  stored <- WorkOrder_findById id ;;
  match stored with
  | Some w =>
      let updated := apply_update data w in
      match b_status data with
      | Some s => emit (EvStatus s)
      | None => ret tt
      end ;;
      WorkOrder_save id updated ;;
      ret (Some updated)
  | None => ret None
  end.

Definition updateWorkOrder (env : Env) (id : Id) (body : Body) : Handler Response :=
  let workOrderData := update_services body in
  workOrderData <- update_totals id workOrderData ;;
  update_mileage env id workOrderData ;;
  update_notify env id workOrderData ;;
  workOrderData <- update_technician workOrderData ;;
  updated <- WorkOrder_findByIdAndUpdate id workOrderData ;;
  match updated with
  | Some w => ret (Json 200 (Some w))
  | None => not_found
  end.

(** ** updateStatus

    The handler reloads the work order with its customer populated as
    ['name phone email'] and then tests [customer.communicationPreference],
    a field that selection does not load. *)

Definition sets_totalActual (s : string) : bool :=
  String.eqb s "Completed - Paid" || String.eqb s "Invoiced".

Definition updateStatus (env : Env) (id : Id) (st : option string) : Handler Response :=
  if negb (truthy_str st) then
    finish (AppError "Please provide a status" 400)
  else
    let s := or_keep st "" in
    workOrder <- WorkOrder_findById id ;;
    match workOrder with
    | None => not_found
    | Some workOrder =>
        emit (EvStatus s) ;;
        let workOrder := set_status workOrder (Some s) in
        workOrder <-
          (if sets_totalActual s then
             let total := (partsCost (parts workOrder) + laborCost (labor workOrder))%float in
             emit (EvTotal total) ;;
             ret (set_totalActual workOrder (Some total))
           else ret workOrder) ;;
        WorkOrder_save id workOrder ;;
        populatedWorkOrder <- WorkOrder_findById id ;;
        match populatedWorkOrder with
        | None => finish (Thrown "TypeError: populatedWorkOrder is null")
        | Some p =>
            customer <- Customer_populate ["name"; "phone"; "email"] (wo_customer p) ;;
            vehicle <- Vehicle_findById (Some (wo_vehicle p)) ;;
            match customer with
            | Some c =>
                when (negb (field_is (sel_communicationPreference c) "None"))
                  (when (field_is (sel_communicationPreference c) "SMS" &&
                         truthy_str (sel_phone c))
                     (sms_notify env s (as_customer c) vehicle))
            | None => ret tt
            end ;;
            ret (Json 200 (Some p))
        end
    end.

(** ** addPart and addLabor *)

Definition addPart (id : Id) (part : Part) : Handler Response :=
  workOrder <- WorkOrder_findById id ;;
  match workOrder with
  | None => not_found
  | Some workOrder =>
      let workOrder := set_parts workOrder (parts workOrder ++ [part])%list in
      let total := (partsCost (parts workOrder) + laborCost (labor workOrder))%float in
      emit (EvTotal total) ;;
      let workOrder := set_totalEstimate workOrder (Some total) in
      WorkOrder_save id workOrder ;;
      populated <- WorkOrder_findById id ;;
      ret (Json 200 populated)
  end.

Definition addLabor (id : Id) (l : Labor) : Handler Response :=
  workOrder <- WorkOrder_findById id ;;
  match workOrder with
  | None => not_found
  | Some workOrder =>
      let workOrder := set_labor workOrder (labor workOrder ++ [l])%list in
      let total := (partsCost (parts workOrder) + laborCost (labor workOrder))%float in
      emit (EvTotal total) ;;
      let workOrder := set_totalEstimate workOrder (Some total) in
      WorkOrder_save id workOrder ;;
      populated <- WorkOrder_findById id ;;
      ret (Json 200 populated)
  end.

(** ** The mutating operations on a work order *)

Inductive Mutation :=
| Create (body : Body)
| Update (id : Id) (body : Body)
| AddPart (id : Id) (part : Part)
| AddLabor (id : Id) (l : Labor)
| StatusUpdate (id : Id) (st : option string).

Definition perform (env : Env) (m : Mutation) : Handler Response :=
  match m with
  | Create body => createWorkOrder env body
  | Update id body => updateWorkOrder env id body
  | AddPart id part => addPart id part
  | AddLabor id l => addLabor id l
  | StatusUpdate id st => updateStatus env id st
  end.

(** The work order a mutation acts on. *)
Definition target (env : Env) (m : Mutation) : Id :=
  match m with
  | Create _ => newObjectId env
  | Update id _ | AddPart id _ | AddLabor id _ | StatusUpdate id _ => id
  end.

(** The body of the two mutations that carry a work-order document. *)
Definition body_of (m : Mutation) : option Body :=
  match m with
  | Create body | Update _ body => Some body
  | _ => None
  end.

(** ** Vocabulary of the properties *)

(** The sum of a list of numbers as JavaScript adds them up: from the
    left, starting from [0], each addition rounded to binary64. *)
Fixpoint sum_from (acc : float) (l : list float) : float :=
  match l with
  | [] => acc
  | x :: rest => sum_from (acc + x)%float rest
  end.

Definition sum_of (l : list float) : float := sum_from 0%float l.

(** The sum over the parts lines of price times quantity. *)
Definition sum_parts (ps : list Part) : float :=
  sum_of (List.map (fun p => (price p * quantity p)%float) ps).

(** The sum over the labor lines of hours times rate. *)
Definition sum_labor (ls : list Labor) : float :=
  sum_of (List.map (fun l => (hours l * rate l)%float) ls).

Definition lines_total (w : WorkOrder) : float :=
  (sum_parts (parts w) + sum_labor (labor w))%float.

Definition http_status (r : Response) : Z :=
  match r with
  | Json code _ => code
  | AppError _ code => code
  | Thrown _ => 500
  end.

Definition succeeded (r : Response) : bool :=
  match r with
  | Json _ _ => true
  | _ => false
  end.

(** The request supplies no total of its own. *)
Definition supplies_no_total (m : Mutation) : bool :=
  match body_of m with
  | Some body =>
      match b_totalEstimate body, b_totalActual body with
      | None, None => true
      | _, _ => false
      end
  | None => true
  end.

(** The total a mutation derives: [totalActual] where a status update sets
    it, [totalEstimate] otherwise. *)
Definition derived_total (m : Mutation) (w : WorkOrder) : option float :=
  match m with
  | StatusUpdate _ (Some s) =>
      if sets_totalActual s then totalActual w else totalEstimate w
  | _ => totalEstimate w
  end.

Definition is_some {A} (o : option A) : bool :=
  match o with
  | Some _ => true
  | None => false
  end.

(** The mutations whose handler recomputes the derived total from the
    lines: a create that carries lines of one kind only, an update that
    carries a lines array, both without a truthy [totalEstimate] of their
    own; every add-part and add-labor; a status update to one of the two
    closing statuses. *)
Definition recomputes (m : Mutation) : bool :=
  match m with
  | Create body =>
      negb (truthy_num (b_totalEstimate body)) &&
      xorb (has_items (b_parts body)) (has_items (b_labor body))
  | Update _ body =>
      negb (truthy_num (b_totalEstimate body)) &&
      (is_some (b_parts body) || is_some (b_labor body))
  | AddPart _ _ | AddLabor _ _ => true
  | StatusUpdate _ st =>
      match st with
      | Some s => sets_totalActual s
      | None => false
      end
  end.

(** The four steps of the status pipeline. *)
Inductive Step := Transition | Notification | Recalculation | MileageSync.

Definition step_of (e : Event) : option Step :=
  match e with
  | EvStatus _ => Some Transition
  | EvSms _ _ => Some Notification
  | EvTotal _ => Some Recalculation
  | EvMileage _ _ => Some MileageSync
  | _ => None
  end.

Fixpoint steps (t : list Event) : list Step :=
  match t with
  | [] => []
  | e :: rest =>
      match step_of e with
      | Some s => s :: steps rest
      | None => steps rest
      end
  end.

Fixpoint ascending (l : list nat) : bool :=
  match l with
  | a :: rest =>
      match rest with
      | b :: _ => (a <=? b)%nat && ascending rest
      | [] => true
      end
  | [] => true
  end.

(** The steps of a trace occur in the order the ranking gives. *)
Definition in_order (rank : Step -> nat) (t : list Event) : bool :=
  ascending (List.map rank (steps t)).

(** Transition, then notification, then recalculation, then mileage sync. *)
Definition spec_rank (s : Step) : nat :=
  match s with
  | Transition => 0
  | Notification => 1
  | Recalculation => 2
  | MileageSync => 3
  end.

Definition is_step (s : Step) (e : Event) : bool :=
  match step_of e, s with
  | Some Transition, Transition
  | Some Notification, Notification
  | Some Recalculation, Recalculation
  | Some MileageSync, MileageSync => true
  | _, _ => false
  end.

(** An SMS was attempted with status [s]. *)
Definition sms_attempted (s : string) (t : list Event) : Prop :=
  exists ok, In (EvSms s ok) t.

(** Some notification was sent during the trace. *)
Definition notified (t : list Event) : bool :=
  existsb (is_step Notification) t.

(** The conditions under which updateWorkOrder texts the customer. *)
Definition sms_due (d : DB) (id : Id) (st : option string) (s : string) : Prop :=
  st = Some s /\ JsString.is_empty s = false /\
  exists w c,
    workOrders d !! id = Some w /\
    status w <> Some s /\
    is_notifiable s = true /\
    customers d !! wo_customer w = Some c /\
    is_Some (vehicles d !! wo_vehicle w) /\
    communicationPreference c = "SMS" /\
    truthy_str (phone c) = true.

(** One entry per trimmed non-empty line of a text. *)
Definition trimmed_lines (sr : string) : list Service :=
  List.map (fun line => mkService (JsString.trim line))
    (List.filter (fun line => negb (JsString.is_empty (JsString.trim line)))
       (JsString.split JsString.newline sr)).

(** A description that is trimmed, non-empty and free of newlines. *)
Definition clean_description (s : Service) : bool :=
  String.eqb (JsString.trim (description s)) (description s) &&
  negb (JsString.is_empty (description s)) &&
  negb (JsString.includes_char JsString.newline (description s)).

(** The vehicle createWorkOrder saves. *)
Definition serviced_vehicle (env : Env) (body : Body) (v : Vehicle)
           (mileage : option Z) : Vehicle :=
  match mileage with
  | Some m =>
      {| v_customer := v_customer v;
         serviceHistory := serviceHistory v ++ [newObjectId env];
         mileageHistory :=
           mileageHistory v ++
           [ {| me_date := entry_date env body;
                me_mileage := m;
                me_source := Some (mileage_source (newObjectId env)) |} ];
         v_currentMileage := Some m |}
  | None =>
      {| v_customer := v_customer v;
         serviceHistory := serviceHistory v ++ [newObjectId env];
         mileageHistory := mileageHistory v;
         v_currentMileage := v_currentMileage v |}
  end.

(** The validation failures of createWorkOrder and their status codes. *)
Inductive create_rejected (d : DB) (body : Body) : Z -> Prop :=
| no_vehicle :
    find_in (vehicles d) (b_vehicle body) = None ->
    create_rejected d body 404
| no_customer :
    find_in (customers d) (b_customer body) = None ->
    create_rejected d body 404
| foreign_vehicle v cid :
    find_in (vehicles d) (b_vehicle body) = Some v ->
    b_customer body = Some cid ->
    is_Some (customers d !! cid) ->
    v_customer v <> cid ->
    create_rejected d body 400.

(** The document updateStatus saves. *)
Definition status_document (s : string) (w : WorkOrder) : WorkOrder :=
  let w1 := set_status w (Some s) in
  if sets_totalActual s
  then set_totalActual w1 (Some (partsCost (parts w1) + laborCost (labor w1))%float)
  else w1.

(** ** Auxiliary definitions *)

(** The number is negative zero. *)
Definition neg_zero (x : float) : Prop := Prim2SF x = S754_zero true.


(** An event that is no pipeline step, or the step [s]. *)
Definition in_phase (s : Step) (e : Event) : Prop :=
  step_of e = None \/ step_of e = Some s.

(** A total is computed and assigned. *)
Definition is_total (e : Event) : bool :=
  match e with
  | EvTotal _ => true
  | _ => false
  end.

(** The events of the mileage block of updateWorkOrder on the work order
    [w]: the block runs when the mileage of the body is usable and the
    vehicle of the work order resolves. *)
Definition mileage_events (env : Env) (body : Body) (d : DB) (w : WorkOrder)
  : list Event :=
  match mileage_update env (b_currentMileage body), vehicles d !! wo_vehicle w with
  | Some m, Some _ => [EvMileage (wo_vehicle w) m; EvWriteVehicle (wo_vehicle w)]
  | _, _ => []
  end.

(** The events of one call of the SMS service inside its try/catch. *)
Definition sms_events (env : Env) (s : string) (c : Customer) (v : option Vehicle)
  : list Event :=
  EvSms s (sendStatusUpdate env s c v) ::
  (if sendStatusUpdate env s c v then []
   else [EvLogError "Failed to send SMS notification:"]).

(** The event of the status assignment of a write. *)
Definition status_events (st : option string) : list Event :=
  match st with
  | Some s => [EvStatus s]
  | None => []
  end.

(** ** Sample data *)

Module Sample.

Definition parse (s : string) : option Z :=
  if String.eqb s "45000" then Some 45000 else None.

(** An environment whose SMS gateway is down. *)
Definition env : Env :=
  {| now := 1700000000000;
     toDateString :=
       (fun d => if Z.ltb d 1700000000000
                 then "Mon Nov 13 2023" else "Tue Nov 14 2023");
     parseFloat := parse;
     newObjectId := "wo9";
     defaults := {| d_date := None; d_status := Some "Created";
                    d_totalEstimate := Some 0%float; d_totalActual := Some 0%float |};
     sendStatusUpdate := fun _ _ _ => false |}.

Definition alice : Customer :=
  {| communicationPreference := "SMS"; phone := Some "555-0100"; email := None |}.

Definition bob : Customer :=
  {| communicationPreference := "Email"; phone := Some "555-0101";
     email := Some "bob@example.com" |}.

Definition civic : Vehicle :=
  {| v_customer := "c1"; serviceHistory := ["wo1"]; mileageHistory := [];
     v_currentMileage := Some 40000 |}.

Definition truck : Vehicle :=
  {| v_customer := "c2"; serviceHistory := ["wo2"]; mileageHistory := [];
     v_currentMileage := None |}.

Definition pads : Part := {| part_name := "Brake pads"; price := 40; quantity := 2 |}.
Definition rotor : Part := {| part_name := "Rotor"; price := 75; quantity := 1 |}.
Definition fitting : Labor := {| labor_description := "Fitting"; hours := 2; rate := 90 |}.

Definition wo1 : WorkOrder :=
  {| wo_customer := "c1"; wo_vehicle := "v1"; wo_date := None;
     status := Some "Created"; services := [mkService "Brakes"];
     serviceRequested := Some "Brakes"; parts := [pads]; labor := [fitting];
     totalEstimate := Some 260%float; totalActual := None;
     appointmentId := None; assignedTechnician := None |}.

Definition wo2 : WorkOrder :=
  {| wo_customer := "c2"; wo_vehicle := "v2"; wo_date := None;
     status := Some "Created"; services := []; serviceRequested := None;
     parts := []; labor := []; totalEstimate := Some 0%float; totalActual := None;
     appointmentId := None; assignedTechnician := None |}.

Definition db : DB :=
  {| workOrders := {[ "wo1" := wo1; "wo2" := wo2 ]};
     vehicles := {[ "v1" := civic; "v2" := truck ]};
     customers := {[ "c1" := alice; "c2" := bob ]};
     appointments := ∅ |}.

End Sample.

(** Requests used as concrete cases. *)
Module Cases.
Import Sample.

(** A new work order for Alice's Civic with one part and an estimate of
    its own. *)
Definition quoted : Body :=
  {| b_customer := Some "c1"; b_vehicle := Some "v1"; b_date := None;
     b_status := None; b_services := None; b_serviceRequested := None;
     b_parts := Some [pads]; b_labor := None;
     b_totalEstimate := Some 500%float; b_totalActual := None;
     b_currentMileage := None; b_appointmentId := None;
     b_assignedTechnician := None |}.

(** A new work order with parts and labor and no estimate. *)
Definition parts_and_labor : Body :=
  {| b_customer := Some "c1"; b_vehicle := Some "v1"; b_date := None;
     b_status := None; b_services := None; b_serviceRequested := None;
     b_parts := Some [pads]; b_labor := Some [fitting];
     b_totalEstimate := None; b_totalActual := None;
     b_currentMileage := None; b_appointmentId := None;
     b_assignedTechnician := None |}.

(** A new work order with parts only. *)
Definition parts_only : Body :=
  {| b_customer := Some "c1"; b_vehicle := Some "v1"; b_date := None;
     b_status := None; b_services := Some [mkService "Brakes"; mkService "Oil change"];
     b_serviceRequested := None;
     b_parts := Some [pads; rotor]; b_labor := None;
     b_totalEstimate := None; b_totalActual := None;
     b_currentMileage := Some (MStr "45000"); b_appointmentId := None;
     b_assignedTechnician := None |}.

(** A new work order described by one line of text with blanks around it. *)
Definition padded_text : Body :=
  {| b_customer := Some "c1"; b_vehicle := Some "v1"; b_date := None;
     b_status := None; b_services := None;
     b_serviceRequested := Some " oil change ";
     b_parts := None; b_labor := None;
     b_totalEstimate := None; b_totalActual := None;
     b_currentMileage := None; b_appointmentId := None;
     b_assignedTechnician := None |}.

(** A new work order whose odometer reading is the number zero. *)
Definition zero_mileage : Body :=
  {| b_customer := Some "c1"; b_vehicle := Some "v1"; b_date := None;
     b_status := None; b_services := None; b_serviceRequested := None;
     b_parts := None; b_labor := None;
     b_totalEstimate := None; b_totalActual := None;
     b_currentMileage := Some (MNum 0); b_appointmentId := None;
     b_assignedTechnician := None |}.

(** A new work order for Alice on Bob's truck. *)
Definition wrong_owner : Body :=
  {| b_customer := Some "c1"; b_vehicle := Some "v2"; b_date := None;
     b_status := None; b_services := None; b_serviceRequested := None;
     b_parts := None; b_labor := None;
     b_totalEstimate := None; b_totalActual := None;
     b_currentMileage := Some (MNum 51000); b_appointmentId := None;
     b_assignedTechnician := None |}.

(** An update that changes status, parts and mileage at once. *)
Definition full_update : Body :=
  {| b_customer := None; b_vehicle := None; b_date := None;
     b_status := Some "Parts Received"; b_services := None;
     b_serviceRequested := None;
     b_parts := Some [pads; rotor]; b_labor := None;
     b_totalEstimate := None; b_totalActual := None;
     b_currentMileage := Some (MNum 45000); b_appointmentId := None;
     b_assignedTechnician := None |}.

(** An update that changes the status only. *)
Definition status_only : Body :=
  {| b_customer := None; b_vehicle := None; b_date := None;
     b_status := Some "Parts Received"; b_services := None;
     b_serviceRequested := None; b_parts := None; b_labor := None;
     b_totalEstimate := None; b_totalActual := None;
     b_currentMileage := None; b_appointmentId := None;
     b_assignedTechnician := None |}.

End Cases.

(** ** Running a handler that answers with a payload of its own *)

(** The outcome and the store a handler leaves: [Continue a] is the
    success response carrying [a], [Finish r] the response [r] given through
    [next]. *)
Definition attempt {A} (m : Handler A) (d : DB) : Outcome A * DB :=
  match m {| w_db := d; w_log := [] |} with
  | (o, w) => (o, w_db w)
  end.

(** ** deleteWorkOrder *)

(** [{ $pull: { serviceHistory: id } }] *)
Definition pull_serviceHistory (id : Id) (v : Vehicle) : Vehicle :=
  {| v_customer := v_customer v;
     serviceHistory :=
       List.filter (fun x => negb (String.eqb x id)) (serviceHistory v);
     mileageHistory := mileageHistory v;
     v_currentMileage := v_currentMileage v |}.

(** [Vehicle.findByIdAndUpdate(id, update)]: no vehicle with the id, no
    write. *)
Definition Vehicle_findByIdAndUpdate (vid : Id) (update : Vehicle -> Vehicle)
  : Handler unit :=
  stored <- Vehicle_findById (Some vid) ;;
  match stored with
  | Some v => Vehicle_save vid (update v)
  | None => ret tt
  end.

Definition remove_workOrder (id : Id) (d : DB) : DB :=
  {| workOrders := delete id (workOrders d);
     vehicles := vehicles d;
     customers := customers d;
     appointments := appointments d |}.

Definition WorkOrder_findByIdAndDelete (id : Id) : Handler unit :=
  modify (remove_workOrder id).

Definition deleteWorkOrder (id : Id) : Handler Response :=
  workOrder <- WorkOrder_findById id ;;
  match workOrder with
  | None => not_found
  | Some workOrder =>
      Vehicle_findByIdAndUpdate (wo_vehicle workOrder) (pull_serviceHistory id) ;;
      WorkOrder_findByIdAndDelete id ;;
      ret (Json 204 None)
  end.

(** ** generateInvoice *)

Record Invoice := mkInvoice {
  workOrderId : Id;
  inv_customer : option SelectedCustomer;
  inv_vehicle : option Vehicle;
  inv_assignedTechnician : option Id;
  inv_date : option Date;
  inv_parts : list Part;
  inv_labor : list Labor;
  inv_partsCost : float;
  inv_laborCost : float;
  totalCost : float;
  inv_status : option string
}.

(** Answers 200 with the invoice. *)
Definition generateInvoice (id : Id) : Handler Invoice :=
  workOrder <- WorkOrder_findById id ;;
  match workOrder with
  | None => not_found
  | Some workOrder =>
      customer <- Customer_populate ["name"; "email"; "phone"; "address"]
                    (wo_customer workOrder) ;;
      vehicle <- Vehicle_findById (Some (wo_vehicle workOrder)) ;;
      let parts_cost := partsCost (parts workOrder) in
      let labor_cost := laborCost (labor workOrder) in
      let total := (parts_cost + labor_cost)%float in
      ret {| workOrderId := id;
             inv_customer := customer;
             inv_vehicle := vehicle;
             inv_assignedTechnician := assignedTechnician workOrder;
             inv_date := wo_date workOrder;
             inv_parts := parts workOrder;
             inv_labor := labor workOrder;
             inv_partsCost := parts_cost;
             inv_laborCost := labor_cost;
             totalCost := total;
             inv_status := status workOrder |}
  end.

(** ** getAllWorkOrders and getWorkOrdersByStatus *)

(** The filters of [req.query]; the two dates are the parsed
    [new Date(startDate)] and [new Date(endDate)]. *)
Record Filters := mkFilters {
  f_status : option string;
  f_customer : option Id;
  f_vehicle : option Id;
  f_startDate : option Date;
  f_endDate : option Date
}.

(** The query the handler builds, as a test on one document. *)
Definition matches (q : Filters) (w : WorkOrder) : bool :=
  (if truthy_str (f_status q)
   then field_is (status w) (or_keep (f_status q) "") else true) &&
  (if truthy_str (f_customer q)
   then String.eqb (wo_customer w) (or_keep (f_customer q) "") else true) &&
  (if truthy_str (f_vehicle q)
   then String.eqb (wo_vehicle w) (or_keep (f_vehicle q) "") else true) &&
  match f_startDate q with
  | Some a => match wo_date w with Some t => Z.leb a t | None => false end
  | None => true
  end &&
  match f_endDate q with
  | Some b => match wo_date w with Some t => Z.leb t b | None => false end
  | None => true
  end.

(** Order of dates in a sort: a missing date comes before every date. *)
Definition date_leb (a b : option Date) : bool :=
  match a, b with
  | None, _ => true
  | Some _, None => false
  | Some x, Some y => Z.leb x y
  end.

(** [x] may stand before [y] under [.sort({ date: -1 })]. *)
Definition newest_first (x y : Id * WorkOrder) : Prop :=
  date_leb (wo_date (snd y)) (wo_date (snd x)) = true.

#[global] Instance newest_first_dec : RelDecision newest_first :=
  fun x y => bool_eq_dec (date_leb (wo_date (snd y)) (wo_date (snd x))) true.

(** [WorkOrder.find(query).sort({ date: -1 })] *)
Definition WorkOrder_find_sorted (p : WorkOrder -> bool) (d : DB)
  : list (Id * WorkOrder) :=
  merge_sort newest_first
    (List.filter (fun x => p (snd x)) (map_to_list (workOrders d))).

(** Answers 200 with the documents and their count. *)
Definition getAllWorkOrders (q : Filters) : Handler (list (Id * WorkOrder)) :=
  query (WorkOrder_find_sorted (matches q)).

Definition getWorkOrdersByStatus (s : string) : Handler (list (Id * WorkOrder)) :=
  query (WorkOrder_find_sorted (fun w => field_is (status w) s)).

(** ** The customer controller *)

Module CustomerController.

Definition is_digit (c : ascii) : bool :=
  let n := nat_of_ascii c in
  (48 <=? n)%nat && (n <=? 57)%nat.

(** [s.replace(/[^\d]/g, '')] *)
Fixpoint digits_of (s : string) : string :=
  match s with
  | EmptyString => EmptyString
  | String c s' => if is_digit c then String c (digits_of s') else digits_of s'
  end.

Definition normalizePhoneNumber (phoneNumber : option string) : string :=
  if negb (truthy_str phoneNumber) then ""
  else digits_of (or_keep phoneNumber "").

Definition dash : ascii := ascii_of_nat 45.

(** [`${p.slice(0, 3)}-${p.slice(3, 6)}-${p.slice(6, 10)}`] *)
Definition formattedPhone (p : string) : string :=
  (substring 0 3 p ++ String dash (substring 3 3 p ++ String dash (substring 6 4 p)))%string.

(** The phone numbers a lookup compares with: the one given, then its
    digits when it has a dash, or else its dashed form when that has twelve
    characters. *)
Definition phoneVariations (phone : string) : list string :=
  phone ::
  (if JsString.includes_char dash phone then
     [normalizePhoneNumber (Some phone)]
   else
     if (String.length (formattedPhone phone) =? 12)%nat
     then [formattedPhone phone] else []).

(** [{ phone: { $in: variations } }] on one customer. *)
Definition phone_in (variations : list string) (c : Customer) : bool :=
  match phone c with
  | Some p => existsb (String.eqb p) variations
  | None => false
  end.

(** [Customer.findOne(query)]: the first match in the order of the store. *)
Definition Customer_findOne (p : Customer -> bool) : Handler (option (Id * Customer)) :=
  query (fun d => List.find (fun x => p (snd x)) (map_to_list (customers d))).

(** Answers 200 with [exists: false] ([None]) or with [exists: true] and
    the customer. *)
Definition checkExistingCustomerByPhone (phone : option string)
  : Handler (option (Id * Customer)) :=
  if negb (truthy_str phone) then
    finish (AppError "Please provide a phone number" 400)
  else
    Customer_findOne (phone_in (phoneVariations (or_keep phone ""))).

(** [Vehicle.find({ customer: id })] *)
Definition vehicles_of (id : Id) (d : DB) : list (Id * Vehicle) :=
  List.filter (fun x => String.eqb (v_customer (snd x)) id)
              (map_to_list (vehicles d)).

Definition customer_not_found {A} : Handler A :=
  finish (AppError "No customer found with that ID" 404).

(** Answers 200 with the vehicles and their count. *)
Definition getCustomerVehicles (id : Id) : Handler (list (Id * Vehicle)) :=
  customer <- Customer_findById (Some id) ;;
  match customer with
  | None => customer_not_found
  | Some _ => query (vehicles_of id)
  end.

Definition remove_customer (id : Id) (d : DB) : DB :=
  {| workOrders := workOrders d;
     vehicles := vehicles d;
     customers := delete id (customers d);
     appointments := appointments d |}.

Definition deleteCustomer (id : Id) : Handler Response :=
  customer <- Customer_findById (Some id) ;;
  match customer with
  | None => customer_not_found
  | Some _ =>
      vehicleCount <- query (fun d => length (vehicles_of id d)) ;;
      if (0 <? vehicleCount)%nat then
        finish (AppError
          "This customer has associated vehicles. Please delete or reassign them first."
          400)
      else
        modify (remove_customer id) ;;
        ret (Json 204 None)
  end.

End CustomerController.

(** ** Vocabulary of the further properties *)

(** Every vehicle's owner is a stored customer. *)
Definition owners_exist (d : DB) : Prop :=
  forall vid v, vehicles d !! vid = Some v -> is_Some (customers d !! v_customer v).

(** Every entry of a vehicle's service history is a stored work order of
    that vehicle. *)
Definition history_linked (d : DB) : Prop :=
  forall vid v id,
    vehicles d !! vid = Some v -> In id (serviceHistory v) ->
    exists w, workOrders d !! id = Some w /\ wo_vehicle w = vid.

(** The mutation keeps each work order on its vehicle: a create gets an
    id no stored work order has, an update does not move the work order to
    another vehicle. *)
Definition keeps_vehicle (env : Env) (d : DB) (m : Mutation) : Prop :=
  match m with
  | Create _ => workOrders d !! newObjectId env = None
  | Update id body =>
      forall w, workOrders d !! id = Some w ->
                or_keep (b_vehicle body) (wo_vehicle w) = wo_vehicle w
  | _ => True
  end.

(** The store after the mileage block of updateWorkOrder. *)
Definition mileage_synced (env : Env) (id : Id) (data : Body) (d : DB) : DB :=
  match mileage_update env (b_currentMileage data), workOrders d !! id with
  | Some mileageValue, Some wo =>
      match vehicles d !! wo_vehicle wo with
      | Some v =>
          put_vehicle (wo_vehicle wo)
            {| v_customer := v_customer v;
               serviceHistory := serviceHistory v;
               mileageHistory :=
                 match List.find (same_mileage_entry env id data mileageValue)
                                 (mileageHistory v) with
                 | Some _ => mileageHistory v
                 | None =>
                     mileageHistory v ++
                     [ {| me_date := entry_date env data;
                          me_mileage := mileageValue;
                          me_source := Some (mileage_source id) |} ]
                 end;
               v_currentMileage := Some mileageValue |} d
      | None => d
      end
  | _, _ => d
  end.

(** The environment of a later request: the same collaborators, the clock
    at [t]. *)
Definition at_time (env : Env) (t : Date) : Env :=
  {| now := t;
     toDateString := toDateString env;
     parseFloat := parseFloat env;
     newObjectId := newObjectId env;
     defaults := defaults env;
     sendStatusUpdate := sendStatusUpdate env |}.

(** The store a mutation leaves. *)
Definition after (env : Env) (m : Mutation) (d : DB) : DB :=
  db_of (handle (perform env m) d).

(** A ten-digit phone number. *)
Definition ten_digits (p : string) : bool :=
  (String.length p =? 10)%nat &&
  String.eqb (CustomerController.digits_of p) p.

(** ** Proof support *)

Ltac run_handler :=
  unfold handle, response_of, db_of, trace_of, WorkOrder_save, Vehicle_save,
    WorkOrder_findById, Vehicle_findById, Customer_findById,
    Customer_populate, Appointment_findById, sms_notify, not_found, when,
    bind, ret, finish, emit, query, modify; simpl.

Ltac phase_tac :=
  simpl;
  repeat match goal with
         | |- Forall _ (_ :: _) =>
             constructor; [first [left; reflexivity | right; reflexivity]|]
         | |- Forall _ [] => constructor
         end.

(** ** Facts of binary64 arithmetic

    Zero has two signs in binary64, and [x + 0] is [x] for every [x] but
    [-0]. The totals of the handlers are sums that start from [0]; the
    lemmas below show that such a sum is never [-0], from the specification
    of the addition of Rocq's primitive floats. *)

Lemma digits2_pos_lower (p : positive) :
  2 ^ (Zpos (digits2_pos p) - 1) <= Zpos p.
Proof.
  induction p as [p IH | p IH |]; simpl digits2_pos.
  - rewrite Pos2Z.inj_succ. replace (Z.succ (Zpos (digits2_pos p)) - 1)
      with (Z.succ (Zpos (digits2_pos p) - 1)) by lia.
    rewrite Z.pow_succ_r by lia. lia.
  - rewrite Pos2Z.inj_succ. replace (Z.succ (Zpos (digits2_pos p)) - 1)
      with (Z.succ (Zpos (digits2_pos p) - 1)) by lia.
    rewrite Z.pow_succ_r by lia. lia.
  - simpl. lia.
Qed.

Lemma iter_pos_nat {A} (f : A -> A) (n : positive) (x : A) :
  SpecFloat.iter_pos f n x = Nat.iter (Pos.to_nat n) f x.
Proof.
  revert x. induction n as [n IH | n IH |]; intros x; simpl SpecFloat.iter_pos.
  - rewrite !IH, Pos2Nat.inj_xI.
    replace (2 * Pos.to_nat n)%nat with (Pos.to_nat n + Pos.to_nat n)%nat by lia.
    now rewrite Nat.iter_succ_r, Nat.iter_add.
  - rewrite !IH, Pos2Nat.inj_xO.
    replace (2 * Pos.to_nat n)%nat with (Pos.to_nat n + Pos.to_nat n)%nat by lia.
    now rewrite Nat.iter_add.
  - reflexivity.
Qed.

Lemma shr_1_half (r : shr_record) :
  0 <= shr_m r -> shr_m (shr_1 r) = shr_m r / 2.
Proof.
  destruct r as [m r s]. simpl shr_m at 1 3. intros Hm.
  destruct m as [|p|p]; [reflexivity| |lia].
  destruct p as [p|p|]; unfold shr_1; simpl shr_m.
  - rewrite Pos2Z.inj_xI. apply Z.div_unique with 1; lia.
  - rewrite Pos2Z.inj_xO. apply Z.div_unique with 0; lia.
  - reflexivity.
Qed.

Lemma shr_iter_div (n : nat) (r : shr_record) :
  0 <= shr_m r ->
  shr_m (Nat.iter n shr_1 r) = shr_m r / 2 ^ Z.of_nat n.
Proof.
  intros Hm. induction n as [|n IH].
  - simpl. now rewrite Z.div_1_r.
  - rewrite Nat2Z.inj_succ, Z.pow_succ_r by lia. simpl Nat.iter.
    rewrite shr_1_half.
    + rewrite IH, Z.div_div by lia. f_equal. lia.
    + rewrite IH. apply Z.div_pos; lia.
Qed.

Lemma fexp_lower (e : Z) : emin <= fexp prec emax e.
Proof. unfold fexp, emin. apply Z.le_max_r. Qed.

(** Rounding a positive mantissa at an exponent that is not below the
    smallest one never gives zero. *)
Lemma shr_fexp_pos (m e : Z) (l : location) :
  0 < m -> emin <= e ->
  0 < shr_m (fst (shr_fexp prec emax m e l)) /\
  emin <= snd (shr_fexp prec emax m e l).
Proof.
  intros Hm He. unfold shr_fexp, shr.
  assert (Hrec : shr_m (shr_record_of_loc m l) = m)
    by (destruct l as [|[]]; reflexivity).
  destruct m as [|p|p]; try lia. simpl Zdigits2.
  destruct (fexp prec emax (Zpos (digits2_pos p) + e) - e) as [|k|k] eqn:Hk;
    simpl fst; simpl snd; rewrite ?Hrec; try (split; lia).
  rewrite iter_pos_nat, shr_iter_div by (rewrite Hrec; lia).
  rewrite Hrec, positive_nat_Z.
  assert (Hf : fexp prec emax (Zpos (digits2_pos p) + e)
               = Zpos (digits2_pos p) + e - prec).
  { unfold fexp in *. lia. }
  split; [|lia].
  apply Z.div_str_pos. split; [apply Z.pow_pos_nonneg; lia|].
  pose proof (digits2_pos_lower p) as Hd.
  eapply Z.le_trans; [|exact Hd].
  apply Z.pow_le_mono_r; [lia|]. unfold prec in *. lia.
Qed.

Lemma round_nearest_even_pos (m : Z) (l : location) :
  0 < m -> 0 < round_nearest_even m l.
Proof.
  intros Hm. destruct l as [|[]]; simpl; try lia.
  destruct (Z.even m); lia.
Qed.

Lemma binary_round_aux_nonzero (s s' : bool) (m e : Z) (l : location) :
  0 < m -> emin <= e ->
  binary_round_aux prec emax s m e l <> S754_zero s'.
Proof.
  intros Hm He. unfold binary_round_aux.
  destruct (shr_fexp_pos m e l Hm He) as [H1 H1e].
  destruct (shr_fexp prec emax m e l) as [mrs' e'] eqn:E1. simpl in H1, H1e.
  pose proof (round_nearest_even_pos (shr_m mrs') (loc_of_shr_record mrs') H1) as H2.
  destruct (shr_fexp_pos _ e' loc_Exact H2 H1e) as [H3 _].
  destruct (shr_fexp prec emax
              (round_nearest_even (shr_m mrs') (loc_of_shr_record mrs')) e' loc_Exact)
    as [mrs'' e''] eqn:E2. simpl in H3.
  destruct (shr_m mrs'') as [|q|q]; try lia.
  destruct (Z.leb e'' (emax - prec)); discriminate.
Qed.

Lemma binary_round_nonzero (s s' : bool) (p : positive) (e : Z) :
  emin <= e -> binary_round prec emax s p e <> S754_zero s'.
Proof.
  intros He. unfold binary_round, shl_align.
  pose proof (fexp_lower (Zpos (digits2_pos p) + e)) as Hf.
  destruct (fexp prec emax (Zpos (digits2_pos p) + e) - e) eqn:Hd;
    apply binary_round_aux_nonzero; lia.
Qed.

Lemma valid_exponent (s : bool) (m : positive) (e : Z) :
  valid_binary (S754_finite s m e) = true -> emin <= e.
Proof.
  unfold valid_binary, SpecFloat.valid_binary, bounded, canonical_mantissa.
  intros H. apply andb_true_iff in H. destruct H as [H _].
  apply Z.eqb_eq in H. rewrite <- H. apply fexp_lower.
Qed.

(** A sum is [-0] only when both terms are. *)
Lemma add_not_neg_zero (a t : float) :
  ~ neg_zero a -> ~ neg_zero (a + t)%float.
Proof.
  unfold neg_zero. intros Ha. rewrite add_spec.
  pose proof (Prim2SF_valid a) as Va. pose proof (Prim2SF_valid t) as Vt.
  destruct (Prim2SF a) as [sa|sa| |sa ma ea], (Prim2SF t) as [st|st| |st mt et];
    unfold SF64add, SFadd; try discriminate;
    try (destruct sa, st; congruence).
  apply valid_exponent in Va. apply valid_exponent in Vt.
  unfold binary_normalize.
  destruct (cond_Zopp sa (Zpos (fst (shl_align ma ea (Z.min ea et)))) +
            cond_Zopp st (Zpos (fst (shl_align mt et (Z.min ea et)))));
    [discriminate| |]; apply binary_round_nonzero; lia.
Qed.

Lemma add_zero_r (x : float) : ~ neg_zero x -> (x + 0)%float = x.
Proof.
  unfold neg_zero. intros Hx. apply Prim2SF_inj. rewrite add_spec.
  change (Prim2SF 0) with (S754_zero false).
  destruct (Prim2SF x) as [[]| | |]; try reflexivity. congruence.
Qed.

Lemma zero_not_neg_zero : ~ neg_zero 0%float.
Proof. unfold neg_zero. change (Prim2SF 0) with (S754_zero false). discriminate. Qed.

Lemma sum_from_not_neg_zero (l : list float) (acc : float) :
  ~ neg_zero acc -> ~ neg_zero (sum_from acc l).
Proof.
  revert acc. induction l as [|x l IH]; intros acc Hacc; simpl.
  - exact Hacc.
  - apply IH. now apply add_not_neg_zero.
Qed.

Lemma sum_of_add_zero_r (l : list float) : (sum_of l + 0)%float = sum_of l.
Proof. apply add_zero_r, sum_from_not_neg_zero, zero_not_neg_zero. Qed.

(** The sums are those of JavaScript: they round. *)
Example sum_rounds :
  sum_of [0.1; 0.2]%float = 0.30000000000000004%float /\
  (9007199254740991 * 3)%float = 27021597764222972%float.
Proof. split; reflexivity. Qed.

(** ** The string operations on examples *)

Example trim_example :
  JsString.trim (String (ascii_of_nat 9) "  rotate tyres  " ++ JsString.nl)%string
  = "rotate tyres".
Proof. reflexivity. Qed.

Example split_example :
  JsString.split JsString.newline
    ("brakes" ++ JsString.nl ++ JsString.nl ++ " oil")%string
  = ["brakes"; ""; " oil"].
Proof. reflexivity. Qed.

Example join_example :
  JsString.join JsString.nl ["brakes"; "oil"]
  = ("brakes" ++ JsString.nl ++ "oil")%string.
Proof. reflexivity. Qed.

Example includes_example :
  JsString.includes (mileage_source "wo1") "imported from Work Order #wo12" = true /\
  JsString.includes (mileage_source "wo1") "Work Order #wo2" = false.
Proof. split; reflexivity. Qed.

Example services_of_string_example :
  services_of_string ("  brakes " ++ JsString.nl ++ "   " ++ JsString.nl ++ "oil")%string
  = [mkService "brakes"; mkService "oil"].
Proof. reflexivity. Qed.

(** ** Totals: the fold of the source is the sum *)

Lemma partsCost_from (ps : list Part) (acc : float) :
  fold_left (fun total part => (total + price part * quantity part)%float) ps acc
  = sum_from acc (List.map (fun p => (price p * quantity p)%float) ps).
Proof.
  revert acc. induction ps as [|p ps IH]; intros acc; simpl; [reflexivity|].
  apply IH.
Qed.

Lemma partsCost_sum (ps : list Part) : partsCost ps = sum_parts ps.
Proof. apply partsCost_from. Qed.

Lemma laborCost_from (ls : list Labor) (acc : float) :
  fold_left (fun total l => (total + hours l * rate l)%float) ls acc
  = sum_from acc (List.map (fun l => (hours l * rate l)%float) ls).
Proof.
  revert acc. induction ls as [|l ls IH]; intros acc; simpl; [reflexivity|].
  apply IH.
Qed.

Lemma laborCost_sum (ls : list Labor) : laborCost ls = sum_labor ls.
Proof. apply laborCost_from. Qed.

Lemma cost_lines_total (w : WorkOrder) :
  (partsCost (parts w) + laborCost (labor w))%float = lines_total w.
Proof. unfold lines_total. now rewrite partsCost_sum, laborCost_sum. Qed.

(** ** updateStatus, addPart and addLabor run to completion *)

Lemma updateStatus_run env id s d w :
  JsString.is_empty s = false ->
  workOrders d !! id = Some w ->
  handle (updateStatus env id (Some s)) d =
    (Json 200 (Some (status_document s w)),
     put_workOrder id (status_document s w) d,
     [EvStatus s] ++
     (if sets_totalActual s then [EvTotal (lines_total w)] else []) ++
     [EvWriteWorkOrder id]).
Proof.
  intros Hs Hw. unfold updateStatus, status_document. simpl.
  rewrite Hs. simpl. rewrite <- cost_lines_total.
  run_handler. rewrite Hw.
  destruct (sets_totalActual s); simpl; rewrite lookup_insert_eq; simpl.
  all: destruct (customers d !! wo_customer w) as [c|]; reflexivity.
Qed.

Lemma updateStatus_no_status env id st d :
  truthy_str st = false ->
  handle (updateStatus env id st) d = (AppError "Please provide a status" 400, d, []).
Proof.
  intros H. unfold updateStatus. rewrite H. reflexivity.
Qed.

Lemma updateStatus_missing env id st d :
  truthy_str st = true ->
  workOrders d !! id = None ->
  handle (updateStatus env id st) d =
    (AppError "No work order found with that ID" 404, d, []).
Proof.
  intros H Hw. unfold updateStatus. rewrite H. simpl.
  run_handler. rewrite Hw. reflexivity.
Qed.

Lemma addPart_run id part d w :
  workOrders d !! id = Some w ->
  let w' := set_totalEstimate (set_parts w (parts w ++ [part]))
              (Some (lines_total (set_parts w (parts w ++ [part])))) in
  handle (addPart id part) d =
    (Json 200 (Some w'), put_workOrder id w' d,
     [EvTotal (lines_total (set_parts w (parts w ++ [part]))); EvWriteWorkOrder id]).
Proof.
  intros Hw. simpl. rewrite <- cost_lines_total.
  unfold addPart. run_handler. rewrite Hw. simpl.
  rewrite lookup_insert_eq. reflexivity.
Qed.

Lemma addLabor_run id l d w :
  workOrders d !! id = Some w ->
  let w' := set_totalEstimate (set_labor w (labor w ++ [l]))
              (Some (lines_total (set_labor w (labor w ++ [l])))) in
  handle (addLabor id l) d =
    (Json 200 (Some w'), put_workOrder id w' d,
     [EvTotal (lines_total (set_labor w (labor w ++ [l]))); EvWriteWorkOrder id]).
Proof.
  intros Hw. simpl. rewrite <- cost_lines_total.
  unfold addLabor. run_handler. rewrite Hw. simpl.
  rewrite lookup_insert_eq. reflexivity.
Qed.

(** ** The stages of updateWorkOrder *)

Lemma update_totals_run id data W :
  match update_totals id data W with
  | (Continue data', W') =>
      w_db W' = w_db W /\
      data' = set_b_totalEstimate data (b_totalEstimate data') /\
      (exists evs, w_log W' = w_log W ++ evs /\ Forall (in_phase Recalculation) evs) /\
      (is_some (b_parts data) || is_some (b_labor data) = true ->
       is_Some (workOrders (w_db W) !! id)) /\
      (forall w, workOrders (w_db W) !! id = Some w ->
                 truthy_num (b_totalEstimate data) = false ->
                 is_some (b_parts data) || is_some (b_labor data) = true ->
                 b_totalEstimate data' =
                   Some (partsCost (or_keep (b_parts data) (parts w)) +
                         laborCost (or_keep (b_labor data) (labor w)))%float)
  | (Finish r, W') =>
      W' = W /\ r = AppError "No work order found with that ID" 404 /\
      workOrders (w_db W) !! id = None
  end.
Proof.
  destruct W as [d log].
  destruct data as [bc bv bd bs bsv bsr bp bl bte bta bcm bap bat].
  unfold update_totals; simpl.
  assert (Hnil : forall l : list Event, l = l ++ []) by (intros; now rewrite app_nil_r).
  destruct bp as [ps|], bl as [ls|]; run_handler;
    try (destruct (workOrders d !! id) as [w|] eqn:Hw; simpl; [|now auto]).
  4: { repeat split; auto; try discriminate. exists []. split; auto. }
  all: destruct (truthy_num bte) eqn:Hte; simpl; rewrite ?Hte; simpl.
  all: try destruct (negb (PrimFloat.is_zero (partsCost ps + laborCost ls) ||
                           PrimFloat.is_nan (partsCost ps + laborCost ls))) eqn:Ht2;
    simpl.
  all: repeat split; eauto; try congruence.
  all: try (eexists; split; [rewrite <- ?app_assoc; simpl; reflexivity || apply Hnil|];
            phase_tac).
  all: try (intros w' Hw' Hf _; congruence).
Qed.

Lemma overwrite_is_Some {A} (m : gmap string A) (k : string) (x y : A) (j : string) :
  m !! k = Some y ->
  is_Some (<[k := x]> m !! j) <-> is_Some (m !! j).
Proof.
  intros Hk. destruct (decide (k = j)) as [->|Hne].
  - rewrite lookup_insert_eq, Hk. split; eauto.
  - rewrite lookup_insert_ne by assumption. reflexivity.
Qed.

Lemma update_mileage_run env id data W :
  exists d' evs,
    update_mileage env id data W = (Continue tt, mkWorld d' (w_log W ++ evs)) /\
    workOrders d' = workOrders (w_db W) /\
    customers d' = customers (w_db W) /\
    (forall v, is_Some (vehicles d' !! v) <-> is_Some (vehicles (w_db W) !! v)) /\
    Forall (in_phase MileageSync) evs /\
    (workOrders (w_db W) !! id = None -> d' = w_db W /\ evs = []).
Proof.
  destruct W as [d log]. unfold update_mileage. simpl.
  destruct (mileage_update env (b_currentMileage data)) as [m|].
  2: { exists d, []. rewrite app_nil_r. repeat split; auto. }
  run_handler.
  destruct (workOrders d !! id) as [wo|] eqn:Hwo; simpl.
  2: { exists d, []. rewrite app_nil_r. repeat split; auto. }
  destruct (vehicles d !! wo_vehicle wo) as [v|] eqn:Hv; simpl.
  2: { exists d, []. rewrite app_nil_r. repeat split; auto; discriminate. }
  eexists _, [EvMileage (wo_vehicle wo) m; EvWriteVehicle (wo_vehicle wo)].
  rewrite <- app_assoc. simpl. split; [reflexivity|].
  split; [reflexivity|]. split; [reflexivity|]. split; [|split].
  - intros k. eapply overwrite_is_Some. eassumption.
  - phase_tac.
  - discriminate.
Qed.

Lemma status_differs_spec (old : option string) (s : string) :
  status_differs old s = true <-> old <> Some s.
Proof.
  unfold status_differs. destruct old as [o|].
  - destruct (String.eqb o s) eqn:E; simpl.
    + apply String.eqb_eq in E. subst. split; [discriminate | congruence].
    + apply String.eqb_neq in E. split; [intros _; congruence | reflexivity].
  - split; [discriminate | reflexivity].
Qed.

Lemma sms_in_events (s s' : string) (ok : bool) :
  sms_attempted s (EvSms s' ok :: (if negb ok then [EvLogError "Failed to send SMS notification:"] else []))
  <-> s' = s.
Proof.
  unfold sms_attempted. split.
  - intros [ok' [H|H]]; [congruence|]. destruct ok; simpl in H.
    + destruct H.
    + destruct H as [H|[]]. discriminate.
  - intros ->. exists ok. left. reflexivity.
Qed.

Lemma no_sms_nil (s : string) : ~ sms_attempted s [].
Proof. intros [ok []]. Qed.

Lemma update_notify_run env id data W :
  exists evs,
    update_notify env id data W = (Continue tt, mkWorld (w_db W) (w_log W ++ evs)) /\
    Forall (in_phase Notification) evs /\
    (forall s, sms_attempted s evs <-> sms_due (w_db W) id (b_status data) s) /\
    (forall s ok, In (EvSms s ok) evs ->
       exists c v, ok = sendStatusUpdate env s c v).
Proof.
  destruct W as [d log]. unfold update_notify, sms_due. simpl.
  assert (Hno : forall P : string -> Prop, (forall s, P s -> False) ->
     exists evs : list Event,
       (Continue tt, {| w_db := d; w_log := log |}) =
       (Continue tt, {| w_db := d; w_log := log ++ evs |}) /\
       Forall (in_phase Notification) evs /\
       (forall s, sms_attempted s evs <-> P s) /\
       (forall s ok, In (EvSms s ok) evs ->
          exists c v, ok = sendStatusUpdate env s c v)).
  { intros P HP. exists []. rewrite app_nil_r. repeat split; auto.
    - intros H. now apply no_sms_nil in H.
    - intros H. now apply HP in H.
    - intros s ok []. }
  destruct (b_status data) as [s0|] eqn:Hst; simpl.
  2: { apply Hno. intros s (H & _). discriminate. }
  destruct (JsString.is_empty s0) eqn:Hemp; simpl.
  { apply Hno. intros s (H & H' & _). congruence. }
  run_handler.
  destruct (workOrders d !! id) as [old|] eqn:Hold; simpl.
  2: { apply Hno. intros s (_ & _ & w & c & H & _). discriminate. }
  destruct (status_differs (status old) s0) eqn:Hdiff.
  2: { apply Hno. intros s (H & _ & w & c & Hw & Hne & _).
       apply status_differs_spec in Hne. congruence. }
  destruct (customers d !! wo_customer old) as [c|] eqn:Hc; simpl.
  2: { apply Hno. intros s (_ & _ & w & c & Hw & _ & _ & Hc' & _). congruence. }
  destruct (vehicles d !! wo_vehicle old) as [v|] eqn:Hv; simpl.
  2: { apply Hno. intros s (_ & _ & w & c' & Hw & _ & _ & _ & [v' Hv'] & _). congruence. }
  destruct (is_notifiable s0) eqn:Hnot; simpl.
  2: { apply Hno. intros s (H & _ & w & c' & _ & _ & Hn & _). congruence. }
  destruct (String.eqb (communicationPreference c) "SMS") eqn:Hpref; simpl.
  2: { apply Hno. intros s (_ & _ & w & c' & Hw & _ & _ & Hc' & _ & Hp & _).
       apply String.eqb_neq in Hpref. congruence. }
  destruct (truthy_str (phone c)) eqn:Hph; simpl.
  2: { apply Hno. intros s (_ & _ & w & c' & Hw & _ & _ & Hc' & _ & _ & Hp). congruence. }
  exists (EvSms s0 (sendStatusUpdate env s0 c (Some v)) ::
          (if negb (sendStatusUpdate env s0 c (Some v))
           then [EvLogError "Failed to send SMS notification:"] else [])).
  split; [|split; [|split]].
  - destruct (sendStatusUpdate env s0 c (Some v)); simpl;
      rewrite <- ?app_assoc; reflexivity.
  - destruct (sendStatusUpdate env s0 c (Some v)); simpl; phase_tac.
  - intros s. rewrite sms_in_events. split.
    + intros ->. split; [reflexivity|]. split; [assumption|].
      exists old, c. apply status_differs_spec in Hdiff.
      apply String.eqb_eq in Hpref. repeat split; eauto.
    + intros (H & _). congruence.
  - intros s ok [H|H].
    + inversion H; subst. eauto.
    + destruct (sendStatusUpdate env s0 c (Some v)); simpl in H.
      * destruct H.
      * destruct H as [H|[]]. discriminate.
Qed.

Lemma update_notify_missing env id data W :
  workOrders (w_db W) !! id = None ->
  update_notify env id data W = (Continue tt, W).
Proof.
  intros H. unfold update_notify.
  destruct (truthy_str (b_status data)); [|reflexivity].
  run_handler. rewrite H. reflexivity.
Qed.

Lemma update_technician_run data W :
  exists t, update_technician data W = (Continue (set_b_assignedTechnician data t), W).
Proof.
  assert (Hid : data = set_b_assignedTechnician data (b_assignedTechnician data))
    by (destruct data; reflexivity).
  unfold update_technician.
  destruct (b_appointmentId data) as [[aid|]|];
    try (exists (b_assignedTechnician data); rewrite <- Hid; reflexivity).
  destruct (JsString.is_empty aid); simpl;
    try (exists (b_assignedTechnician data); rewrite <- Hid; reflexivity).
  run_handler.
  destruct (appointments (w_db W) !! aid) as [a|]; simpl;
    try (exists (b_assignedTechnician data); rewrite <- Hid; reflexivity).
  destruct (technician a) as [t|]; simpl;
    try (exists (b_assignedTechnician data); rewrite <- Hid; reflexivity).
  exists (Some t). reflexivity.
Qed.

Lemma findByIdAndUpdate_run id data W :
  WorkOrder_findByIdAndUpdate id data W =
    match workOrders (w_db W) !! id with
    | Some w =>
        (Continue (Some (apply_update data w)),
         mkWorld (put_workOrder id (apply_update data w) (w_db W))
                 (w_log W ++ status_events (b_status data) ++ [EvWriteWorkOrder id]))
    | None => (Continue None, W)
    end.
Proof.
  unfold WorkOrder_findByIdAndUpdate. run_handler.
  destruct (workOrders (w_db W) !! id) as [w|]; [|reflexivity].
  destruct (b_status data); simpl; rewrite <- ?app_assoc; reflexivity.
Qed.

Lemma update_services_keeps body :
  b_status (update_services body) = b_status body /\
  b_parts (update_services body) = b_parts body /\
  b_labor (update_services body) = b_labor body /\
  b_totalEstimate (update_services body) = b_totalEstimate body.
Proof.
  unfold update_services.
  destruct (b_services body); [|destruct (truthy_str (b_serviceRequested body))];
    destruct body; simpl; auto.
Qed.

Lemma updateWorkOrder_missing env id body d :
  workOrders d !! id = None ->
  handle (updateWorkOrder env id body) d =
    (AppError "No work order found with that ID" 404, d, []).
Proof.
  intros Hw. unfold updateWorkOrder, handle, bind.
  pose proof (update_totals_run id (update_services body) (mkWorld d [])) as HT.
  destruct (update_totals id (update_services body) (mkWorld d []))
    as [[data1|r] W1] eqn:ET.
  - destruct HT as (Hdb & _ & (evs & Hlog & _) & Hfound & _).
    destruct W1 as [dW lW]. simpl in *. subst dW.
    destruct (is_some (b_parts (update_services body)) ||
              is_some (b_labor (update_services body))) eqn:Hl.
    { destruct (Hfound eq_refl) as [? ?]. congruence. }
    destruct (update_mileage_run env id data1 (mkWorld d lW))
      as (d1 & evsM & EM & _ & _ & _ & _ & Hnone).
    destruct (Hnone Hw) as [-> ->].
    rewrite EM. simpl. rewrite app_nil_r. clear EM.
    rewrite update_notify_missing by assumption.
    destruct (update_technician_run data1 (mkWorld d lW)) as (t & ->).
    rewrite findByIdAndUpdate_run. simpl. rewrite Hw.
    unfold not_found, finish. simpl.
    (* nothing was logged by the totals stage *)
    revert ET. unfold update_totals.
    destruct (b_parts (update_services body)), (b_labor (update_services body));
      try discriminate.
    unfold ret. intros [= _ <-]. reflexivity.
  - destruct HT as (-> & -> & _). reflexivity.
Qed.

Lemma no_sms_in_phase (p : Step) (evs : list Event) (s : string) :
  p <> Notification ->
  Forall (in_phase p) evs ->
  ~ sms_attempted s evs.
Proof.
  intros Hp Hall [ok Hin].
  rewrite List.Forall_forall in Hall. specialize (Hall _ Hin).
  destruct Hall as [H|H]; simpl in H; congruence.
Qed.

Lemma sms_attempted_app (s : string) (a b : list Event) :
  sms_attempted s (a ++ b) <-> sms_attempted s a \/ sms_attempted s b.
Proof.
  unfold sms_attempted. split.
  - intros [ok H]. apply in_app_or in H. destruct H; eauto.
  - intros [[ok H]|[ok H]]; exists ok; apply in_or_app; auto.
Qed.

Lemma update_totals_no_lines id data W :
  b_parts data = None -> b_labor data = None ->
  update_totals id data W = (Continue data, W).
Proof.
  intros Hp Hl. unfold update_totals. now rewrite Hp, Hl.
Qed.

Lemma update_services_keeps_actual body :
  b_totalActual (update_services body) = b_totalActual body.
Proof.
  unfold update_services.
  destruct (b_services body); [|destruct (truthy_str (b_serviceRequested body))];
    destruct body; reflexivity.
Qed.

Lemma update_totals_events id data W :
  exists evs,
    w_log (snd (update_totals id data W)) = w_log W ++ evs /\
    Forall (fun e => is_total e = true) evs /\
    (is_Some (workOrders (w_db W) !! id) ->
     (evs <> [] <->
      negb (truthy_num (b_totalEstimate data)) &&
      (is_some (b_parts data) || is_some (b_labor data)) = true)).
Proof.
  destruct W as [d log].
  destruct data as [bc bv bd bs bsv bsr bp bl bte bta bcm bap bat].
  unfold update_totals; simpl.
  assert (Hnone : exists evs : list Event,
            log = log ++ evs /\ Forall (fun e => is_total e = true) evs /\
            (evs <> [] <-> false = true)).
  { exists []. rewrite app_nil_r. split; [reflexivity|]. split; [constructor|].
    split; [congruence | discriminate]. }
  destruct bp as [ps|], bl as [ls|]; run_handler;
    try (destruct (workOrders d !! id) as [w|] eqn:Hw; simpl;
         [|exists []; rewrite app_nil_r; split; [reflexivity|];
           split; [constructor|]; intros [? ?]; discriminate]).
  4: { destruct Hnone as (evs & H1 & H2 & H3). exists evs.
       rewrite andb_false_r. auto. }
  all: destruct (truthy_num bte) eqn:Hte; simpl; rewrite ?Hte; simpl.
  all: try destruct (negb (PrimFloat.is_zero (partsCost ps + laborCost ls) ||
                           PrimFloat.is_nan (partsCost ps + laborCost ls))) eqn:Ht2;
    simpl.
  all: try (destruct Hnone as (evs & H1 & H2 & H3); exists evs; now auto).
  all: eexists; (split; [rewrite <- ?app_assoc; simpl; reflexivity|]);
    (split; [repeat constructor|]); intros _; split; [reflexivity | discriminate].
Qed.

Lemma update_mileage_events env id data W w :
  workOrders (w_db W) !! id = Some w ->
  w_log (snd (update_mileage env id data W))
  = w_log W ++ mileage_events env data (w_db W) w.
Proof.
  destruct W as [d log]. unfold update_mileage, mileage_events. simpl. intros Hw.
  destruct (mileage_update env (b_currentMileage data)) as [m|];
    [|simpl; now rewrite app_nil_r].
  run_handler. rewrite Hw. simpl.
  destruct (vehicles d !! wo_vehicle w) as [v|]; simpl;
    [now rewrite <- app_assoc | now rewrite app_nil_r].
Qed.

Lemma update_notify_events env id data W :
  exists evs,
    update_notify env id data W = (Continue tt, mkWorld (w_db W) (w_log W ++ evs)) /\
    (evs = [] \/ exists s c v, evs = sms_events env s c v) /\
    (forall old c v s,
       workOrders (w_db W) !! id = Some old ->
       customers (w_db W) !! wo_customer old = Some c ->
       vehicles (w_db W) !! wo_vehicle old = Some v ->
       b_status data = Some s -> JsString.is_empty s = false ->
       status old <> Some s -> is_notifiable s = true ->
       communicationPreference c = "SMS" -> truthy_str (phone c) = true ->
       evs = sms_events env s c (Some v)).
Proof.
  destruct W as [d log]. unfold update_notify. simpl.
  assert (Hno : (forall old c v s,
       workOrders d !! id = Some old ->
       customers d !! wo_customer old = Some c ->
       vehicles d !! wo_vehicle old = Some v ->
       b_status data = Some s -> JsString.is_empty s = false ->
       status old <> Some s -> is_notifiable s = true ->
       communicationPreference c = "SMS" -> truthy_str (phone c) = true ->
       False) ->
     exists evs : list Event,
       (Continue tt, {| w_db := d; w_log := log |}) =
       (Continue tt, {| w_db := d; w_log := log ++ evs |}) /\
       (evs = [] \/ exists s c v, evs = sms_events env s c v) /\
       (forall old c v s,
          workOrders d !! id = Some old ->
          customers d !! wo_customer old = Some c ->
          vehicles d !! wo_vehicle old = Some v ->
          b_status data = Some s -> JsString.is_empty s = false ->
          status old <> Some s -> is_notifiable s = true ->
          communicationPreference c = "SMS" -> truthy_str (phone c) = true ->
          evs = sms_events env s c (Some v))).
  { intros HP. exists []. rewrite app_nil_r. split; [reflexivity|].
    split; [now left|]. intros old c v s H1 H2 H3 H4 H5 H6 H7 H8 H9.
    exfalso. eapply HP; eassumption. }
  destruct (b_status data) as [s0|] eqn:Hst; simpl.
  2: { apply Hno. intros; discriminate. }
  destruct (JsString.is_empty s0) eqn:Hemp; simpl.
  { apply Hno. intros. congruence. }
  run_handler.
  destruct (workOrders d !! id) as [old|] eqn:Hold; simpl.
  2: { apply Hno. intros; discriminate. }
  destruct (status_differs (status old) s0) eqn:Hdiff.
  2: { apply Hno. intros old' c v s [= <-] _ _ [= <-] _ Hne.
       apply status_differs_spec in Hne. congruence. }
  destruct (customers d !! wo_customer old) as [c|] eqn:Hc; simpl.
  2: { apply Hno. intros old' c v s [= <-]. congruence. }
  destruct (vehicles d !! wo_vehicle old) as [v|] eqn:Hv; simpl.
  2: { apply Hno. intros old' c' v s [= <-]. congruence. }
  destruct (is_notifiable s0) eqn:Hnot; simpl.
  2: { apply Hno. intros old' c' v' s _ _ _ [= <-]. congruence. }
  destruct (String.eqb (communicationPreference c) "SMS") eqn:Hpref; simpl.
  2: { apply Hno. intros old' c' v' s [= <-] Hc' _ _ _ _ _ Hp.
       apply String.eqb_neq in Hpref. congruence. }
  destruct (truthy_str (phone c)) eqn:Hph; simpl.
  2: { apply Hno. intros old' c' v' s [= <-] Hc'. congruence. }
  exists (sms_events env s0 c (Some v)). unfold sms_events.
  split; [|split].
  - destruct (sendStatusUpdate env s0 c (Some v)); simpl;
      rewrite <- ?app_assoc; reflexivity.
  - right. exists s0, c, (Some v). reflexivity.
  - intros old' c' v' s [= <-] Hc' Hv' [= <-] _ _ _ _ _.
    rewrite Hc in Hc'. rewrite Hv in Hv'.
    injection Hc' as <-. injection Hv' as <-. reflexivity.
Qed.

Lemma update_services_keeps_rest body :
  b_currentMileage (update_services body) = b_currentMileage body /\
  b_date (update_services body) = b_date body /\
  b_vehicle (update_services body) = b_vehicle body /\
  b_customer (update_services body) = b_customer body.
Proof.
  unfold update_services.
  destruct (b_services body); [|destruct (truthy_str (b_serviceRequested body))];
    destruct body; simpl; auto.
Qed.

Lemma updateWorkOrder_found env id body d w :
  workOrders d !! id = Some w ->
  exists te t d1 evsT evsM evsN,
    let data :=
      set_b_assignedTechnician (set_b_totalEstimate (update_services body) te) t in
    handle (updateWorkOrder env id body) d =
      (Json 200 (Some (apply_update data w)),
       put_workOrder id (apply_update data w) d1,
       evsT ++ evsM ++ evsN ++
       status_events (b_status body) ++ [EvWriteWorkOrder id]) /\
    (truthy_num (b_totalEstimate body) = false ->
     is_some (b_parts body) || is_some (b_labor body) = true ->
     te = Some (partsCost (or_keep (b_parts body) (parts w)) +
                laborCost (or_keep (b_labor body) (labor w)))%float) /\
    Forall (in_phase Recalculation) evsT /\
    Forall (in_phase MileageSync) evsM /\
    Forall (in_phase Notification) evsN /\
    (forall s, sms_attempted s evsN <-> sms_due d id (b_status body) s) /\
    (forall s ok, In (EvSms s ok) evsN ->
       exists c v, ok = sendStatusUpdate env s c v) /\
    customers d1 = customers d /\
    Forall (fun e => is_total e = true) evsT /\
    (evsT <> [] <-> recomputes (Update id body) = true) /\
    evsM = mileage_events env body d w /\
    (evsN = [] \/ exists s c v, evsN = sms_events env s c v) /\
    (forall c v s,
       customers d !! wo_customer w = Some c ->
       vehicles d !! wo_vehicle w = Some v ->
       b_status body = Some s -> JsString.is_empty s = false ->
       status w <> Some s -> is_notifiable s = true ->
       communicationPreference c = "SMS" -> truthy_str (phone c) = true ->
       exists v1, evsN = sms_events env s c (Some v1)) /\
    (b_parts body = None -> b_labor body = None -> te = b_totalEstimate body).
Proof.
  intros Hw. unfold updateWorkOrder, handle, bind.
  destruct (update_services_keeps body) as (Ks & Kp & Kl & Kt).
  destruct (update_services_keeps_rest body) as (Km & _).
  pose proof (update_totals_run id (update_services body) (mkWorld d [])) as HT.
  pose proof (update_totals_no_lines id (update_services body) (mkWorld d []))
    as HnoL.
  destruct (update_totals_events id (update_services body) (mkWorld d []))
    as (evsT' & HlogT' & HtotalT & HneT).
  destruct (update_totals id (update_services body) (mkWorld d []))
    as [[data1|r] W1].
  2: { destruct HT as (_ & _ & HT). simpl in HT. congruence. }
  destruct HT as (Hdb & Hdata & (evsT & Hlog & HphT) & _ & Htot).
  simpl in Hdb, Hlog, Htot, HlogT', HneT.
  assert (evsT' = evsT) as -> by congruence.
  assert (Hmil : b_currentMileage data1 = b_currentMileage body).
  { rewrite Hdata, <- Km. destruct (update_services body); reflexivity. }
  pose proof (update_mileage_events env id data1 W1 w) as HevM.
  rewrite Hdb in HevM. specialize (HevM Hw).
  destruct (update_mileage_run env id data1 W1)
    as (d1 & evsM & EM & HwoM & HcuM & HveM & HphM & _).
  rewrite EM in HevM. simpl in HevM. apply app_inv_head in HevM.
  rewrite EM. clear EM.
  destruct (update_notify_run env id data1 (mkWorld d1 (w_log W1 ++ evsM)))
    as (evsN & EN & HphN & HsmsN & HokN).
  destruct (update_notify_events env id data1 (mkWorld d1 (w_log W1 ++ evsM)))
    as (evsN' & EN' & HshapeN & HdueN).
  rewrite EN in EN'. injection EN' as EN'. apply app_inv_head in EN'. subst evsN'.
  rewrite EN. clear EN. simpl.
  destruct (update_technician_run data1 (mkWorld d1 ((w_log W1 ++ evsM) ++ evsN)))
    as (t & ->).
  rewrite findByIdAndUpdate_run. simpl.
  rewrite HwoM, Hdb, Hw. unfold ret.
  exists (b_totalEstimate data1), t, d1, evsT, evsM, evsN. simpl.
  rewrite <- Hdata.
  assert (Hst : b_status data1 = b_status body).
  { rewrite Hdata. destruct (update_services body); simpl in *. assumption. }
  rewrite Kp, Kl, Kt in HneT. specialize (HneT ltac:(eauto)).
  repeat apply conj; auto.
  - rewrite Hlog, Hst. simpl.
    destruct data1; simpl. rewrite <- !app_assoc. reflexivity.
  - intros Hf Hl. rewrite <- Kp, <- Kl. apply Htot; auto; congruence.
  - intros s. rewrite HsmsN, Hst. unfold sms_due. simpl.
    rewrite HwoM, HcuM, Hdb. setoid_rewrite HveM. rewrite Hdb. reflexivity.
  - rewrite HcuM, Hdb. reflexivity.
  - apply HneT.
  - apply HneT.
  - rewrite HevM. unfold mileage_events. now rewrite Hmil.
  - intros c v s Hc Hv Hs He Hd Hn Hp Hph.
    destruct (proj2 (HveM (wo_vehicle w))) as [v1 Hv1].
    { rewrite Hdb. eauto. }
    exists v1. simpl in HdueN. apply (HdueN w c v1 s); auto.
    + now rewrite HwoM, Hdb.
    + now rewrite HcuM, Hdb.
    + now rewrite Hst.
  - intros Hp Hl. rewrite Kp, Kl in HnoL. specialize (HnoL Hp Hl).
    injection HnoL as -> _. exact Kt.
Qed.

(** ** createWorkOrder *)

Lemma create_services_keeps body :
  b_parts (create_services body) = b_parts body /\
  b_labor (create_services body) = b_labor body /\
  b_totalEstimate (create_services body) = b_totalEstimate body /\
  b_currentMileage (create_services body) = b_currentMileage body /\
  b_date (create_services body) = b_date body.
Proof.
  unfold create_services. destruct body; cbv zeta; simpl.
  repeat match goal with
         | |- context [if ?b then _ else _] => destruct b; simpl
         end; repeat split.
Qed.

Lemma create_totals_run data W :
  exists te evs,
    create_totals data W =
      (Continue (set_b_totalEstimate data te), mkWorld (w_db W) (w_log W ++ evs)) /\
    (truthy_num (b_totalEstimate data) = false ->
     xorb (has_items (b_parts data)) (has_items (b_labor data)) = true ->
     te = Some (partsCost (or_keep (b_parts data) []) +
                laborCost (or_keep (b_labor data) []))%float).
Proof.
  destruct W as [d log].
  destruct data as [bc bv bd bs bsv bsr bp bl bte bta bcm bap bat].
  unfold create_totals; simpl.
  destruct (has_items bp) eqn:Hp, (has_items bl) eqn:Hl;
    destruct (truthy_num bte) eqn:Hte; run_handler; rewrite ?Hl, ?Hte; simpl.
  all: try destruct (negb (PrimFloat.is_zero (partsCost (or_keep bp [])) ||
                           PrimFloat.is_nan (partsCost (or_keep bp [])))) eqn:Hz;
    simpl.
  all: try (eexists _, _; split;
            [rewrite <- ?app_assoc; simpl; reflexivity|]; simpl;
            intros; try discriminate).
  all: try (exists bte, []; rewrite app_nil_r; split;
            [reflexivity | intros; discriminate]).
  all: assert (Hnone : forall A (o : option (list A)),
                has_items o = false -> or_keep o [] = [])
         by (intros A [[|? ?]|]; simpl; congruence).
  all: assert (Hfalsy : or_zero bte = 0%float)
         by (unfold or_zero; rewrite Hte; now destruct bte).
  1, 2: rewrite (Hnone _ bl Hl); unfold laborCost; simpl; f_equal;
    rewrite partsCost_sum; unfold sum_parts; now rewrite sum_of_add_zero_r.
  all: rewrite (Hnone _ bp Hp), Hfalsy; unfold partsCost; simpl; reflexivity.
Qed.

Lemma bind_query {A B} (f : DB -> A) (k : A -> Handler B) (W : World) :
  bind (query f) k W = k (f (w_db W)) W.
Proof. reflexivity. Qed.

Lemma createWorkOrder_run env body d vid cid v c :
  b_vehicle body = Some vid -> vehicles d !! vid = Some v ->
  b_customer body = Some cid -> customers d !! cid = Some c ->
  v_customer v = cid ->
  exists te evs,
    let w' := new_document env cid vid
                (set_b_totalEstimate (create_services body) te) in
    handle (createWorkOrder env body) d =
      (Json 201 (Some w'),
       put_vehicle vid
         (serviced_vehicle env body v (mileage_update env (b_currentMileage body)))
         (put_workOrder (newObjectId env) w' d),
       evs) /\
    (truthy_num (b_totalEstimate body) = false ->
     xorb (has_items (b_parts body)) (has_items (b_labor body)) = true ->
     te = Some (partsCost (or_keep (b_parts body) []) +
                laborCost (or_keep (b_labor body) []))%float).
Proof.
  intros Hbv Hv Hbc Hc Hown. subst cid.
  destruct (create_services_keeps body) as (Kp & Kl & Kt & Km & Kd).
  unfold createWorkOrder, handle.
  unfold Vehicle_findById, Customer_findById.
  rewrite bind_query. simpl. rewrite Hbv. simpl. rewrite Hv.
  rewrite bind_query. simpl. rewrite Hbc. simpl. rewrite Hc.
  rewrite String.eqb_refl. simpl.
  destruct (create_totals_run (create_services body) (mkWorld d []))
    as (te & evs & ET & Htot).
  unfold bind at 1. rewrite ET. clear ET.
  exists te.
  assert (Km' : b_currentMileage (set_b_totalEstimate (create_services body) te)
                = b_currentMileage body)
    by (rewrite <- Km; destruct (create_services body); reflexivity).
  assert (Kd' : b_date (set_b_totalEstimate (create_services body) te)
                = b_date body)
    by (rewrite <- Kd; destruct (create_services body); reflexivity).
  unfold serviced_vehicle, entry_date. rewrite Km', Kd'.
  destruct (mileage_update env (b_currentMileage body)) as [m|];
    run_handler; (eexists; split; [reflexivity|]);
    rewrite <- Kp, <- Kl, <- Kt; exact Htot.
Qed.

Lemma createWorkOrder_rejected env body d code :
  create_rejected d body code ->
  exists msg, handle (createWorkOrder env body) d = (AppError msg code, d, []).
Proof.
  intros Hrej. unfold createWorkOrder.
  destruct Hrej as [Hv | Hc | v cid Hv Hbc Hc Hown].
  - run_handler. rewrite Hv.
    destruct (b_vehicle body); eexists; reflexivity.
  - run_handler.
    destruct (b_vehicle body) as [vid|]; simpl in *; [|eexists; reflexivity].
    destruct (vehicles d !! vid); [|eexists; reflexivity].
    destruct (b_customer body) as [cid|]; simpl in *;
      [rewrite Hc|]; eexists; reflexivity.
  - run_handler.
    destruct (b_vehicle body) as [vid|]; simpl in *; [|discriminate].
    rewrite Hv, Hbc. simpl. destruct Hc as [c Hc]. rewrite Hc.
    apply String.eqb_neq in Hown. rewrite Hown. simpl.
    eexists; reflexivity.
Qed.

(** ** Splitting and joining lines *)

Lemma includes_char_app (c : ascii) (a b : string) :
  JsString.includes_char c (a ++ b)%string =
  JsString.includes_char c a || JsString.includes_char c b.
Proof.
  induction a as [|x a IH]; simpl; [reflexivity|].
  rewrite IH. now rewrite orb_assoc.
Qed.

Lemma split_line (c : ascii) (a b : string) :
  JsString.includes_char c a = false ->
  JsString.split c (a ++ String c b)%string = a :: JsString.split c b.
Proof.
  induction a as [|x a IH]; simpl; intros H.
  - now rewrite Ascii.eqb_refl.
  - apply orb_false_iff in H. destruct H as [Hx Ha].
    rewrite Hx, (IH Ha). reflexivity.
Qed.

Lemma split_single (c : ascii) (a : string) :
  JsString.includes_char c a = false ->
  JsString.split c a = [a].
Proof.
  induction a as [|x a IH]; simpl; intros H; [reflexivity|].
  apply orb_false_iff in H. destruct H as [Hx Ha].
  rewrite Hx, (IH Ha). reflexivity.
Qed.

Lemma split_join (l : list string) :
  l <> [] ->
  Forall (fun s => JsString.includes_char JsString.newline s = false) l ->
  JsString.split JsString.newline (JsString.join JsString.nl l) = l.
Proof.
  intros Hne Hall. induction Hall as [|x l Hx Hl IH]; [congruence|].
  destruct l as [|y l].
  - simpl. now apply split_single.
  - change (JsString.join JsString.nl (x :: y :: l))
      with (x ++ String JsString.newline (JsString.join JsString.nl (y :: l)))%string.
    rewrite split_line by assumption.
    rewrite IH by discriminate. reflexivity.
Qed.

Lemma clean_description_spec (s : Service) :
  clean_description s = true ->
  JsString.trim (description s) = description s /\
  JsString.is_empty (description s) = false /\
  JsString.includes_char JsString.newline (description s) = false.
Proof.
  unfold clean_description. intros H.
  apply andb_true_iff in H. destruct H as [H H3].
  apply andb_true_iff in H. destruct H as [H1 H2].
  apply String.eqb_eq in H1. apply negb_true_iff in H2, H3. auto.
Qed.

Lemma trimmed_lines_join (svcs : list Service) :
  svcs <> [] ->
  forallb clean_description svcs = true ->
  trimmed_lines (serviceRequested_of svcs) = svcs.
Proof.
  intros Hne Hall. unfold trimmed_lines, serviceRequested_of.
  rewrite split_join.
  - clear Hne. induction svcs as [|s svcs IH]; [reflexivity|].
    simpl in Hall. apply andb_true_iff in Hall. destruct Hall as [Hs Hall].
    destruct (clean_description_spec s Hs) as (Ht & He & _).
    simpl. rewrite Ht, He. simpl. rewrite Ht, (IH Hall).
    destruct s; reflexivity.
  - destruct svcs; [congruence | discriminate].
  - clear Hne. induction svcs as [|s svcs IH]; simpl; constructor.
    + simpl in Hall. apply andb_true_iff in Hall.
      now apply clean_description_spec.
    + apply IH. simpl in Hall. apply andb_true_iff in Hall. tauto.
Qed.

Lemma services_roundtrip (svcs : list Service) :
  svcs <> [] ->
  forallb clean_description svcs = true ->
  services_of_string (serviceRequested_of svcs) = svcs.
Proof.
  intros Hne Hall. unfold services_of_string.
  destruct (JsString.includes_char JsString.newline (serviceRequested_of svcs))
    eqn:Hnl.
  - now apply trimmed_lines_join.
  - destruct svcs as [|s [|s' svcs]]; [congruence| |].
    + unfold serviceRequested_of. simpl. destruct s; reflexivity.
    + exfalso. revert Hnl. unfold serviceRequested_of.
      change (JsString.join JsString.nl (List.map description (s :: s' :: svcs)))
        with (description s ++
              String JsString.newline
                (JsString.join JsString.nl (List.map description (s' :: svcs))))%string.
      rewrite includes_char_app. simpl.
      rewrite orb_true_r. discriminate.
Qed.

(** ** Outcomes of the handlers *)

Lemma sets_totalActual_spec (s : string) :
  sets_totalActual s = true <-> s = "Completed - Paid" \/ s = "Invoiced".
Proof.
  unfold sets_totalActual. rewrite orb_true_iff, !String.eqb_eq. reflexivity.
Qed.

Lemma sets_totalActual_nonempty (s : string) :
  sets_totalActual s = true -> JsString.is_empty s = false.
Proof.
  intros H. apply sets_totalActual_spec in H. destruct H; subst; reflexivity.
Qed.

Lemma status_document_lines (s : string) (w : WorkOrder) :
  parts (status_document s w) = parts w /\
  labor (status_document s w) = labor w /\
  status (status_document s w) = Some s /\
  totalEstimate (status_document s w) = totalEstimate w.
Proof.
  unfold status_document. destruct (sets_totalActual s); simpl; auto.
Qed.

Lemma addPart_missing id part d :
  workOrders d !! id = None ->
  handle (addPart id part) d =
    (AppError "No work order found with that ID" 404, d, []).
Proof.
  intros H. unfold addPart. run_handler. rewrite H. reflexivity.
Qed.

Lemma addLabor_missing id l d :
  workOrders d !! id = None ->
  handle (addLabor id l) d =
    (AppError "No work order found with that ID" 404, d, []).
Proof.
  intros H. unfold addLabor. run_handler. rewrite H. reflexivity.
Qed.

(** A create is either rejected or runs against a vehicle of the customer. *)
Lemma create_outcome (body : Body) (d : DB) :
  (exists code, create_rejected d body code) \/
  (exists vid cid v c,
     b_vehicle body = Some vid /\ vehicles d !! vid = Some v /\
     b_customer body = Some cid /\ customers d !! cid = Some c /\
     v_customer v = cid).
Proof.
  destruct (find_in (vehicles d) (b_vehicle body)) as [v|] eqn:Hv.
  2: { left. exists 404. now apply no_vehicle. }
  destruct (find_in (customers d) (b_customer body)) as [c|] eqn:Hc.
  2: { left. exists 404. now apply no_customer. }
  destruct (b_vehicle body) as [vid|] eqn:Hbv; [|discriminate].
  destruct (b_customer body) as [cid|] eqn:Hbc; [|discriminate].
  simpl in Hv, Hc.
  destruct (decide (v_customer v = cid)) as [Heq|Hne].
  - right. exists vid, cid, v, c. auto.
  - left. exists 400. eapply foreign_vehicle; eauto.
    rewrite Hbv. exact Hv.
Qed.

Lemma create_success env body d :
  succeeded (response_of (handle (createWorkOrder env body) d)) = true ->
  exists vid cid v c,
    b_vehicle body = Some vid /\ vehicles d !! vid = Some v /\
    b_customer body = Some cid /\ customers d !! cid = Some c /\
    v_customer v = cid.
Proof.
  intros Hs. destruct (create_outcome body d) as [[code Hrej]|H]; [|exact H].
  destruct (createWorkOrder_rejected env body d code Hrej) as [msg Hr].
  rewrite Hr in Hs. discriminate.
Qed.

(** ** C1: derived totals *)

(** C1, as stated, fails: a work order created with an estimate of its
    own (500 against lines worth 80) keeps that estimate through a later
    status update that supplies no total. *)
Lemma stale_estimate_after_status_update :
  let m := StatusUpdate "wo9" (Some "Parts Received") in
  let d1 := db_of (handle (perform Sample.env (Create Cases.quoted)) Sample.db) in
  let r := handle (perform Sample.env m) d1 in
  succeeded (response_of r) = true /\
  supplies_no_total m = true /\
  exists w, workOrders (db_of r) !! target Sample.env m = Some w /\
            derived_total m w = Some 500%float /\ lines_total w = 80%float /\
            derived_total m w <> Some (lines_total w).
Proof.
  cbv zeta. split; [vm_compute; reflexivity|]. split; [reflexivity|].
  eexists. split; [vm_compute; reflexivity|].
  split; [reflexivity|]. split; [reflexivity|]. vm_compute. discriminate.
Qed.

(** createWorkOrder with priced parts and labor and no estimate stores the
    parts cost alone: the labor cost is not added. *)
Example create_leaves_labor_out :
  exists w,
    response_of (handle (createWorkOrder Sample.env Cases.parts_and_labor) Sample.db)
      = Json 201 (Some w) /\
    totalEstimate w = Some 80%float /\ lines_total w = 260%float.
Proof.
  eexists. split; [vm_compute; reflexivity|]. split; reflexivity.
Qed.

Lemma recomputed_total env m d w :
  recomputes m = true ->
  succeeded (response_of (handle (perform env m) d)) = true ->
  workOrders (db_of (handle (perform env m) d)) !! target env m = Some w ->
  derived_total m w = Some (lines_total w).
Proof.
  destruct m as [body | id body | id part | id l | id st]; simpl;
    intros Hre Hok Hw.
  - (* create *)
    apply andb_true_iff in Hre. destruct Hre as [Hte Hx].
    apply negb_true_iff in Hte.
    destruct (create_success env body d Hok)
      as (vid & cid & v & c & Hbv & Hv & Hbc & Hc & Hown).
    destruct (createWorkOrder_run env body d vid cid v c Hbv Hv Hbc Hc Hown)
      as (te & evs & Hrun & Htot).
    cbv zeta in Hrun. rewrite Hrun in Hw. unfold db_of in Hw. simpl in Hw.
    rewrite lookup_insert_eq in Hw. injection Hw as <-.
    rewrite (Htot Hte Hx).
    destruct (create_services_keeps body) as (Kp & Kl & _).
    unfold lines_total. simpl.
    rewrite Kp, Kl.
    now rewrite partsCost_sum, laborCost_sum.
  - (* update *)
    apply andb_true_iff in Hre. destruct Hre as [Hte Hl].
    apply negb_true_iff in Hte.
    destruct (workOrders d !! id) as [w0|] eqn:Hw0.
    2: { rewrite (updateWorkOrder_missing env id body d Hw0) in Hok. discriminate. }
    destruct (updateWorkOrder_found env id body d w0 Hw0)
      as (te & t & d1 & evsT & evsM & evsN & Hrun & Htot & _).
    cbv zeta in Hrun. rewrite Hrun in Hw. unfold db_of in Hw. simpl in Hw.
    rewrite lookup_insert_eq in Hw. injection Hw as <-.
    rewrite (Htot Hte Hl).
    destruct (update_services_keeps body) as (_ & Kp & Kl & _).
    unfold lines_total. simpl.
    rewrite Kp, Kl.
    now rewrite partsCost_sum, laborCost_sum.
  - (* add part *)
    destruct (workOrders d !! id) as [w0|] eqn:Hw0.
    2: { rewrite (addPart_missing id part d Hw0) in Hok. discriminate. }
    pose proof (addPart_run id part d w0 Hw0) as Hrun. cbv zeta in Hrun.
    rewrite Hrun in Hw. unfold db_of in Hw. simpl in Hw.
    rewrite lookup_insert_eq in Hw. injection Hw as <-. reflexivity.
  - (* add labor *)
    destruct (workOrders d !! id) as [w0|] eqn:Hw0.
    2: { rewrite (addLabor_missing id l d Hw0) in Hok. discriminate. }
    pose proof (addLabor_run id l d w0 Hw0) as Hrun. cbv zeta in Hrun.
    rewrite Hrun in Hw. unfold db_of in Hw. simpl in Hw.
    rewrite lookup_insert_eq in Hw. injection Hw as <-. reflexivity.
  - (* status update *)
    destruct st as [s|]; [|discriminate]. rewrite Hre.
    pose proof (sets_totalActual_nonempty s Hre) as Hne.
    destruct (workOrders d !! id) as [w0|] eqn:Hw0.
    2: { rewrite (updateStatus_missing env id (Some s) d) in Hok;
           [discriminate | simpl; now rewrite Hne | assumption]. }
    rewrite (updateStatus_run env id s d w0 Hne Hw0) in Hw.
    unfold db_of in Hw. simpl in Hw.
    rewrite lookup_insert_eq in Hw. injection Hw as <-.
    unfold status_document. rewrite Hre. simpl.
    now rewrite cost_lines_total.
Qed.

Lemma kept_totals env m d w w0 :
  recomputes m = false ->
  supplies_no_total m = true ->
  succeeded (response_of (handle (perform env m) d)) = true ->
  workOrders (db_of (handle (perform env m) d)) !! target env m = Some w ->
  match m with
  | Create _ => True
  | _ =>
      workOrders d !! target env m = Some w0 ->
      totalEstimate w = totalEstimate w0 /\ totalActual w = totalActual w0
  end.
Proof.
  destruct m as [body | id body | id part | id l | id st]; simpl;
    intros Hre Hno Hok Hw; try exact I; try discriminate; intros Hw0.
  - (* update *)
    unfold supplies_no_total in Hno. simpl in Hno.
    destruct (b_totalEstimate body) as [e|] eqn:He; [discriminate|].
    destruct (b_totalActual body) as [a|] eqn:Ha; [discriminate|].
    simpl in Hre.
    destruct (b_parts body) eqn:Hp; [discriminate|].
    destruct (b_labor body) eqn:Hl; [discriminate|].
    destruct (updateWorkOrder_found env id body d w0 Hw0)
      as (te & t & d1 & evsT & evsM & evsN & Hrun & HF).
    do 12 (destruct HF as [_ HF]). rewrite (HF Hp Hl), He in Hrun.
    cbv zeta in Hrun. rewrite Hrun in Hw. unfold db_of in Hw. simpl in Hw.
    rewrite lookup_insert_eq in Hw. injection Hw as <-. simpl.
    now rewrite update_services_keeps_actual, Ha.
  - (* status update *)
    destruct st as [s|].
    2: { rewrite (updateStatus_no_status env id None d eq_refl) in Hok.
         discriminate. }
    destruct (JsString.is_empty s) eqn:Hs.
    { rewrite (updateStatus_no_status env id (Some s) d) in Hok;
        [discriminate | simpl; now rewrite Hs]. }
    rewrite (updateStatus_run env id s d w0 Hs Hw0) in Hw.
    unfold db_of in Hw. simpl in Hw.
    rewrite lookup_insert_eq in Hw. injection Hw as <-.
    unfold status_document. rewrite Hre. auto.
Qed.

(** C1 (amended): whenever the handler recomputes (an add-part or
    add-labor; an update that carries parts or labor, or a create that
    carries lines of one kind only, without a truthy estimate of its own;
    a status update to Completed - Paid or Invoiced) and the operation
    succeeds, the derived total of the stored work order is the sum over its
    parts of price times quantity plus the sum over its labor of hours times
    rate, as JavaScript computes it. A status update or an update that does
    not recompute and supplies no total leaves the stored totalEstimate and
    totalActual as they were. *)
Theorem recomputed_total_is_lines_total env m d w :
  succeeded (response_of (handle (perform env m) d)) = true ->
  workOrders (db_of (handle (perform env m) d)) !! target env m = Some w ->
  (recomputes m = true -> derived_total m w = Some (lines_total w)) /\
  (recomputes m = false -> supplies_no_total m = true ->
   match m with
   | Create _ => True
   | _ =>
       forall w0, workOrders d !! target env m = Some w0 ->
                  totalEstimate w = totalEstimate w0 /\
                  totalActual w = totalActual w0
   end).
Proof.
  intros Hok Hw. split.
  - intros Hre. exact (recomputed_total env m d w Hre Hok Hw).
  - intros Hre Hno.
    destruct m as [body | id body | id part | id l | id st]; [exact I | | | |];
      intros w0; exact (kept_totals env _ d w w0 Hre Hno Hok Hw).
Qed.

Lemma recomputed_total_witness :
  exists w,
    workOrders (db_of (handle (perform Sample.env (AddPart "wo1" Sample.rotor)) Sample.db))
      !! "wo1" = Some w /\
    derived_total (AddPart "wo1" Sample.rotor) w = Some (lines_total w) /\
    lines_total w = 335%float.
Proof.
  eexists. split; [vm_compute; reflexivity|]. split; [|reflexivity].
  apply (recomputed_total_is_lines_total Sample.env
           (AddPart "wo1" Sample.rotor) Sample.db).
  - vm_compute. reflexivity.
  - vm_compute. reflexivity.
  - reflexivity.
Defined.

(** ** C2: totalActual on a status update *)

(** C2: for a work order found by id, updateStatus stores the sum of the
    parts cost and the labor cost, as JavaScript computes it, as totalActual
    when the new status is Completed - Paid or Invoiced; for any other
    status it computes no total and leaves totalActual as it was. *)
Theorem updateStatus_totalActual env id s d w :
  JsString.is_empty s = false ->
  workOrders d !! id = Some w ->
  exists w',
    workOrders (db_of (handle (updateStatus env id (Some s)) d)) !! id = Some w' /\
    parts w' = parts w /\ labor w' = labor w /\
    (s = "Completed - Paid" \/ s = "Invoiced" ->
     totalActual w' = Some (sum_parts (parts w) + sum_labor (labor w))%float) /\
    (~ (s = "Completed - Paid" \/ s = "Invoiced") ->
     totalActual w' = totalActual w) /\
    ((exists t, In (EvTotal t) (trace_of (handle (updateStatus env id (Some s)) d)))
     <-> (s = "Completed - Paid" \/ s = "Invoiced")).
Proof.
  intros Hs Hw. rewrite (updateStatus_run env id s d w Hs Hw).
  unfold db_of, trace_of. simpl.
  exists (status_document s w). rewrite lookup_insert_eq.
  destruct (status_document_lines s w) as (Hp & Hl & _).
  split; [reflexivity|]. split; [assumption|]. split; [assumption|].
  unfold status_document. rewrite <- sets_totalActual_spec.
  destruct (sets_totalActual s) eqn:Hset; simpl.
  - split; [intros _; now rewrite partsCost_sum, laborCost_sum|].
    split; [congruence|].
    split; [reflexivity|]. intros _. eexists. right. left. reflexivity.
  - split; [discriminate|]. split; [reflexivity|].
    split; [|discriminate]. intros [t [H|[H|[]]]]; discriminate.
Qed.

Lemma updateStatus_totalActual_witness :
  JsString.is_empty "Invoiced" = false /\
  workOrders Sample.db !! "wo1" = Some Sample.wo1 /\
  exists w',
    workOrders (db_of (handle (updateStatus Sample.env "wo1" (Some "Invoiced")) Sample.db))
      !! "wo1" = Some w' /\
    totalActual w' = Some 260%float.
Proof.
  assert (H1 : JsString.is_empty "Invoiced" = false) by reflexivity.
  assert (H2 : workOrders Sample.db !! "wo1" = Some Sample.wo1)
    by (vm_compute; reflexivity).
  split; [exact H1|]. split; [exact H2|].
  destruct (updateStatus_totalActual Sample.env "wo1" "Invoiced" Sample.db
              Sample.wo1 H1 H2) as (w' & Hw' & _ & _ & Hsum & _).
  exists w'. split; [exact Hw'|]. apply Hsum. right. reflexivity.
Defined.

(** ** C3: totalEstimate after adding a line *)

(** C3: after addPart (addLabor) on an existing work order, totalEstimate
    is the sum over the extended parts (labor) list of price times quantity
    plus the sum over the labor (parts) list of hours times rate, as
    JavaScript computes it. *)
Theorem add_line_totalEstimate id d w :
  workOrders d !! id = Some w ->
  (forall part,
     exists w',
       workOrders (db_of (handle (addPart id part) d)) !! id = Some w' /\
       parts w' = parts w ++ [part] /\ labor w' = labor w /\
       totalEstimate w' =
         Some (sum_parts (parts w ++ [part]) + sum_labor (labor w))%float) /\
  (forall l,
     exists w',
       workOrders (db_of (handle (addLabor id l) d)) !! id = Some w' /\
       parts w' = parts w /\ labor w' = labor w ++ [l] /\
       totalEstimate w' =
         Some (sum_parts (parts w) + sum_labor (labor w ++ [l]))%float).
Proof.
  intros Hw. split.
  - intros part. pose proof (addPart_run id part d w Hw) as Hrun.
    cbv zeta in Hrun. rewrite Hrun. unfold db_of. simpl.
    rewrite lookup_insert_eq. eexists. split; [reflexivity|].
    repeat split.
  - intros l. pose proof (addLabor_run id l d w Hw) as Hrun.
    cbv zeta in Hrun. rewrite Hrun. unfold db_of. simpl.
    rewrite lookup_insert_eq. eexists. split; [reflexivity|].
    repeat split.
Qed.

Lemma add_line_totalEstimate_witness :
  workOrders Sample.db !! "wo1" = Some Sample.wo1 /\
  exists w',
    workOrders (db_of (handle (addLabor "wo1" Sample.fitting) Sample.db)) !! "wo1"
      = Some w' /\
    totalEstimate w' = Some 440%float.
Proof.
  assert (H : workOrders Sample.db !! "wo1" = Some Sample.wo1)
    by (vm_compute; reflexivity).
  split; [exact H|].
  destruct (proj2 (add_line_totalEstimate "wo1" Sample.db Sample.wo1 H) Sample.fitting)
    as (w' & Hw' & _ & _ & Ht).
  exists w'. split; [exact Hw'|]. exact Ht.
Defined.

(** ** C4: order of the pipeline steps *)

(** C4, as stated, fails: an update that changes the status of a work
    order recomputes the total, syncs the mileage and texts the customer
    before the status is written. *)
Lemma pipeline_order_counterexample :
  let r := handle (updateWorkOrder Sample.env "wo1" Cases.full_update) Sample.db in
  status Sample.wo1 <> b_status Cases.full_update /\
  succeeded (response_of r) = true /\
  steps (trace_of r) = [Recalculation; MileageSync; Notification; Transition] /\
  in_order spec_rank (trace_of r) = false.
Proof.
  cbv zeta. split; [discriminate|]. repeat split; vm_compute; reflexivity.
Qed.

(** C4 (amended): on a stored work order, updateStatus assigns the new
    status, then recomputes totalActual (for Completed - Paid or Invoiced),
    then saves, and these are all its steps: it never syncs a vehicle's
    mileage. updateWorkOrder recomputes the total estimate (exactly when the
    body carries parts or labor and no truthy estimate), then syncs the
    vehicle's mileage (exactly when the body carries a usable mileage and
    the vehicle resolves), then attempts the notification (exactly when an
    SMS is due), and applies the status last, in the final write. *)
Theorem pipeline_order env id body d w :
  workOrders d !! id = Some w ->
  (forall s,
     JsString.is_empty s = false ->
     trace_of (handle (updateStatus env id (Some s)) d) =
       [EvStatus s] ++
       (if sets_totalActual s then [EvTotal (lines_total w)] else []) ++
       [EvWriteWorkOrder id]) /\
  (exists recalc notify,
     trace_of (handle (updateWorkOrder env id body) d) =
       recalc ++ mileage_events env body d w ++ notify ++
       status_events (b_status body) ++ [EvWriteWorkOrder id] /\
     Forall (fun e => is_total e = true) recalc /\
     (recalc <> [] <-> recomputes (Update id body) = true) /\
     (notify = [] \/ exists s c v, notify = sms_events env s c v) /\
     (forall s, sms_attempted s notify <-> sms_due d id (b_status body) s)).
Proof.
  intros Hw. split.
  - intros s Hs. now rewrite (updateStatus_run env id s d w Hs Hw).
  - destruct (updateWorkOrder_found env id body d w Hw)
      as (te & t & d1 & evsT & evsM & evsN & Hrun & _ & _ & _ & _ & Hsms & _ & _
          & HT & HneT & HM & HN & _).
    cbv zeta in Hrun. rewrite Hrun. unfold trace_of. simpl.
    exists evsT, evsN. rewrite <- HM. auto.
Qed.

Lemma pipeline_order_witness :
  trace_of (handle (updateStatus Sample.env "wo1" (Some "Invoiced")) Sample.db) =
    [EvStatus "Invoiced"; EvTotal 260%float; EvWriteWorkOrder "wo1"] /\
  exists recalc notify,
    trace_of (handle (updateWorkOrder Sample.env "wo1" Cases.full_update) Sample.db) =
      recalc ++
      [EvMileage "v1" 45000; EvWriteVehicle "v1"] ++ notify ++
      [EvStatus "Parts Received"; EvWriteWorkOrder "wo1"] /\
    recalc <> [].
Proof.
  assert (H : workOrders Sample.db !! "wo1" = Some Sample.wo1)
    by (vm_compute; reflexivity).
  destruct (pipeline_order Sample.env "wo1" Cases.full_update Sample.db Sample.wo1 H)
    as (Hst & recalc & notify & Hup & _ & Hre & _).
  split; [exact (Hst "Invoiced" eq_refl)|].
  exists recalc, notify. split; [exact Hup|]. apply Hre. reflexivity.
Defined.

(** ** C5: when the customer is texted *)

(** C5, as stated, fails: updating the status of Bob's work order from
    Created to Parts Received succeeds and sends no notification, since Bob
    prefers e-mail. *)
Lemma status_change_without_notification :
  let r := handle (updateWorkOrder Sample.env "wo2" Cases.status_only) Sample.db in
  (exists w, workOrders Sample.db !! "wo2" = Some w /\
             status w <> b_status Cases.status_only) /\
  succeeded (response_of r) = true /\ notified (trace_of r) = false.
Proof.
  cbv zeta. split.
  - exists Sample.wo2. split; [vm_compute; reflexivity | discriminate].
  - repeat split; vm_compute; reflexivity.
Qed.

Lemma updateWorkOrder_sms env id body d s :
  sms_attempted s (trace_of (handle (updateWorkOrder env id body) d))
  <-> sms_due d id (b_status body) s.
Proof.
  destruct (workOrders d !! id) as [w|] eqn:Hw.
  - destruct (updateWorkOrder_found env id body d w Hw)
      as (te & t & d1 & evsT & evsM & evsN & Hrun & _ & HT & HM & HN & Hsms & _).
    cbv zeta in Hrun. rewrite Hrun. unfold trace_of. simpl.
    rewrite <- Hsms, !sms_attempted_app.
    assert (HW : Forall (in_phase Transition)
                   (status_events (b_status body) ++ [EvWriteWorkOrder id]))
      by (destruct (b_status body); phase_tac).
    pose proof (no_sms_in_phase Recalculation evsT s ltac:(discriminate) HT).
    pose proof (no_sms_in_phase MileageSync evsM s ltac:(discriminate) HM).
    pose proof (no_sms_in_phase Transition _ s ltac:(discriminate) HW) as HW'.
    rewrite sms_attempted_app in HW'. tauto.
  - rewrite (updateWorkOrder_missing env id body d Hw). unfold trace_of. simpl.
    split.
    + intros H. now apply no_sms_nil in H.
    + intros (_ & _ & w & c & Hw' & _). congruence.
Qed.

Lemma notified_spec (t : list Event) :
  notified t = true <-> exists s, sms_attempted s t.
Proof.
  unfold notified, sms_attempted. rewrite existsb_exists. split.
  - intros (e & Hin & He). destruct e; try discriminate. eauto.
  - intros (s & ok & Hin). exists (EvSms s ok). split; [assumption | reflexivity].
Qed.

(** C5 (amended): updateWorkOrder attempts the SMS exactly when the body
    carries a non-empty status that differs from the stored one and is one
    of the five notifiable statuses, the work order's customer and vehicle
    both resolve, the customer's communicationPreference is SMS and the
    customer has a phone number; it sends no notification otherwise. *)
Theorem update_sms_iff env id body d :
  (forall s,
     sms_attempted s (trace_of (handle (updateWorkOrder env id body) d))
     <-> sms_due d id (b_status body) s) /\
  (notified (trace_of (handle (updateWorkOrder env id body) d)) = true
   <-> exists s, sms_due d id (b_status body) s).
Proof.
  split.
  - intros s. apply updateWorkOrder_sms.
  - rewrite notified_spec. split; intros [s H]; exists s.
    + exact (proj1 (updateWorkOrder_sms env id body d s) H).
    + exact (proj2 (updateWorkOrder_sms env id body d s) H).
Qed.

Lemma update_sms_iff_witness :
  sms_attempted "Parts Received"
    (trace_of (handle (updateWorkOrder Sample.env "wo1" Cases.full_update) Sample.db)).
Proof.
  apply (proj2 (proj1 (update_sms_iff Sample.env "wo1" Cases.full_update
                          Sample.db) "Parts Received")).
  split; [reflexivity|]. split; [reflexivity|].
  exists Sample.wo1, Sample.alice.
  split; [vm_compute; reflexivity|]. split; [discriminate|].
  split; [reflexivity|]. split; [vm_compute; reflexivity|].
  split; [exists Sample.civic; vm_compute; reflexivity|].
  split; reflexivity.
Defined.

(** ** C6: a failed SMS does not fail the write *)

(** C6: when an update of a stored work order is due an SMS and the call
    of the SMS service throws, the failure is logged and the update goes on
    to its write: the handler answers 200 with the work order it saved,
    which carries the new status. A status update of a stored work order
    answers 200 with the work order it saved, which carries the new status,
    whatever the SMS service does. *)
Theorem sms_failure_keeps_write env id body st d w c v s :
  workOrders d !! id = Some w ->
  (customers d !! wo_customer w = Some c ->
   vehicles d !! wo_vehicle w = Some v ->
   b_status body = Some s -> JsString.is_empty s = false ->
   status w <> Some s -> is_notifiable s = true ->
   communicationPreference c = "SMS" -> truthy_str (phone c) = true ->
   (forall v1, sendStatusUpdate env s c v1 = false) ->
   exists w' before after,
     trace_of (handle (updateWorkOrder env id body) d) =
       before ++
       [EvSms s false; EvLogError "Failed to send SMS notification:"] ++ after /\
     In (EvWriteWorkOrder id) after /\
     response_of (handle (updateWorkOrder env id body) d) = Json 200 (Some w') /\
     workOrders (db_of (handle (updateWorkOrder env id body) d)) !! id = Some w' /\
     status w' = Some s) /\
  (truthy_str st = true ->
   exists w',
     response_of (handle (updateStatus env id st) d) = Json 200 (Some w') /\
     workOrders (db_of (handle (updateStatus env id st) d)) !! id = Some w' /\
     status w' = st).
Proof.
  intros Hw. split.
  - intros Hc Hv Hs He Hd Hn Hp Hph Hfail.
    destruct (updateWorkOrder_found env id body d w Hw)
      as (te & t & d1 & evsT & evsM & evsN & Hrun & HF).
    do 11 (destruct HF as [_ HF]). destruct HF as [Hdue _].
    destruct (Hdue c v s Hc Hv Hs He Hd Hn Hp Hph) as [v1 ->].
    cbv zeta in Hrun. rewrite Hrun. unfold trace_of, response_of, db_of. simpl.
    unfold sms_events. rewrite Hfail.
    eexists _, (evsT ++ evsM), (status_events (b_status body) ++ [EvWriteWorkOrder id]).
    split; [now rewrite <- !app_assoc|].
    split; [apply in_or_app; right; now left|].
    split; [reflexivity|]. rewrite lookup_insert_eq. split; [reflexivity|].
    simpl. destruct (update_services_keeps body) as (Ks & _).
    rewrite Ks, Hs. reflexivity.
  - intros Ht. destruct st as [s0|]; [|discriminate]. simpl in Ht.
    apply negb_true_iff in Ht.
    rewrite (updateStatus_run env id s0 d w Ht Hw).
    unfold response_of, db_of. simpl.
    eexists. split; [reflexivity|]. rewrite lookup_insert_eq.
    split; [reflexivity|]. apply status_document_lines.
Qed.

Lemma sms_failure_keeps_write_witness :
  exists w' before after,
    trace_of (handle (updateWorkOrder Sample.env "wo1" Cases.full_update) Sample.db) =
      before ++
      [EvSms "Parts Received" false;
       EvLogError "Failed to send SMS notification:"] ++ after /\
    In (EvWriteWorkOrder "wo1") after /\
    response_of (handle (updateWorkOrder Sample.env "wo1" Cases.full_update) Sample.db)
      = Json 200 (Some w') /\
    status w' = Some "Parts Received".
Proof.
  destruct (proj1 (sms_failure_keeps_write Sample.env "wo1" Cases.full_update None
                     Sample.db Sample.wo1 Sample.alice Sample.civic "Parts Received"
                     ltac:(vm_compute; reflexivity))
              ltac:(vm_compute; reflexivity) ltac:(vm_compute; reflexivity)
              eq_refl eq_refl ltac:(discriminate) eq_refl eq_refl eq_refl
              ltac:(reflexivity))
    as (w' & before & after & Htr & Hin & Hr & _ & Hs).
  exists w', before, after. auto.
Defined.

(** ** C7: services and serviceRequested *)

Lemma has_items_nonempty {A} (l : list A) : l <> [] -> has_items (Some l) = true.
Proof. destruct l; [congruence | reflexivity]. Qed.

Lemma create_services_given body svcs :
  b_services body = Some svcs -> svcs <> [] ->
  b_services (create_services body) = Some svcs /\
  b_serviceRequested (create_services body) = Some (serviceRequested_of svcs).
Proof.
  intros Hs Hne. unfold create_services.
  rewrite Hs, (has_items_nonempty svcs Hne). simpl.
  rewrite Hs, (has_items_nonempty svcs Hne).
  destruct body; simpl in *. subst. auto.
Qed.

Lemma create_services_text body sr :
  b_services body = None -> b_serviceRequested body = Some sr ->
  JsString.is_empty sr = false ->
  b_services (create_services body) = Some (services_of_string sr).
Proof.
  intros Hs Hsr Hne. unfold create_services.
  rewrite Hs, Hsr. simpl. rewrite Hne. simpl.
  destruct body; simpl. destruct (services_of_string sr); reflexivity.
Qed.

Lemma update_services_given body svcs :
  b_services body = Some svcs ->
  b_services (update_services body) = Some svcs /\
  b_serviceRequested (update_services body) = Some (serviceRequested_of svcs).
Proof.
  intros Hs. unfold update_services. rewrite Hs.
  destruct body; simpl in *. auto.
Qed.

Lemma update_services_text body sr :
  b_services body = None -> b_serviceRequested body = Some sr ->
  JsString.is_empty sr = false ->
  b_services (update_services body) = Some (services_of_string sr).
Proof.
  intros Hs Hsr Hne. unfold update_services.
  rewrite Hs, Hsr. simpl. rewrite Hne. simpl.
  destruct body; reflexivity.
Qed.

(** C7, as stated, fails: a work order created from the single line
    " oil change " stores that text with its blanks as the one service,
    not the trimmed line. *)
Lemma untrimmed_single_service :
  exists w,
    response_of (handle (createWorkOrder Sample.env Cases.padded_text) Sample.db)
      = Json 201 (Some w) /\
    b_services Cases.padded_text = None /\
    services w = [mkService " oil change "] /\
    trimmed_lines " oil change " = [mkService "oil change"] /\
    services w <> trimmed_lines " oil change ".
Proof.
  eexists. split; [vm_compute; reflexivity|].
  split; [reflexivity|]. split; [reflexivity|]. split; [reflexivity|].
  vm_compute. discriminate.
Qed.

(** C7 (amended): a work order created or updated with a non-empty
    services array stores that array and, as serviceRequested, its
    descriptions joined with newlines; splitting that string again recovers
    the array when every description is trimmed, non-empty and free of
    newlines. When only a non-empty serviceRequested is supplied, the stored
    services are one entry per trimmed non-empty line if the text contains a
    newline, and otherwise the single entry holding the text as it is. *)
Theorem services_sync env m d body code w :
  body_of m = Some body ->
  response_of (handle (perform env m) d) = Json code (Some w) ->
  workOrders (db_of (handle (perform env m) d)) !! target env m = Some w /\
  (forall svcs,
     b_services body = Some svcs -> svcs <> [] ->
     services w = svcs /\
     serviceRequested w = Some (serviceRequested_of svcs) /\
     (forallb clean_description svcs = true ->
      services_of_string (serviceRequested_of svcs) = svcs)) /\
  (forall sr,
     b_services body = None -> b_serviceRequested body = Some sr ->
     JsString.is_empty sr = false ->
     services w =
       if JsString.includes_char JsString.newline sr
       then trimmed_lines sr
       else [mkService sr]).
Proof.
  destruct m as [body0 | id body0 | id part | id l | id st]; simpl;
    intros Hb Hr; try discriminate; injection Hb as ->.
  - (* create *)
    assert (Hok : succeeded (response_of (handle (createWorkOrder env body) d)) = true)
      by (rewrite Hr; reflexivity).
    destruct (create_success env body d Hok)
      as (vid & cid & v & c & Hbv & Hv & Hbc & Hc & Hown).
    destruct (createWorkOrder_run env body d vid cid v c Hbv Hv Hbc Hc Hown)
      as (te & evs & Hrun & _).
    cbv zeta in Hrun. rewrite Hrun in *. unfold response_of, db_of in *.
    simpl in *. injection Hr as _ <-.
    rewrite lookup_insert_eq. split; [reflexivity|]. split.
    + intros svcs Hs Hne.
      destruct (create_services_given body svcs Hs Hne) as (H1 & H2).
      simpl. rewrite H1, H2. simpl.
      split; [reflexivity|]. split; [reflexivity|].
      now apply services_roundtrip.
    + intros sr Hs Hsr Hne. simpl.
      rewrite (create_services_text body sr Hs Hsr Hne). reflexivity.
  - (* update *)
    destruct (workOrders d !! id) as [w0|] eqn:Hw0.
    2: { rewrite (updateWorkOrder_missing env id body d Hw0) in Hr. discriminate. }
    destruct (updateWorkOrder_found env id body d w0 Hw0)
      as (te & t & d1 & evsT & evsM & evsN & Hrun & _).
    cbv zeta in Hrun. rewrite Hrun in *. unfold response_of, db_of in *.
    simpl in *. injection Hr as _ <-.
    rewrite lookup_insert_eq. split; [reflexivity|]. split.
    + intros svcs Hs Hne.
      destruct (update_services_given body svcs Hs) as (H1 & H2).
      simpl. rewrite H1, H2. simpl.
      split; [reflexivity|]. split; [reflexivity|].
      now apply services_roundtrip.
    + intros sr Hs Hsr Hne. simpl.
      rewrite (update_services_text body sr Hs Hsr Hne). reflexivity.
Qed.

Lemma services_sync_witness :
  exists w,
    response_of (handle (perform Sample.env (Create Cases.parts_only)) Sample.db)
      = Json 201 (Some w) /\
    services w = [mkService "Brakes"; mkService "Oil change"] /\
    serviceRequested w =
      Some (serviceRequested_of [mkService "Brakes"; mkService "Oil change"]) /\
    services_of_string
      (serviceRequested_of [mkService "Brakes"; mkService "Oil change"])
    = [mkService "Brakes"; mkService "Oil change"].
Proof.
  eexists. split; [vm_compute; reflexivity|].
  destruct (services_sync Sample.env (Create Cases.parts_only) Sample.db
              Cases.parts_only 201 _ eq_refl
              ltac:(vm_compute; reflexivity)) as (_ & Hgiven & _).
  destruct (Hgiven [mkService "Brakes"; mkService "Oil change"] eq_refl
              ltac:(discriminate)) as (H1 & H2 & H3).
  split; [exact H1|]. split; [exact H2|]. apply H3. reflexivity.
Defined.

(** ** C8: what a create changes on the vehicle *)

(** C8, as stated, fails: a create whose currentMileage is the number 0,
    which parses as a number, succeeds and appends the work order to the
    vehicle's serviceHistory only. *)
Lemma zero_mileage_is_skipped :
  let r := handle (createWorkOrder Sample.env Cases.zero_mileage) Sample.db in
  parse_mileage Sample.env (b_currentMileage Cases.zero_mileage) = Some 0 /\
  succeeded (response_of r) = true /\
  vehicles (db_of r) !! "v1" =
    Some {| v_customer := "c1"; serviceHistory := ["wo1"; "wo9"];
            mileageHistory := []; v_currentMileage := Some 40000 |}.
Proof.
  cbv zeta. split; [reflexivity|]. split; vm_compute; reflexivity.
Qed.

(** C8 (amended): a successful create whose currentMileage is truthy
    (a non-zero number or a non-empty string) and parses as a number
    replaces the owning vehicle by itself with the new id appended to
    serviceHistory, one entry with that mileage and the work order's date
    (the date of the request when it is truthy, else the current date)
    appended to mileageHistory, and currentMileage set to that mileage;
    otherwise only the serviceHistory append occurs. No other vehicle and no
    customer changes. *)
Theorem create_vehicle_effect env body d vid cid v c :
  b_vehicle body = Some vid -> vehicles d !! vid = Some v ->
  b_customer body = Some cid -> customers d !! cid = Some c ->
  v_customer v = cid ->
  (forall m,
     truthy_mileage (b_currentMileage body) = true ->
     parse_mileage env (b_currentMileage body) = Some m ->
     vehicles (db_of (handle (createWorkOrder env body) d)) =
       <[vid := {| v_customer := v_customer v;
                   serviceHistory := serviceHistory v ++ [newObjectId env];
                   mileageHistory :=
                     mileageHistory v ++
                     [ {| me_date := entry_date env body;
                          me_mileage := m;
                          me_source := Some (mileage_source (newObjectId env)) |} ];
                   v_currentMileage := Some m |}]> (vehicles d)) /\
  (forall t, b_date body = Some t -> t <> 0 -> entry_date env body = t) /\
  (b_date body = None \/ b_date body = Some 0 -> entry_date env body = now env) /\
  (truthy_mileage (b_currentMileage body) = false \/
   parse_mileage env (b_currentMileage body) = None ->
   vehicles (db_of (handle (createWorkOrder env body) d)) =
     <[vid := {| v_customer := v_customer v;
                 serviceHistory := serviceHistory v ++ [newObjectId env];
                 mileageHistory := mileageHistory v;
                 v_currentMileage := v_currentMileage v |}]> (vehicles d)) /\
  customers (db_of (handle (createWorkOrder env body) d)) = customers d.
Proof.
  intros Hbv Hv Hbc Hc Hown.
  destruct (createWorkOrder_run env body d vid cid v c Hbv Hv Hbc Hc Hown)
    as (te & evs & Hrun & _).
  cbv zeta in Hrun. rewrite Hrun. unfold db_of. simpl.
  unfold mileage_update. split; [|split; [|split; [|split]]].
  - intros m Ht Hp. rewrite Ht, Hp. reflexivity.
  - intros t Ht Hne. unfold entry_date. rewrite Ht. simpl.
    destruct (Z.eqb_spec t 0); [contradiction | reflexivity].
  - unfold entry_date. intros [-> | ->]; reflexivity.
  - intros [Ht|Hp].
    + rewrite Ht. reflexivity.
    + rewrite Hp. destruct (truthy_mileage (b_currentMileage body)); reflexivity.
  - reflexivity.
Qed.

Lemma create_vehicle_effect_witness :
  vehicles (db_of (handle (createWorkOrder Sample.env Cases.parts_only) Sample.db))
    !! "v1"
  = Some {| v_customer := "c1"; serviceHistory := ["wo1"; "wo9"];
            mileageHistory :=
              [ {| me_date := 1700000000000; me_mileage := 45000;
                   me_source := Some "Work Order #wo9" |} ];
            v_currentMileage := Some 45000 |}.
Proof.
  rewrite (proj1 (create_vehicle_effect Sample.env Cases.parts_only Sample.db
                    "v1" "c1" Sample.civic Sample.alice
                    eq_refl ltac:(vm_compute; reflexivity)
                    eq_refl ltac:(vm_compute; reflexivity) eq_refl)
                 45000 eq_refl eq_refl).
  rewrite lookup_insert_eq. reflexivity.
Defined.

(** ** C9: status codes of updateStatus *)

(** C9, as stated, fails: a body whose status is the empty string
    contains a status and is answered with 400. *)
Lemma empty_status_is_rejected :
  Some "" <> (None : option string) /\
  response_of (handle (updateStatus Sample.env "wo1" (Some "")) Sample.db)
  = AppError "Please provide a status" 400.
Proof. split; [discriminate | reflexivity]. Qed.

(** C9 (amended): updateStatus answers 400, with an operational error,
    exactly when the status of the body is missing or empty; otherwise it
    answers 404, with an operational error, exactly when no work order has
    the given id; otherwise it answers 200. *)
Theorem updateStatus_status_codes env id st d :
  (http_status (response_of (handle (updateStatus env id st) d)) = 400
   <-> truthy_str st = false) /\
  (truthy_str st = true ->
   (http_status (response_of (handle (updateStatus env id st) d)) = 404
    <-> workOrders d !! id = None)) /\
  (truthy_str st = true -> is_Some (workOrders d !! id) ->
   http_status (response_of (handle (updateStatus env id st) d)) = 200) /\
  (http_status (response_of (handle (updateStatus env id st) d)) <> 200 ->
   exists msg code,
     response_of (handle (updateStatus env id st) d) = AppError msg code).
Proof.
  destruct (truthy_str st) eqn:Ht.
  - destruct (workOrders d !! id) as [w|] eqn:Hw.
    + destruct st as [s|]; [|discriminate]. simpl in Ht.
      apply negb_true_iff in Ht.
      rewrite (updateStatus_run env id s d w Ht Hw). unfold response_of. simpl.
      repeat split; try discriminate; try congruence.
    + rewrite (updateStatus_missing env id st d Ht Hw). unfold response_of. simpl.
      repeat split; try discriminate; try congruence; eauto.
      intros _ [? ?]. discriminate.
  - rewrite (updateStatus_no_status env id st d Ht). unfold response_of. simpl.
    repeat split; try discriminate; try congruence; eauto.
Qed.

Lemma updateStatus_status_codes_witness :
  http_status (response_of (handle (updateStatus Sample.env "nowhere"
                                      (Some "Invoiced")) Sample.db)) = 404.
Proof.
  apply (proj2 (proj1 (proj2 (updateStatus_status_codes Sample.env "nowhere"
                                (Some "Invoiced") Sample.db)) eq_refl)).
  vm_compute. reflexivity.
Defined.

(** ** C10: a rejected create changes nothing *)

(** C10: when the vehicle does not exist (404), the customer does not
    exist (404) or the vehicle belongs to another customer (400),
    createWorkOrder answers with that operational error, performs no write
    and leaves the store, hence every work order and every vehicle, as it
    was. *)
Theorem create_rejection_is_atomic env body d code :
  create_rejected d body code ->
  exists msg,
    response_of (handle (createWorkOrder env body) d) = AppError msg code /\
    db_of (handle (createWorkOrder env body) d) = d /\
    trace_of (handle (createWorkOrder env body) d) = [].
Proof.
  intros Hrej.
  destruct (createWorkOrder_rejected env body d code Hrej) as [msg Hr].
  exists msg. rewrite Hr. repeat split.
Qed.

Lemma create_rejection_is_atomic_witness :
  exists msg,
    response_of (handle (createWorkOrder Sample.env Cases.wrong_owner) Sample.db)
      = AppError msg 400 /\
    db_of (handle (createWorkOrder Sample.env Cases.wrong_owner) Sample.db)
      = Sample.db.
Proof.
  destruct (create_rejection_is_atomic Sample.env Cases.wrong_owner Sample.db 400)
    as (msg & Hr & Hd & _).
  - apply (foreign_vehicle Sample.db Cases.wrong_owner Sample.truck "c1").
    + vm_compute. reflexivity.
    + reflexivity.
    + exists Sample.alice. vm_compute. reflexivity.
    + discriminate.
  - exists msg. split; assumption.
Defined.

(** * Further properties of the controllers *)

(** ** deleteWorkOrder and generateInvoice *)

Ltac run_reader :=
  unfold attempt, WorkOrder_findById, Vehicle_findById, Customer_findById,
    Customer_populate, not_found, bind, ret, finish, query, modify; simpl.

Lemma deleteWorkOrder_run id d w :
  workOrders d !! id = Some w ->
  exists t,
    handle (deleteWorkOrder id) d =
      (Json 204 None,
       remove_workOrder id
         match vehicles d !! wo_vehicle w with
         | Some v => put_vehicle (wo_vehicle w) (pull_serviceHistory id v) d
         | None => d
         end,
       t).
Proof.
  intros Hw. unfold deleteWorkOrder, Vehicle_findByIdAndUpdate,
    WorkOrder_findByIdAndDelete.
  run_handler. rewrite Hw. simpl.
  destruct (vehicles d !! wo_vehicle w); simpl; eexists; reflexivity.
Qed.

Lemma deleteWorkOrder_missing id d :
  workOrders d !! id = None ->
  handle (deleteWorkOrder id) d =
    (AppError "No work order found with that ID" 404, d, []).
Proof.
  intros Hw. unfold deleteWorkOrder. run_handler. rewrite Hw. reflexivity.
Qed.

Lemma pulled_history (id x : Id) (v : Vehicle) :
  In x (serviceHistory (pull_serviceHistory id v)) <->
  In x (serviceHistory v) /\ x <> id.
Proof.
  unfold pull_serviceHistory. simpl. rewrite filter_In, negb_true_iff.
  rewrite String.eqb_neq. reflexivity.
Qed.

(** X1: deleting a stored work order answers 204, removes that work order
    and no other, and takes its id out of the service history of its
    vehicle, whose other entries and fields stay; no other vehicle and no
    customer changes. *)
Theorem deleteWorkOrder_effect id d w :
  workOrders d !! id = Some w ->
  response_of (handle (deleteWorkOrder id) d) = Json 204 None /\
  workOrders (db_of (handle (deleteWorkOrder id) d)) = delete id (workOrders d) /\
  customers (db_of (handle (deleteWorkOrder id) d)) = customers d /\
  (forall v,
     vehicles d !! wo_vehicle w = Some v ->
     exists v',
       vehicles (db_of (handle (deleteWorkOrder id) d)) !! wo_vehicle w = Some v' /\
       (forall x, In x (serviceHistory v') <-> In x (serviceHistory v) /\ x <> id) /\
       mileageHistory v' = mileageHistory v /\
       v_currentMileage v' = v_currentMileage v /\
       v_customer v' = v_customer v) /\
  (forall vid,
     vid <> wo_vehicle w ->
     vehicles (db_of (handle (deleteWorkOrder id) d)) !! vid = vehicles d !! vid).
Proof.
  intros Hw. destruct (deleteWorkOrder_run id d w Hw) as [t Hrun].
  rewrite Hrun. unfold response_of, db_of. simpl.
  split; [reflexivity|].
  destruct (vehicles d !! wo_vehicle w) as [v|] eqn:Hv; simpl.
  - split; [reflexivity|]. split; [reflexivity|]. split.
    + intros v0 [= <-]. exists (pull_serviceHistory id v).
      rewrite lookup_insert_eq. split; [reflexivity|].
      split; [intros x; apply pulled_history|]. repeat split.
    + intros vid Hne. rewrite lookup_insert_ne by congruence. reflexivity.
  - split; [reflexivity|]. split; [reflexivity|]. split.
    + intros v0 [=].
    + reflexivity.
Qed.

Lemma deleteWorkOrder_effect_witness :
  workOrders Sample.db !! "wo1" = Some Sample.wo1 /\
  workOrders (db_of (handle (deleteWorkOrder "wo1") Sample.db)) !! "wo1" = None.
Proof.
  assert (H : workOrders Sample.db !! "wo1" = Some Sample.wo1)
    by (vm_compute; reflexivity).
  split; [exact H|].
  destruct (deleteWorkOrder_effect "wo1" Sample.db Sample.wo1 H)
    as (_ & Hd & _).
  rewrite Hd. apply lookup_delete_eq.
Defined.

Lemma generateInvoice_missing id d :
  workOrders d !! id = None ->
  attempt (generateInvoice id) d =
    (Finish (AppError "No work order found with that ID" 404), d).
Proof.
  intros Hw. unfold generateInvoice. run_reader. rewrite Hw. reflexivity.
Qed.

Lemma generateInvoice_run id d w :
  workOrders d !! id = Some w ->
  attempt (generateInvoice id) d =
    (Continue
       {| workOrderId := id;
          inv_customer :=
            option_map (select_customer ["name"; "email"; "phone"; "address"])
                       (customers d !! wo_customer w);
          inv_vehicle := vehicles d !! wo_vehicle w;
          inv_assignedTechnician := assignedTechnician w;
          inv_date := wo_date w;
          inv_parts := parts w;
          inv_labor := labor w;
          inv_partsCost := partsCost (parts w);
          inv_laborCost := laborCost (labor w);
          totalCost := (partsCost (parts w) + laborCost (labor w))%float;
          inv_status := status w |}, d).
Proof.
  intros Hw. unfold generateInvoice. run_reader. rewrite Hw. reflexivity.
Qed.

(** X2: on an id that no work order has, updateWorkOrder, addPart,
    addLabor, updateStatus (given a status), deleteWorkOrder and
    generateInvoice all answer 404; none of them writes to the store or
    sends anything. *)
Theorem missing_work_order_is_404 env id body part l st d :
  workOrders d !! id = None ->
  let e := AppError "No work order found with that ID" 404 in
  handle (updateWorkOrder env id body) d = (e, d, []) /\
  handle (addPart id part) d = (e, d, []) /\
  handle (addLabor id l) d = (e, d, []) /\
  (truthy_str st = true -> handle (updateStatus env id st) d = (e, d, [])) /\
  handle (deleteWorkOrder id) d = (e, d, []) /\
  attempt (generateInvoice id) d = (Finish e, d).
Proof.
  intros Hw e. subst e.
  split; [now apply updateWorkOrder_missing|].
  split; [now apply addPart_missing|].
  split; [now apply addLabor_missing|].
  split; [intros Ht; now apply updateStatus_missing|].
  split; [now apply deleteWorkOrder_missing | now apply generateInvoice_missing].
Qed.

Lemma missing_work_order_is_404_witness :
  workOrders Sample.db !! "nowhere" = None /\
  handle (updateWorkOrder Sample.env "nowhere" Cases.full_update) Sample.db =
    (AppError "No work order found with that ID" 404, Sample.db, []).
Proof.
  assert (H : workOrders Sample.db !! "nowhere" = None) by (vm_compute; reflexivity).
  split; [exact H|].
  exact (proj1 (missing_work_order_is_404 Sample.env "nowhere" Cases.full_update
                  Sample.rotor Sample.fitting None Sample.db H)).
Defined.

Lemma filter_out_fresh (id : Id) (l : list Id) :
  ~ In id l ->
  List.filter (fun x => negb (String.eqb x id)) (l ++ [id]) = l.
Proof.
  intros Hnot. rewrite List.filter_app. simpl.
  rewrite String.eqb_refl. simpl. rewrite app_nil_r.
  induction l as [|x l IH]; simpl; [reflexivity|].
  destruct (String.eqb_spec x id) as [->|Hne]; simpl.
  - exfalso. apply Hnot. left. reflexivity.
  - rewrite IH; [reflexivity|]. intros H. apply Hnot. right. exact H.
Qed.

(** X3: creating a work order under a fresh id and then deleting it gives
    back the collection of work orders and the vehicle's service history as
    they were, and leaves the customers alone; the mileage entry and the
    currentMileage that the create wrote on the vehicle stay. When the create
    carried no usable mileage the whole store is as before. *)
Theorem create_then_delete env body d vid cid v c :
  b_vehicle body = Some vid -> vehicles d !! vid = Some v ->
  b_customer body = Some cid -> customers d !! cid = Some c ->
  v_customer v = cid ->
  workOrders d !! newObjectId env = None ->
  ~ In (newObjectId env) (serviceHistory v) ->
  let d1 := db_of (handle (createWorkOrder env body) d) in
  let d2 := db_of (handle (deleteWorkOrder (newObjectId env)) d1) in
  let sv := serviced_vehicle env body v (mileage_update env (b_currentMileage body)) in
  workOrders d2 = workOrders d /\
  customers d2 = customers d /\
  vehicles d2 =
    <[vid := {| v_customer := v_customer v;
                serviceHistory := serviceHistory v;
                mileageHistory := mileageHistory sv;
                v_currentMileage := v_currentMileage sv |}]> (vehicles d) /\
  (mileage_update env (b_currentMileage body) = None -> d2 = d).
Proof.
  intros Hbv Hv Hbc Hc Hown Hfresh Hnew. cbv zeta.
  destruct (createWorkOrder_run env body d vid cid v c Hbv Hv Hbc Hc Hown)
    as (te & evs & Hrun & _).
  cbv zeta in Hrun. rewrite Hrun. unfold db_of at 2 4 6 8. simpl.
  set (w' := new_document env cid vid (set_b_totalEstimate (create_services body) te)).
  set (sv := serviced_vehicle env body v (mileage_update env (b_currentMileage body))).
  set (d1 := put_vehicle vid sv (put_workOrder (newObjectId env) w' d)).
  assert (Hw1 : workOrders d1 !! newObjectId env = Some w')
    by (unfold d1; simpl; apply lookup_insert_eq).
  destruct (deleteWorkOrder_run (newObjectId env) d1 w' Hw1) as [t Hdel].
  rewrite Hdel. unfold db_of. cbn [fst snd].
  assert (Hsv : pull_serviceHistory (newObjectId env) sv =
                {| v_customer := v_customer v;
                   serviceHistory := serviceHistory v;
                   mileageHistory := mileageHistory sv;
                   v_currentMileage := v_currentMileage sv |}).
  { unfold pull_serviceHistory, sv, serviced_vehicle.
    destruct (mileage_update env (b_currentMileage body)); simpl;
      rewrite (filter_out_fresh _ _ Hnew); reflexivity. }
  assert (Hd2 :
    remove_workOrder (newObjectId env)
      match vehicles d1 !! wo_vehicle w' with
      | Some v0 =>
          put_vehicle (wo_vehicle w') (pull_serviceHistory (newObjectId env) v0) d1
      | None => d1
      end =
    {| workOrders := workOrders d;
       vehicles :=
         <[vid := {| v_customer := v_customer v;
                     serviceHistory := serviceHistory v;
                     mileageHistory := mileageHistory sv;
                     v_currentMileage := v_currentMileage sv |}]> (vehicles d);
       customers := customers d;
       appointments := appointments d |}).
  { unfold d1. simpl. rewrite lookup_insert_eq. unfold remove_workOrder. simpl.
    rewrite delete_insert_eq, (delete_id _ _ Hfresh), insert_insert_eq, Hsv.
    reflexivity. }
  rewrite Hd2. simpl.
  split; [reflexivity|]. split; [reflexivity|]. split; [reflexivity|].
  intros Hnone. unfold sv, serviced_vehicle. rewrite Hnone. simpl.
  rewrite insert_id by (rewrite Hv; destruct v; reflexivity).
  destruct d; reflexivity.
Qed.

Lemma create_then_delete_witness :
  vehicles (db_of (handle (deleteWorkOrder "wo9")
              (db_of (handle (createWorkOrder Sample.env Cases.parts_only) Sample.db))))
    !! "v1"
  = Some {| v_customer := "c1"; serviceHistory := ["wo1"];
            mileageHistory :=
              [ {| me_date := 1700000000000; me_mileage := 45000;
                   me_source := Some "Work Order #wo9" |} ];
            v_currentMileage := Some 45000 |}.
Proof.
  destruct (create_then_delete Sample.env Cases.parts_only Sample.db
              "v1" "c1" Sample.civic Sample.alice
              eq_refl ltac:(vm_compute; reflexivity)
              eq_refl ltac:(vm_compute; reflexivity) eq_refl
              ltac:(vm_compute; reflexivity)
              ltac:(simpl; intros [H|[]]; discriminate))
    as (_ & _ & Hveh & _).
  etransitivity;
    [apply (f_equal (fun m : gmap string Vehicle => m !! "v1")); exact Hveh|].
  rewrite lookup_insert_eq. reflexivity.
Defined.

(** X4: the invoice of a stored work order carries as partsCost the sum
    over its parts of price times quantity, as laborCost the sum over its
    labor of hours times rate and as totalCost the two together (each as
    JavaScript computes it), whatever totalEstimate and totalActual the work
    order stores. Its parts, labor and status are those of the work order,
    its customer is the work order's customer with phone and e-mail and
    without communicationPreference; generating it leaves the store as it
    is. *)
Theorem invoice_totals id d w :
  workOrders d !! id = Some w ->
  exists inv,
    attempt (generateInvoice id) d = (Continue inv, d) /\
    inv_partsCost inv = sum_parts (parts w) /\
    inv_laborCost inv = sum_labor (labor w) /\
    totalCost inv = lines_total w /\
    inv_parts inv = parts w /\ inv_labor inv = labor w /\
    inv_status inv = status w /\
    (forall c, customers d !! wo_customer w = Some c ->
       inv_customer inv =
         Some {| sel_communicationPreference := None;
                 sel_phone := phone c; sel_email := email c |}) /\
    (customers d !! wo_customer w = None -> inv_customer inv = None).
Proof.
  intros Hw. rewrite (generateInvoice_run id d w Hw).
  eexists. split; [reflexivity|]. simpl.
  rewrite cost_lines_total, partsCost_sum, laborCost_sum.
  repeat split; intros; match goal with H : _ = _ |- _ => now rewrite H end.
Qed.

Lemma invoice_totals_witness :
  exists inv,
    attempt (generateInvoice "wo1") Sample.db = (Continue inv, Sample.db) /\
    totalCost inv = 260%float.
Proof.
  destruct (invoice_totals "wo1" Sample.db Sample.wo1 ltac:(vm_compute; reflexivity))
    as (inv & Hrun & _ & _ & Ht & _).
  exists inv. split; [exact Hrun | exact Ht].
Defined.

(** X5: once a status update to Completed - Paid or Invoiced has gone
    through, the invoice of the work order shows the new status and its
    totalCost is the totalActual the status update stored. *)
Theorem invoice_matches_totalActual env id s d w :
  sets_totalActual s = true ->
  workOrders d !! id = Some w ->
  exists inv w',
    attempt (generateInvoice id) (db_of (handle (updateStatus env id (Some s)) d))
      = (Continue inv, db_of (handle (updateStatus env id (Some s)) d)) /\
    workOrders (db_of (handle (updateStatus env id (Some s)) d)) !! id = Some w' /\
    totalActual w' = Some (totalCost inv) /\
    inv_status inv = Some s.
Proof.
  intros Hset Hw. pose proof (sets_totalActual_nonempty s Hset) as Hne.
  rewrite (updateStatus_run env id s d w Hne Hw). unfold db_of. simpl.
  assert (Hw' : workOrders (put_workOrder id (status_document s w) d) !! id
                = Some (status_document s w))
    by (simpl; apply lookup_insert_eq).
  rewrite (generateInvoice_run id _ _ Hw').
  eexists _, (status_document s w). split; [reflexivity|].
  split; [exact Hw'|]. simpl.
  unfold status_document. rewrite Hset. simpl. split; reflexivity.
Qed.

Lemma invoice_matches_totalActual_witness :
  exists inv,
    attempt (generateInvoice "wo1")
      (db_of (handle (updateStatus Sample.env "wo1" (Some "Invoiced")) Sample.db))
    = (Continue inv,
       db_of (handle (updateStatus Sample.env "wo1" (Some "Invoiced")) Sample.db)) /\
    inv_status inv = Some "Invoiced".
Proof.
  destruct (invoice_matches_totalActual Sample.env "wo1" "Invoiced" Sample.db
              Sample.wo1 eq_refl ltac:(vm_compute; reflexivity))
    as (inv & w' & Hrun & _ & _ & Hs).
  exists inv. split; [exact Hrun | exact Hs].
Defined.

(** ** Listing work orders *)

Lemma date_leb_total (a b : option Date) : date_leb a b = true \/ date_leb b a = true.
Proof.
  destruct a as [x|], b as [y|]; simpl; auto.
  destruct (Z.leb_spec x y); [left; reflexivity | right; apply Z.leb_le; lia].
Qed.

Lemma date_leb_trans (a b c : option Date) :
  date_leb a b = true -> date_leb b c = true -> date_leb a c = true.
Proof.
  destruct a as [x|], b as [y|], c as [z|]; simpl; try congruence.
  rewrite !Z.leb_le. lia.
Qed.

Lemma newest_first_total : Total newest_first.
Proof. intros x y. unfold newest_first. apply date_leb_total. Qed.

Lemma newest_first_trans : Transitive newest_first.
Proof.
  intros x y z Hxy Hyz. unfold newest_first in *.
  eapply date_leb_trans; eassumption.
Qed.

Lemma find_sorted_elem (p : WorkOrder -> bool) (d : DB) (id : Id) (w : WorkOrder) :
  In (id, w) (WorkOrder_find_sorted p d) <->
  workOrders d !! id = Some w /\ p w = true.
Proof.
  unfold WorkOrder_find_sorted.
  rewrite <- list_elem_of_In, merge_sort_Permutation, list_elem_of_In.
  rewrite filter_In, <- list_elem_of_In, elem_of_map_to_list. reflexivity.
Qed.

Lemma filter_fst_sublist {A B} (p : A * B -> bool) (l : list (A * B)) :
  sublist (List.map fst (List.filter p l)) (List.map fst l).
Proof.
  induction l as [|x l IH]; simpl; [constructor|].
  destruct (p x); simpl; [now apply sublist_skip | now apply sublist_cons].
Qed.

Lemma find_sorted_NoDup (p : WorkOrder -> bool) (d : DB) :
  NoDup (List.map fst (WorkOrder_find_sorted p d)).
Proof.
  unfold WorkOrder_find_sorted.
  assert (HP : List.map fst (merge_sort newest_first
                 (List.filter (fun x => p (snd x)) (map_to_list (workOrders d))))
               ≡ₚ List.map fst (List.filter (fun x => p (snd x))
                                   (map_to_list (workOrders d)))).
  { apply Permutation_map, merge_sort_Permutation. }
  rewrite HP.
  apply (sublist_NoDup _ (List.map fst (map_to_list (workOrders d)))).
  - apply NoDup_fst_map_to_list.
  - apply filter_fst_sublist.
Qed.

Lemma matches_spec (q : Filters) (w : WorkOrder) :
  matches q w = true <->
  (forall s, f_status q = Some s -> s <> "" -> status w = Some s) /\
  (forall c, f_customer q = Some c -> c <> "" -> wo_customer w = c) /\
  (forall v, f_vehicle q = Some v -> v <> "" -> wo_vehicle w = v) /\
  (forall a, f_startDate q = Some a -> exists t, wo_date w = Some t /\ a <= t) /\
  (forall b, f_endDate q = Some b -> exists t, wo_date w = Some t /\ t <= b).
Proof.
  unfold matches. rewrite !andb_true_iff.
  assert (Hempty : forall s, JsString.is_empty s = false <-> s <> "")
    by (intros [|? ?]; simpl; split; congruence).
  assert (H1 : (if truthy_str (f_status q)
                then field_is (status w) (or_keep (f_status q) "") else true) = true
               <-> forall s, f_status q = Some s -> s <> "" -> status w = Some s).
  { destruct (f_status q) as [s|]; simpl; [|split; [intros _ ? [=] | reflexivity]].
    destruct (JsString.is_empty s) eqn:He; simpl.
    - split; [|reflexivity]. intros _ s' [= <-] Hn.
      destruct s; [congruence | discriminate].
    - apply Hempty in He. unfold field_is. destruct (status w) as [x|].
      + rewrite String.eqb_eq. split.
        * intros -> s' [= <-] _. reflexivity.
        * intros H. specialize (H s eq_refl He). congruence.
      + split; [discriminate|]. intros H. specialize (H s eq_refl He). discriminate. }
  assert (H2 : forall (f : option Id) (x : Id),
             (if truthy_str f then String.eqb x (or_keep f "") else true) = true
             <-> forall c, f = Some c -> c <> "" -> x = c).
  { intros f x. destruct f as [c|]; simpl; [|split; [intros _ ? [=] | reflexivity]].
    destruct (JsString.is_empty c) eqn:He; simpl.
    - split; [|reflexivity]. intros _ c' [= <-] Hn.
      destruct c; [congruence | discriminate].
    - apply Hempty in He. rewrite String.eqb_eq. split.
      + intros -> c' [= <-] _. reflexivity.
      + intros H. apply H; [reflexivity | assumption]. }
  rewrite H1, (H2 (f_customer q)), (H2 (f_vehicle q)).
  assert (H3 : match f_startDate q with
               | Some a => match wo_date w with Some t => Z.leb a t | None => false end
               | None => true
               end = true
               <-> forall a, f_startDate q = Some a ->
                             exists t, wo_date w = Some t /\ a <= t).
  { destruct (f_startDate q) as [a|]; [|split; [intros _ ? [=] | reflexivity]].
    destruct (wo_date w) as [t|].
    - rewrite Z.leb_le. split.
      + intros H a' [= <-]. eauto.
      + intros H. destruct (H a eq_refl) as (t' & [= <-] & Hle). exact Hle.
    - split; [discriminate|]. intros H. destruct (H a eq_refl) as (t' & [=] & _). }
  assert (H4 : match f_endDate q with
               | Some b => match wo_date w with Some t => Z.leb t b | None => false end
               | None => true
               end = true
               <-> forall b, f_endDate q = Some b ->
                             exists t, wo_date w = Some t /\ t <= b).
  { destruct (f_endDate q) as [b|]; [|split; [intros _ ? [=] | reflexivity]].
    destruct (wo_date w) as [t|].
    - rewrite Z.leb_le. split.
      + intros H b' [= <-]. eauto.
      + intros H. destruct (H b eq_refl) as (t' & [= <-] & Hle). exact Hle.
    - split; [discriminate|]. intros H. destruct (H b eq_refl) as (t' & [=] & _). }
  rewrite H3, H4. tauto.
Qed.

(** X6: getAllWorkOrders leaves the store alone and answers with exactly
    the stored work orders that pass every filter given (status, customer
    and vehicle when non-empty; a start date and an end date, which a work
    order without a date never passes), each once, newest first, work orders
    without a date last. *)
Theorem getAllWorkOrders_exact q d :
  exists l,
    attempt (getAllWorkOrders q) d = (Continue l, d) /\
    (forall id w,
       In (id, w) l <->
       workOrders d !! id = Some w /\
       (forall s, f_status q = Some s -> s <> "" -> status w = Some s) /\
       (forall c, f_customer q = Some c -> c <> "" -> wo_customer w = c) /\
       (forall v, f_vehicle q = Some v -> v <> "" -> wo_vehicle w = v) /\
       (forall a, f_startDate q = Some a -> exists t, wo_date w = Some t /\ a <= t) /\
       (forall b, f_endDate q = Some b -> exists t, wo_date w = Some t /\ t <= b)) /\
    NoDup (List.map fst l) /\
    StronglySorted (fun x y => date_leb (wo_date (snd y)) (wo_date (snd x)) = true) l.
Proof.
  exists (WorkOrder_find_sorted (matches q) d).
  split; [reflexivity|]. split; [|split].
  - intros id w. rewrite find_sorted_elem, matches_spec. reflexivity.
  - apply find_sorted_NoDup.
  - apply (@StronglySorted_merge_sort _ newest_first _
             newest_first_trans newest_first_total).
Qed.

(** X7: for a non-empty status, getWorkOrdersByStatus answers what
    getAllWorkOrders answers when status is its only filter. *)
Theorem status_listing_agrees s d :
  s <> "" ->
  attempt (getWorkOrdersByStatus s) d =
  attempt (getAllWorkOrders
             {| f_status := Some s; f_customer := None; f_vehicle := None;
                f_startDate := None; f_endDate := None |}) d.
Proof.
  intros Hs. unfold getWorkOrdersByStatus, getAllWorkOrders, attempt, query. simpl.
  unfold WorkOrder_find_sorted. do 3 f_equal.
  apply List.filter_ext. intros [id w]. unfold matches. simpl.
  destruct s; [congruence|]. simpl. now rewrite !andb_true_r.
Qed.

Lemma status_listing_agrees_witness :
  attempt (getWorkOrdersByStatus "Created") Sample.db =
  attempt (getAllWorkOrders
             {| f_status := Some "Created"; f_customer := None; f_vehicle := None;
                f_startDate := None; f_endDate := None |}) Sample.db.
Proof.
  apply (status_listing_agrees "Created" Sample.db). discriminate.
Defined.

(** ** More on updateWorkOrder and createWorkOrder *)



Lemma mileage_synced_ext env id data data' d :
  b_currentMileage data = b_currentMileage data' ->
  b_date data = b_date data' ->
  mileage_synced env id data d = mileage_synced env id data' d.
Proof.
  intros H1 H2. unfold mileage_synced, same_mileage_entry, entry_date.
  rewrite H1, H2. reflexivity.
Qed.

Lemma update_mileage_store env id data W :
  exists evs,
    update_mileage env id data W =
      (Continue tt, mkWorld (mileage_synced env id data (w_db W)) (w_log W ++ evs)).
Proof.
  destruct W as [d log]. unfold update_mileage, mileage_synced. simpl.
  destruct (mileage_update env (b_currentMileage data)) as [m|].
  2: { exists []. now rewrite app_nil_r. }
  run_handler.
  destruct (workOrders d !! id) as [wo|]; simpl.
  2: { exists []. now rewrite app_nil_r. }
  destruct (vehicles d !! wo_vehicle wo) as [v|]; simpl.
  2: { exists []. now rewrite app_nil_r. }
  eexists. rewrite <- app_assoc. reflexivity.
Qed.

Lemma mileage_synced_frame env id data d :
  workOrders (mileage_synced env id data d) = workOrders d /\
  customers (mileage_synced env id data d) = customers d /\
  appointments (mileage_synced env id data d) = appointments d /\
  (forall vid v',
     vehicles (mileage_synced env id data d) !! vid = Some v' ->
     exists v, vehicles d !! vid = Some v /\
               serviceHistory v' = serviceHistory v /\
               v_customer v' = v_customer v) /\
  (forall vid w, workOrders d !! id = Some w -> vid <> wo_vehicle w ->
     vehicles (mileage_synced env id data d) !! vid = vehicles d !! vid).
Proof.
  unfold mileage_synced.
  destruct (mileage_update env (b_currentMileage data)) as [m|];
    [|repeat split; eauto].
  destruct (workOrders d !! id) as [wo|] eqn:Hwo; [|repeat split; eauto].
  destruct (vehicles d !! wo_vehicle wo) as [v|] eqn:Hv; [|repeat split; eauto].
  simpl. split; [reflexivity|]. split; [reflexivity|]. split; [reflexivity|].
  split.
  - intros vid v' H. destruct (decide (wo_vehicle wo = vid)) as [<-|Hne].
    + rewrite lookup_insert_eq in H. injection H as <-. eauto.
    + rewrite lookup_insert_ne in H by assumption. eauto.
  - intros vid w [= <-] Hne. rewrite lookup_insert_ne by congruence. reflexivity.
Qed.

Lemma update_totals_explicit id data W w :
  workOrders (w_db W) !! id = Some w ->
  truthy_num (b_totalEstimate data) = true ->
  update_totals id data W = (Continue data, W).
Proof.
  intros Hw Ht. destruct W as [d log]. simpl in Hw.
  destruct data as [bc bv bd bs bsv bsr bp bl bte bta bcm bap bat].
  simpl in Ht. unfold update_totals. simpl.
  destruct bp, bl; run_handler; rewrite ?Hw; simpl;
    rewrite ?Ht; simpl; rewrite ?Ht; reflexivity.
Qed.

Lemma updateWorkOrder_store env id body d w :
  workOrders d !! id = Some w ->
  exists te t evs,
    handle (updateWorkOrder env id body) d =
      (Json 200 (Some (apply_update
                         (set_b_assignedTechnician
                            (set_b_totalEstimate (update_services body) te) t) w)),
       put_workOrder id
         (apply_update
            (set_b_assignedTechnician
               (set_b_totalEstimate (update_services body) te) t) w)
         (mileage_synced env id body d),
       evs) /\
    (truthy_num (b_totalEstimate body) = true -> te = b_totalEstimate body).
Proof.
  intros Hw. unfold updateWorkOrder, handle, bind.
  destruct (update_services_keeps body) as (Ks & Kp & Kl & Kt).
  destruct (update_services_keeps_rest body) as (Km & Kd & _).
  pose proof (update_totals_run id (update_services body) (mkWorld d [])) as HT.
  assert (HE : truthy_num (b_totalEstimate body) = true ->
               update_totals id (update_services body) (mkWorld d []) =
               (Continue (update_services body), mkWorld d [])).
  { intros Ht. apply (update_totals_explicit id _ _ w); [exact Hw|].
    now rewrite Kt. }
  destruct (update_totals id (update_services body) (mkWorld d []))
    as [[data1|r] W1].
  2: { destruct HT as (_ & _ & HT). simpl in HT. congruence. }
  destruct HT as (Hdb & Hdata & (evsT & Hlog & _) & _).
  destruct W1 as [dW lW]. simpl in Hdb, Hlog. subst dW lW.
  destruct (update_mileage_store env id data1 (mkWorld d evsT))
    as (evsM & EM).
  rewrite EM. clear EM. cbn [w_db w_log].
  assert (Hms : mileage_synced env id data1 d = mileage_synced env id body d).
  { apply mileage_synced_ext; rewrite Hdata;
      destruct (update_services body); simpl in *; congruence. }
  rewrite Hms.
  destruct (update_notify_run env id data1
              (mkWorld (mileage_synced env id body d) (evsT ++ evsM)))
    as (evsN & EN & _).
  rewrite EN. clear EN. simpl.
  destruct (update_technician_run data1
              (mkWorld (mileage_synced env id body d) ((evsT ++ evsM) ++ evsN)))
    as (t & ->).
  rewrite findByIdAndUpdate_run. simpl.
  destruct (mileage_synced_frame env id body d) as (Hwo & _).
  rewrite Hwo, Hw. unfold ret.
  exists (b_totalEstimate data1), t. eexists.
  rewrite <- Hdata. split; [reflexivity|].
  intros Ht. specialize (HE Ht). injection HE as ->. now rewrite Kt.
Qed.

Lemma create_totals_explicit data W :
  truthy_num (b_totalEstimate data) = true ->
  create_totals data W = (Continue data, W).
Proof.
  intros Ht. destruct W as [d log].
  destruct data as [bc bv bd bs bsv bsr bp bl bte bta bcm bap bat].
  simpl in Ht. unfold create_totals. simpl.
  destruct (has_items bp) eqn:Hp, (has_items bl) eqn:Hl;
    run_handler; rewrite ?Hl, ?Ht; simpl; rewrite ?Hl, ?Ht; reflexivity.
Qed.

Lemma createWorkOrder_explicit env body d vid cid v c :
  b_vehicle body = Some vid -> vehicles d !! vid = Some v ->
  b_customer body = Some cid -> customers d !! cid = Some c ->
  v_customer v = cid ->
  truthy_num (b_totalEstimate body) = true ->
  response_of (handle (createWorkOrder env body) d) =
    Json 201 (Some (new_document env cid vid (create_services body))).
Proof.
  intros Hbv Hv Hbc Hc Hown Ht. subst cid.
  destruct (create_services_keeps body) as (_ & _ & Kt & _).
  unfold createWorkOrder, handle, response_of.
  unfold Vehicle_findById, Customer_findById.
  rewrite bind_query. simpl. rewrite Hbv. simpl. rewrite Hv.
  rewrite bind_query. simpl. rewrite Hbc. simpl. rewrite Hc.
  rewrite String.eqb_refl. simpl.
  unfold bind at 1.
  rewrite create_totals_explicit by (now rewrite Kt).
  destruct (mileage_update env (b_currentMileage (create_services body)));
    run_handler; reflexivity.
Qed.

(** X8: a create or an update whose body carries a truthy
    totalEstimate (a number other than 0, -0 and NaN) and that succeeds
    stores that estimate as it is, whatever the parts and labor lines add up
    to: the work order of the response carries it, and that work order is
    the one stored under the id. *)
Theorem explicit_estimate_is_kept env m d body e code w :
  body_of m = Some body ->
  b_totalEstimate body = Some e -> truthy_num (Some e) = true ->
  response_of (handle (perform env m) d) = Json code (Some w) ->
  totalEstimate w = Some e /\
  workOrders (db_of (handle (perform env m) d)) !! target env m = Some w.
Proof.
  intros Hb He Hne Hr.
  assert (Ht : truthy_num (b_totalEstimate body) = true) by now rewrite He.
  destruct m as [body0 | id body0 | id part | id l | id st]; simpl in *;
    try discriminate; injection Hb as ->.
  - assert (Hok : succeeded (response_of (handle (createWorkOrder env body) d)) = true)
      by (rewrite Hr; reflexivity).
    destruct (create_success env body d Hok)
      as (vid & cid & v & c & Hbv & Hv & Hbc & Hc & Hown).
    destruct (createWorkOrder_run env body d vid cid v c Hbv Hv Hbc Hc Hown)
      as (te & evs & Hrun & _).
    cbv zeta in Hrun. rewrite Hrun. unfold db_of. cbn [fst snd].
    rewrite Hrun in Hr. unfold response_of in Hr. cbn [fst] in Hr.
    pose proof (createWorkOrder_explicit env body d vid cid v c Hbv Hv Hbc Hc Hown Ht)
      as Hex.
    rewrite Hrun in Hex. unfold response_of in Hex. cbn [fst] in Hex.
    split.
    + rewrite Hex in Hr. injection Hr as _ <-. simpl.
      destruct (create_services_keeps body) as (_ & _ & Kt & _).
      rewrite Kt, He. reflexivity.
    + injection Hr as _ <-. simpl. apply lookup_insert_eq.
  - destruct (workOrders d !! id) as [w0|] eqn:Hw0.
    2: { rewrite (updateWorkOrder_missing env id body d Hw0) in Hr. discriminate. }
    destruct (updateWorkOrder_store env id body d w0 Hw0)
      as (te & t & evs & Hrun & Hte).
    rewrite Hrun in *. unfold response_of in Hr. unfold db_of. simpl in *.
    injection Hr as _ <-. simpl. rewrite (Hte Ht), He.
    split; [reflexivity | apply lookup_insert_eq].
Qed.

Lemma explicit_estimate_is_kept_witness :
  exists w,
    response_of (handle (perform Sample.env (Create Cases.quoted)) Sample.db)
      = Json 201 (Some w) /\
    totalEstimate w = Some 500%float /\ lines_total w = 80%float /\
    workOrders (db_of (handle (perform Sample.env (Create Cases.quoted)) Sample.db))
      !! "wo9" = Some w.
Proof.
  eexists. split; [vm_compute; reflexivity|].
  destruct (explicit_estimate_is_kept Sample.env (Create Cases.quoted) Sample.db
              Cases.quoted 500%float 201 _ eq_refl eq_refl eq_refl
              ltac:(vm_compute; reflexivity)) as [H1 H2].
  split; [exact H1|]. split; [reflexivity | exact H2].
Defined.

(** X9: no mutation of a work order changes a customer or an
    appointment, and none changes a work order other than the one it acts
    on. *)
Theorem mutation_frame env m d :
  customers (after env m d) = customers d /\
  appointments (after env m d) = appointments d /\
  (forall id, id <> target env m ->
     workOrders (after env m d) !! id = workOrders d !! id).
Proof.
  unfold after.
  destruct m as [body | id body | id part | id l | id st]; simpl.
  - destruct (create_outcome body d) as [[code Hrej]|H].
    + destruct (createWorkOrder_rejected env body d code Hrej) as [msg ->].
      unfold db_of. simpl. auto.
    + destruct H as (vid & cid & v & c & Hbv & Hv & Hbc & Hc & Hown).
      destruct (createWorkOrder_run env body d vid cid v c Hbv Hv Hbc Hc Hown)
        as (te & evs & Hrun & _).
      cbv zeta in Hrun. rewrite Hrun. unfold db_of. simpl.
      split; [reflexivity|]. split; [reflexivity|].
      intros id Hne. rewrite lookup_insert_ne by congruence. reflexivity.
  - destruct (workOrders d !! id) as [w|] eqn:Hw.
    + destruct (updateWorkOrder_store env id body d w Hw)
        as (te & t & evs & Hrun & _).
      rewrite Hrun. unfold db_of. simpl.
      destruct (mileage_synced_frame env id body d) as (Hwo & Hcu & Hap & _).
      split; [assumption|]. split; [assumption|].
      intros id' Hne. rewrite lookup_insert_ne by congruence. now rewrite Hwo.
    + rewrite (updateWorkOrder_missing env id body d Hw). unfold db_of. simpl. auto.
  - destruct (workOrders d !! id) as [w|] eqn:Hw.
    + pose proof (addPart_run id part d w Hw) as Hrun. cbv zeta in Hrun.
      rewrite Hrun. unfold db_of. simpl.
      split; [reflexivity|]. split; [reflexivity|].
      intros id' Hne. rewrite lookup_insert_ne by congruence. reflexivity.
    + rewrite (addPart_missing id part d Hw). unfold db_of. simpl. auto.
  - destruct (workOrders d !! id) as [w|] eqn:Hw.
    + pose proof (addLabor_run id l d w Hw) as Hrun. cbv zeta in Hrun.
      rewrite Hrun. unfold db_of. simpl.
      split; [reflexivity|]. split; [reflexivity|].
      intros id' Hne. rewrite lookup_insert_ne by congruence. reflexivity.
    + rewrite (addLabor_missing id l d Hw). unfold db_of. simpl. auto.
  - destruct (truthy_str st) eqn:Ht.
    2: { rewrite (updateStatus_no_status env id st d Ht). unfold db_of. simpl. auto. }
    destruct (workOrders d !! id) as [w|] eqn:Hw.
    2: { rewrite (updateStatus_missing env id st d Ht Hw). unfold db_of. simpl. auto. }
    destruct st as [s|]; [|discriminate]. simpl in Ht. apply negb_true_iff in Ht.
    rewrite (updateStatus_run env id s d w Ht Hw). unfold db_of. simpl.
    split; [reflexivity|]. split; [reflexivity|].
    intros id' Hne. rewrite lookup_insert_ne by congruence. reflexivity.
Qed.

(** ** The duplicate check of the mileage block *)

Lemma prefix_refl (s : string) : String.prefix s s = true.
Proof.
  induction s as [|a s IH]; simpl; [reflexivity|].
  destruct (ascii_dec a a); [assumption | congruence].
Qed.

Lemma includes_refl (s : string) : JsString.includes s s = true.
Proof.
  destruct s as [|a s]; [reflexivity|].
  change (JsString.includes (String a s) (String a s))
    with (String.prefix (String a s) (String a s) ||
          JsString.includes (String a s) s).
  now rewrite prefix_refl.
Qed.

Lemma find_app_new {A} (p : A -> bool) (l : list A) (x : A) :
  List.find p l = None -> p x = true -> List.find p (l ++ [x]) = Some x.
Proof.
  induction l as [|y l IH]; simpl; intros Hn Hx.
  - now rewrite Hx.
  - destruct (p y); [discriminate|]. now apply IH.
Qed.

Lemma same_mileage_entry_new env id data m :
  same_mileage_entry env id data m
    {| me_date := entry_date env data;
       me_mileage := m;
       me_source := Some (mileage_source id) |} = true.
Proof.
  unfold same_mileage_entry. cbn [me_mileage me_date me_source or_keep].
  now rewrite Z.eqb_refl, String.eqb_refl, includes_refl.
Qed.

(** The day of the entry is the same at the second request. *)
Lemma same_day env t data :
  truthy_int (b_date data) = true \/
  toDateString env t = toDateString env (now env) ->
  toDateString env (entry_date (at_time env t) data)
  = toDateString env (entry_date env data).
Proof.
  unfold entry_date. intros [H|H].
  - now rewrite H.
  - destruct (truthy_int (b_date data)); [reflexivity | exact H].
Qed.

Lemma same_mileage_entry_later env t id data m e :
  truthy_int (b_date data) = true \/
  toDateString env t = toDateString env (now env) ->
  same_mileage_entry (at_time env t) id data m e
  = same_mileage_entry env id data m e.
Proof.
  intros H. unfold same_mileage_entry.
  change (toDateString (at_time env t)) with (toDateString env).
  now rewrite (same_day env t data H).
Qed.

Lemma find_ext {A} (p q : A -> bool) (l : list A) :
  (forall x, p x = q x) -> List.find p l = List.find q l.
Proof.
  intros H. induction l as [|x l IH]; simpl; [reflexivity|].
  rewrite H, IH. reflexivity.
Qed.

Lemma mileage_synced_again env t id data d w w' :
  workOrders d !! id = Some w ->
  wo_vehicle w' = wo_vehicle w ->
  truthy_int (b_date data) = true \/
  toDateString env t = toDateString env (now env) ->
  vehicles (mileage_synced (at_time env t) id data
              (put_workOrder id w' (mileage_synced env id data d)))
  = vehicles (mileage_synced env id data d).
Proof.
  intros Hw Hveh Hday. unfold mileage_synced at 1.
  change (mileage_update (at_time env t)) with (mileage_update env).
  destruct (mileage_synced_frame env id data d) as (Hwo & _).
  simpl. rewrite lookup_insert_eq, Hveh.
  unfold mileage_synced. rewrite Hw.
  destruct (mileage_update env (b_currentMileage data)) as [m|]; [|reflexivity].
  destruct (vehicles d !! wo_vehicle w) as [v|] eqn:Hv; simpl.
  2: { rewrite Hv. reflexivity. }
  rewrite lookup_insert_eq. simpl.
  destruct (List.find (same_mileage_entry env id data m) (mileageHistory v))
    as [x|] eqn:Hfind.
  - rewrite (find_ext _ (same_mileage_entry env id data m))
      by (intros e; now apply same_mileage_entry_later).
    rewrite Hfind. now rewrite insert_insert_eq.
  - rewrite (find_ext _ (same_mileage_entry env id data m))
      by (intros e; now apply same_mileage_entry_later).
    rewrite (find_app_new _ _ _ Hfind (same_mileage_entry_new env id data m)).
    now rewrite insert_insert_eq.
Qed.

(** X10: sending the same update of a stored work order a second time,
    without reassigning its vehicle, on the same day or with a date in the
    body, leaves every vehicle as the first update left it: the duplicate
    check finds the mileage entry of the first update, so no second entry
    is appended. The second request is served at its own clock [t]. *)
Theorem update_twice_same_vehicles env t id body d w :
  workOrders d !! id = Some w ->
  b_vehicle body = None ->
  truthy_int (b_date body) = true \/
  toDateString env t = toDateString env (now env) ->
  vehicles (after (at_time env t) (Update id body) (after env (Update id body) d)) =
  vehicles (after env (Update id body) d).
Proof.
  intros Hw Hbv Hday. unfold after. simpl.
  destruct (updateWorkOrder_store env id body d w Hw)
    as (te & t0 & evs & Hrun & _).
  rewrite Hrun. unfold db_of at 2 3. simpl.
  set (w1 := apply_update
               (set_b_assignedTechnician
                  (set_b_totalEstimate (update_services body) te) t0) w).
  assert (Hw1 : workOrders (put_workOrder id w1 (mileage_synced env id body d)) !! id
                = Some w1) by (simpl; apply lookup_insert_eq).
  destruct (updateWorkOrder_store (at_time env t) id body _ w1 Hw1)
    as (te' & t' & evs' & Hrun' & _).
  rewrite Hrun'. unfold db_of. simpl.
  apply (mileage_synced_again env t id body d w w1 Hw); [|exact Hday].
  unfold w1. simpl.
  destruct (update_services_keeps_rest body) as (_ & _ & Kv & _).
  rewrite Kv, Hbv. reflexivity.
Qed.

Lemma update_twice_same_vehicles_witness :
  workOrders Sample.db !! "wo1" = Some Sample.wo1 /\
  vehicles (after (at_time Sample.env 1700000360000) (Update "wo1" Cases.full_update)
              (after Sample.env (Update "wo1" Cases.full_update) Sample.db)) =
  vehicles (after Sample.env (Update "wo1" Cases.full_update) Sample.db).
Proof.
  assert (H : workOrders Sample.db !! "wo1" = Some Sample.wo1)
    by (vm_compute; reflexivity).
  split; [exact H|].
  exact (update_twice_same_vehicles Sample.env 1700000360000 "wo1" Cases.full_update
           Sample.db Sample.wo1 H eq_refl (or_intror eq_refl)).
Defined.

(** ** Phone numbers *)

Import CustomerController.

Lemma digits_of_app (a b : string) :
  digits_of (a ++ b)%string = (digits_of a ++ digits_of b)%string.
Proof.
  induction a as [|c a IH]; simpl; [reflexivity|].
  destruct (is_digit c); simpl; now rewrite IH.
Qed.

Lemma digits_of_length (s : string) :
  (String.length (digits_of s) <= String.length s)%nat.
Proof.
  induction s as [|c s IH]; simpl; [lia|].
  destruct (is_digit c); simpl; lia.
Qed.

Lemma digits_of_digits (s : string) (c : ascii) :
  In c (list_ascii_of_string (digits_of s)) -> is_digit c = true.
Proof.
  induction s as [|a s IH]; simpl; [intros []|].
  destruct (is_digit a) eqn:Ha; simpl; [|assumption].
  intros [<-|H]; [assumption | now apply IH].
Qed.

Lemma digits_of_fixed (s : string) :
  (forall c, In c (list_ascii_of_string s) -> is_digit c = true) ->
  digits_of s = s.
Proof.
  induction s as [|a s IH]; simpl; intros H; [reflexivity|].
  rewrite (H a (or_introl eq_refl)). f_equal. apply IH.
  intros c Hc. apply H. right. exact Hc.
Qed.

Lemma digits_of_idem (s : string) : digits_of (digits_of s) = digits_of s.
Proof. apply digits_of_fixed, digits_of_digits. Qed.

Lemma no_dash_in_digits (s : string) :
  (forall c, In c (list_ascii_of_string s) -> is_digit c = true) ->
  JsString.includes_char dash s = false.
Proof.
  induction s as [|a s IH]; simpl; intros H; [reflexivity|].
  rewrite IH by (intros c Hc; apply H; right; exact Hc).
  rewrite orb_false_r.
  destruct (Ascii.eqb_spec a dash) as [->|Hne]; [|reflexivity].
  specialize (H dash (or_introl eq_refl)). discriminate.
Qed.

(** X11: normalizePhoneNumber answers with digits only, hence without
    dashes, never with more characters than it was given, and normalizing
    its answer again changes nothing. *)
Theorem normalizePhoneNumber_digits (phoneNumber : option string) :
  let n := normalizePhoneNumber phoneNumber in
  (forall c, In c (list_ascii_of_string n) -> is_digit c = true) /\
  JsString.includes_char dash n = false /\
  (String.length n <= String.length (or_keep phoneNumber ""))%nat /\
  normalizePhoneNumber (Some n) = n.
Proof.
  cbv zeta.
  assert (Hn : normalizePhoneNumber phoneNumber = digits_of (or_keep phoneNumber "")).
  { unfold normalizePhoneNumber. destruct phoneNumber as [[|c s]|]; reflexivity. }
  assert (Hidem : forall n, digits_of n = n -> normalizePhoneNumber (Some n) = n).
  { intros n Hfix. unfold normalizePhoneNumber. destruct n; simpl in *; congruence. }
  rewrite Hn.
  split; [apply digits_of_digits|].
  split; [apply no_dash_in_digits, digits_of_digits|].
  split; [apply digits_of_length|].
  apply Hidem, digits_of_idem.
Qed.

Lemma substring_empty (n m : nat) : substring n m "" = "".
Proof. destruct n, m; reflexivity. Qed.

Lemma substring_app (s : string) :
  forall n a b,
    (substring n a s ++ substring (n + a) b s)%string = substring n (a + b) s.
Proof.
  induction s as [|c s IH]; intros n a b.
  - now rewrite !substring_empty.
  - destruct n as [|n]; simpl.
    + destruct a as [|a]; simpl; [reflexivity|].
      rewrite <- (IH 0%nat a b). reflexivity.
    + apply IH.
Qed.

Lemma substring_full (s : string) : substring 0 (String.length s) s = s.
Proof. induction s as [|c s IH]; simpl; [reflexivity | now rewrite IH]. Qed.

Lemma substring_length (s : string) :
  forall n m, String.length (substring n m s) = Nat.min m (String.length s - n).
Proof.
  induction s as [|c s IH]; intros n m.
  - rewrite substring_empty. simpl. lia.
  - destruct n as [|n]; simpl.
    + destruct m as [|m]; simpl; [reflexivity|]. rewrite IH. lia.
    + apply IH.
Qed.

Lemma append_length (a b : string) :
  String.length (a ++ b)%string = (String.length a + String.length b)%nat.
Proof. induction a as [|c a IH]; simpl; [reflexivity | now rewrite IH]. Qed.

Lemma formattedPhone_length (p : string) :
  String.length (formattedPhone p) =
  (Nat.min 3 (String.length p) + 1 + Nat.min 3 (String.length p - 3) + 1 +
   Nat.min 4 (String.length p - 6))%nat.
Proof.
  unfold formattedPhone. rewrite append_length.
  change (String.length (String dash (substring 3 3 p ++ String dash (substring 6 4 p))))
    with (S (String.length (substring 3 3 p ++ String dash (substring 6 4 p))%string)).
  rewrite append_length.
  change (String.length (String dash (substring 6 4 p)))
    with (S (String.length (substring 6 4 p))).
  rewrite !substring_length. lia.
Qed.

Lemma formattedPhone_digits (p : string) :
  String.length p = 10%nat ->
  digits_of (formattedPhone p) = digits_of p.
Proof.
  intros Hlen. unfold formattedPhone.
  rewrite digits_of_app. simpl. rewrite digits_of_app. simpl.
  rewrite <- !digits_of_app.
  pose proof (substring_app p 3 3 4) as H1. cbn [Nat.add] in H1.
  pose proof (substring_app p 0 3 7) as H2. cbn [Nat.add] in H2.
  rewrite H1, H2. rewrite <- Hlen at 1. now rewrite substring_full.
Qed.

Lemma formattedPhone_has_dash (p : string) :
  JsString.includes_char dash (formattedPhone p) = true.
Proof.
  unfold formattedPhone. rewrite includes_char_app. simpl.
  now rewrite orb_true_r.
Qed.

Lemma ten_digits_spec (p : string) :
  ten_digits p = true ->
  String.length p = 10%nat /\ digits_of p = p /\
  JsString.includes_char dash p = false.
Proof.
  unfold ten_digits. rewrite andb_true_iff, Nat.eqb_eq, String.eqb_eq.
  intros [Hl Hd]. split; [assumption|]. split; [assumption|].
  apply no_dash_in_digits. rewrite <- Hd. apply digits_of_digits.
Qed.

Lemma phoneVariations_plain (p : string) :
  JsString.includes_char dash p = false ->
  phoneVariations p =
    if (10 <=? String.length p)%nat then [p; formattedPhone p] else [p].
Proof.
  intros Hd. unfold phoneVariations. rewrite Hd, formattedPhone_length.
  destruct (Nat.leb_spec 10 (String.length p)) as [Hle|Hlt].
  - replace (Nat.min 3 (String.length p) + 1 + Nat.min 3 (String.length p - 3) + 1 +
             Nat.min 4 (String.length p - 6))%nat with 12%nat by lia.
    reflexivity.
  - destruct (Nat.eqb_spec
      (Nat.min 3 (String.length p) + 1 + Nat.min 3 (String.length p - 3) + 1 +
       Nat.min 4 (String.length p - 6)) 12); [lia | reflexivity].
Qed.

Lemma phoneVariations_ten (p : string) :
  ten_digits p = true ->
  phoneVariations p = [p; formattedPhone p] /\
  phoneVariations (formattedPhone p) = [formattedPhone p; p] /\
  normalizePhoneNumber (Some (formattedPhone p)) = p.
Proof.
  intros Hten. destruct (ten_digits_spec p Hten) as (Hlen & Hdig & Hdash).
  assert (Hnorm : normalizePhoneNumber (Some (formattedPhone p)) = p).
  { unfold normalizePhoneNumber.
    assert (Ht : truthy_str (Some (formattedPhone p)) = true).
    { simpl. pose proof (formattedPhone_length p) as Hl.
      destruct (formattedPhone p); [simpl in Hl; lia | reflexivity]. }
    rewrite Ht. simpl. rewrite (formattedPhone_digits p Hlen). exact Hdig. }
  split; [|split; [|exact Hnorm]].
  - rewrite (phoneVariations_plain p Hdash), Hlen. reflexivity.
  - unfold phoneVariations at 1. rewrite formattedPhone_has_dash, Hnorm. reflexivity.
Qed.

(** X12: for a number without a dash the lookup also tries the form
    ddd-ddd-dddd built from its first ten characters, exactly when it has at
    least ten characters. For a ten-digit number the two forms lead to each
    other: the dashed form is tried for the digits, the digits are tried for
    the dashed form, and normalizing the dashed form gives the digits
    back. *)
Theorem phoneVariations_forms (p : string) :
  (JsString.includes_char dash p = false ->
   phoneVariations p =
     if (10 <=? String.length p)%nat then [p; formattedPhone p] else [p]) /\
  (ten_digits p = true ->
   phoneVariations p = [p; formattedPhone p] /\
   phoneVariations (formattedPhone p) = [formattedPhone p; p] /\
   normalizePhoneNumber (Some (formattedPhone p)) = p).
Proof.
  split; [apply phoneVariations_plain | apply phoneVariations_ten].
Qed.

Lemma phoneVariations_forms_witness :
  phoneVariations "5551234567" = ["5551234567"; "555-123-4567"] /\
  phoneVariations "555-123-4567" = ["555-123-4567"; "5551234567"].
Proof.
  destruct (proj2 (phoneVariations_forms "5551234567") eq_refl) as (H1 & H2 & _).
  split; [exact H1 | exact H2].
Defined.

(** ** Looking a customer up by phone *)

Lemma checkExisting_run (p : string) (d : DB) :
  p <> "" ->
  attempt (checkExistingCustomerByPhone (Some p)) d =
    (Continue (List.find (fun x => phone_in (phoneVariations p) (snd x))
                         (map_to_list (customers d))), d).
Proof.
  intros Hp. unfold checkExistingCustomerByPhone.
  destruct p; [congruence|]. reflexivity.
Qed.

Lemma checkExisting_found (p : string) (d : DB) (id : Id) (c : Customer) :
  p <> "" ->
  customers d !! id = Some c ->
  phone_in (phoneVariations p) c = true ->
  exists found,
    attempt (checkExistingCustomerByPhone (Some p)) d = (Continue (Some found), d) /\
    customers d !! fst found = Some (snd found) /\
    phone_in (phoneVariations p) (snd found) = true.
Proof.
  intros Hp Hc Hin. rewrite (checkExisting_run p d Hp).
  destruct (List.find (fun x => phone_in (phoneVariations p) (snd x))
                      (map_to_list (customers d))) as [[id' c']|] eqn:Hfind.
  - exists (id', c'). split; [reflexivity|].
    apply List.find_some in Hfind. destruct Hfind as [Hel Hph].
    apply list_elem_of_In, elem_of_map_to_list in Hel. auto.
  - exfalso. apply List.find_none with (x := (id, c)) in Hfind.
    + simpl in Hfind. congruence.
    + apply list_elem_of_In, elem_of_map_to_list. exact Hc.
Qed.

(** X13: checkExistingCustomerByPhone answers 400 when no phone is given.
    Given one, it leaves the store alone and answers that a customer exists
    exactly when some stored customer's phone equals one of the forms tried;
    the customer it then returns is a stored one with such a phone. *)
Theorem checkExisting_exact (given : option string) (d : DB) :
  (truthy_str given = false ->
   attempt (checkExistingCustomerByPhone given) d =
     (Finish (AppError "Please provide a phone number" 400), d)) /\
  (truthy_str given = true ->
   exists r,
     attempt (checkExistingCustomerByPhone given) d = (Continue r, d) /\
     (is_Some r <->
      exists id c, customers d !! id = Some c /\
                   exists q, phone c = Some q /\
                             In q (phoneVariations (or_keep given ""))) /\
     (forall id c, r = Some (id, c) ->
        customers d !! id = Some c /\
        exists q, phone c = Some q /\ In q (phoneVariations (or_keep given "")))).
Proof.
  assert (Hin : forall vars c, phone_in vars c = true <->
                  exists q, phone c = Some q /\ In q vars).
  { intros vars c. unfold phone_in. destruct (phone c) as [q|].
    - rewrite existsb_exists. split.
      + intros (x & Hx & He). apply String.eqb_eq in He. subst. eauto.
      + intros (q' & [= <-] & Hq). exists q. split; [assumption|].
        apply String.eqb_refl.
    - split; [discriminate|]. intros (q & [=] & _). }
  split.
  - intros Ht. unfold checkExistingCustomerByPhone. rewrite Ht. reflexivity.
  - intros Ht. destruct given as [p|]; [|discriminate]. simpl or_keep.
    assert (Hp : p <> "") by (destruct p; [discriminate | congruence]).
    rewrite (checkExisting_run p d Hp).
    eexists. split; [reflexivity|]. split; [split|].
    + intros [[id c] Hfind]. apply List.find_some in Hfind.
      destruct Hfind as [Hel Hph]. simpl in Hph.
      apply list_elem_of_In, elem_of_map_to_list in Hel.
      exists id, c. split; [assumption|]. now apply Hin.
    + intros (id & c & Hc & Hq). apply Hin in Hq.
      destruct (checkExisting_found p d id c Hp Hc Hq) as (found & Hrun & _).
      rewrite (checkExisting_run p d Hp) in Hrun.
      injection Hrun as ->. eauto.
    + intros id c Hfind. apply List.find_some in Hfind.
      destruct Hfind as [Hel Hph]. simpl in Hph.
      apply list_elem_of_In, elem_of_map_to_list in Hel.
      split; [assumption|]. now apply Hin.
Qed.

Lemma checkExisting_exact_witness :
  exists r,
    attempt (checkExistingCustomerByPhone (Some "555-0100")) Sample.db
      = (Continue r, Sample.db).
Proof.
  destruct (proj2 (checkExisting_exact (Some "555-0100") Sample.db) eq_refl)
    as (r & Hrun & _).
  exists r. exact Hrun.
Defined.

(** X14: the lookup does not depend on how a ten-digit number is
    written: a customer stored with the ten digits, or with the form
    ddd-ddd-dddd of them, is reported as existing whether the digits or the
    dashed form is asked for. *)
Theorem phone_lookup_ignores_dashes (p : string) (d : DB) (id : Id) (c : Customer) :
  ten_digits p = true ->
  customers d !! id = Some c ->
  phone c = Some p \/ phone c = Some (formattedPhone p) ->
  (exists found,
     attempt (checkExistingCustomerByPhone (Some p)) d = (Continue (Some found), d)) /\
  (exists found,
     attempt (checkExistingCustomerByPhone (Some (formattedPhone p))) d
       = (Continue (Some found), d)).
Proof.
  intros Hten Hc Hph.
  destruct (ten_digits_spec p Hten) as (Hlen & _).
  destruct (phoneVariations_ten p Hten) as (H1 & H2 & _).
  assert (Hp : p <> "") by (destruct p; [discriminate | congruence]).
  assert (Hf : formattedPhone p <> "").
  { pose proof (formattedPhone_length p) as Hl.
    destruct (formattedPhone p); [simpl in Hl; lia | congruence]. }
  split.
  - destruct (checkExisting_found p d id c Hp Hc) as (found & Hrun & _).
    + unfold phone_in. rewrite H1.
      destruct Hph as [-> | ->]; simpl; rewrite String.eqb_refl;
        [reflexivity | apply orb_true_r].
    + eauto.
  - destruct (checkExisting_found (formattedPhone p) d id c Hf Hc)
      as (found & Hrun & _).
    + unfold phone_in. rewrite H2.
      destruct Hph as [-> | ->]; simpl; rewrite String.eqb_refl;
        [apply orb_true_r | reflexivity].
    + eauto.
Qed.

Lemma phone_lookup_ignores_dashes_witness :
  exists found,
    attempt (checkExistingCustomerByPhone (Some "5551234567"))
      {| workOrders := ∅; vehicles := ∅;
         customers :=
           {[ "c7" := {| communicationPreference := "SMS";
                         phone := Some "555-123-4567"; email := None |} ]};
         appointments := ∅ |}
    = (Continue (Some found),
       {| workOrders := ∅; vehicles := ∅;
          customers :=
            {[ "c7" := {| communicationPreference := "SMS";
                          phone := Some "555-123-4567"; email := None |} ]};
          appointments := ∅ |}).
Proof.
  refine (proj1 (phone_lookup_ignores_dashes "5551234567" _ "c7"
                   {| communicationPreference := "SMS";
                      phone := Some "555-123-4567"; email := None |}
                   eq_refl _ _)).
  - vm_compute. reflexivity.
  - right. reflexivity.
Defined.

(** ** deleteCustomer and getCustomerVehicles *)

Lemma vehicles_of_elem (id vid : Id) (v : Vehicle) (d : DB) :
  In (vid, v) (vehicles_of id d) <-> vehicles d !! vid = Some v /\ v_customer v = id.
Proof.
  unfold vehicles_of. rewrite List.filter_In. simpl.
  rewrite String.eqb_eq, <- list_elem_of_In, elem_of_map_to_list. reflexivity.
Qed.

Lemma vehicles_of_nil (id : Id) (d : DB) :
  vehicles_of id d = [] <->
  forall vid v, vehicles d !! vid = Some v -> v_customer v <> id.
Proof.
  split.
  - intros Hnil vid v Hv Hown.
    assert (Hin : In (vid, v) (vehicles_of id d)) by now apply vehicles_of_elem.
    rewrite Hnil in Hin. destruct Hin.
  - intros Hnone. destruct (vehicles_of id d) as [|[vid v] l] eqn:Hl; [reflexivity|].
    assert (Hin : In (vid, v) (vehicles_of id d)) by (rewrite Hl; now left).
    apply vehicles_of_elem in Hin. destruct Hin as [Hv Hown].
    exfalso. exact (Hnone vid v Hv Hown).
Qed.

Lemma deleteCustomer_run (id : Id) (d : DB) :
  handle (deleteCustomer id) d =
    match customers d !! id with
    | None => (AppError "No customer found with that ID" 404, d, [])
    | Some _ =>
        match vehicles_of id d with
        | [] => (Json 204 None, remove_customer id d, [])
        | _ :: _ =>
            (AppError
               "This customer has associated vehicles. Please delete or reassign them first."
               400, d, [])
        end
    end.
Proof.
  unfold deleteCustomer, customer_not_found. run_handler.
  destruct (customers d !! id); [|reflexivity].
  cbn [w_db]. destruct (vehicles_of id d); reflexivity.
Qed.

Lemma getCustomerVehicles_run (id : Id) (d : DB) :
  attempt (getCustomerVehicles id) d =
    match customers d !! id with
    | None => (Finish (AppError "No customer found with that ID" 404), d)
    | Some _ => (Continue (vehicles_of id d), d)
    end.
Proof.
  unfold getCustomerVehicles, customer_not_found. run_reader.
  destruct (customers d !! id); reflexivity.
Qed.

(** X15: deleteCustomer on a stored customer. When some stored vehicle
    belongs to the customer it answers 400 and writes nothing; when none
    does it answers 204 and removes the customer, and only the customer:
    vehicles, work orders and appointments stay as they were, so the
    customer's work orders are kept. *)
Theorem deleteCustomer_guard (id : Id) (d : DB) (c : Customer) :
  customers d !! id = Some c ->
  ((exists vid v, vehicles d !! vid = Some v /\ v_customer v = id) ->
   http_status (response_of (handle (deleteCustomer id) d)) = 400 /\
   db_of (handle (deleteCustomer id) d) = d) /\
  ((forall vid v, vehicles d !! vid = Some v -> v_customer v <> id) ->
   response_of (handle (deleteCustomer id) d) = Json 204 None /\
   customers (db_of (handle (deleteCustomer id) d)) = delete id (customers d) /\
   vehicles (db_of (handle (deleteCustomer id) d)) = vehicles d /\
   workOrders (db_of (handle (deleteCustomer id) d)) = workOrders d /\
   appointments (db_of (handle (deleteCustomer id) d)) = appointments d).
Proof.
  intros Hc. rewrite deleteCustomer_run, Hc. split.
  - intros (vid & v & Hv & Hown).
    destruct (vehicles_of id d) eqn:Hl; [|split; reflexivity].
    exfalso. apply (proj1 (vehicles_of_nil id d) Hl vid v Hv Hown).
  - intros Hnone. rewrite (proj2 (vehicles_of_nil id d) Hnone).
    repeat split.
Qed.

Lemma deleteCustomer_guard_witness :
  response_of (handle (deleteCustomer "c3")
    {| workOrders := workOrders Sample.db; vehicles := vehicles Sample.db;
       customers := <["c3" := Sample.bob]> (customers Sample.db);
       appointments := ∅ |}) = Json 204 None.
Proof.
  refine (proj1 (proj2 (deleteCustomer_guard "c3" _ Sample.bob _) _)).
  - vm_compute. reflexivity.
  - intros vid v Hv Hown. subst.
    assert (Hin : In (vid, v) (vehicles_of (v_customer v)
      {| workOrders := workOrders Sample.db; vehicles := vehicles Sample.db;
         customers := <["c3" := Sample.bob]> (customers Sample.db);
         appointments := ∅ |})) by (apply vehicles_of_elem; auto).
    rewrite Hown in Hin. vm_compute in Hin. exact Hin.
Defined.

(** X16: deleteCustomer never orphans a vehicle: if every vehicle's owner
    is a stored customer before the request, the same holds after it,
    whatever the outcome. *)
Theorem deleteCustomer_keeps_owners (id : Id) (d : DB) :
  owners_exist d -> owners_exist (db_of (handle (deleteCustomer id) d)).
Proof.
  intros Hinv. rewrite deleteCustomer_run.
  destruct (customers d !! id) eqn:Hc; [|exact Hinv].
  destruct (vehicles_of id d) eqn:Hl; [|exact Hinv].
  intros vid v Hv. unfold db_of in *. simpl in *.
  assert (Hne : v_customer v <> id)
    by exact (proj1 (vehicles_of_nil id d) Hl vid v Hv).
  rewrite lookup_delete_ne by congruence. exact (Hinv vid v Hv).
Qed.

Lemma deleteCustomer_keeps_owners_witness :
  owners_exist (db_of (handle (deleteCustomer "c1") Sample.db)).
Proof.
  apply deleteCustomer_keeps_owners.
  intros vid v Hv.
  assert (Hin : In (vid, v) (map_to_list (vehicles Sample.db)))
    by now apply list_elem_of_In, elem_of_map_to_list.
  vm_compute in Hin.
  destruct Hin as [[= <- <-]|[[= <- <-]|[]]]; vm_compute; eauto.
Defined.

Lemma vehicles_of_NoDup (id : Id) (d : DB) : NoDup (List.map fst (vehicles_of id d)).
Proof.
  apply (sublist_NoDup _ (List.map fst (map_to_list (vehicles d)))).
  - apply NoDup_fst_map_to_list.
  - apply filter_fst_sublist.
Qed.

(** X17: getCustomerVehicles answers 404 for an unknown customer. For a
    stored one it writes nothing and lists, each once, exactly the stored
    vehicles whose owner is that customer; the list is empty exactly when
    deleteCustomer would delete the customer (204). *)
Theorem getCustomerVehicles_exact (id : Id) (d : DB) :
  (customers d !! id = None ->
   attempt (getCustomerVehicles id) d =
     (Finish (AppError "No customer found with that ID" 404), d)) /\
  (is_Some (customers d !! id) ->
   exists l,
     attempt (getCustomerVehicles id) d = (Continue l, d) /\
     NoDup (List.map fst l) /\
     (forall vid v,
        In (vid, v) l <-> vehicles d !! vid = Some v /\ v_customer v = id) /\
     (l = [] <-> response_of (handle (deleteCustomer id) d) = Json 204 None)).
Proof.
  rewrite getCustomerVehicles_run, deleteCustomer_run. split.
  - intros ->. reflexivity.
  - intros [c Hc]. rewrite Hc. exists (vehicles_of id d).
    split; [reflexivity|]. split; [apply vehicles_of_NoDup|].
    split; [intros vid v; apply vehicles_of_elem|].
    destruct (vehicles_of id d); unfold response_of; simpl.
    + split; reflexivity.
    + split; discriminate.
Qed.

Lemma getCustomerVehicles_exact_witness :
  exists l,
    attempt (getCustomerVehicles "c1") Sample.db = (Continue l, Sample.db) /\
    (In ("v1", Sample.civic) l <->
     vehicles Sample.db !! "v1" = Some Sample.civic /\
     v_customer Sample.civic = "c1").
Proof.
  destruct (proj2 (getCustomerVehicles_exact "c1" Sample.db)
              (ex_intro _ Sample.alice eq_refl)) as (l & Hrun & _ & Hl & _).
  exists l. split; [exact Hrun | apply Hl].
Defined.

(** X18: createWorkOrder accepts a vehicle for a customer exactly when
    getCustomerVehicles lists it for that customer: with both ids in the
    body and the customer's list at hand, the create succeeds if and only if
    the vehicle's id is in the list. *)
Theorem create_accepts_listed_vehicles env body d cid vid l :
  b_customer body = Some cid ->
  b_vehicle body = Some vid ->
  attempt (getCustomerVehicles cid) d = (Continue l, d) ->
  succeeded (response_of (handle (createWorkOrder env body) d)) = true <->
  In vid (List.map fst l).
Proof.
  intros Hbc Hbv Hlist. rewrite getCustomerVehicles_run in Hlist.
  destruct (customers d !! cid) as [c|] eqn:Hc; [|discriminate].
  injection Hlist as <-. split.
  - intros Hok. apply create_success in Hok.
    destruct Hok as (vid' & cid' & v & c' & Hbv' & Hv & Hbc' & _ & Hown).
    assert (vid' = vid) by congruence. assert (cid' = cid) by congruence.
    subst vid' cid'. apply in_map_iff. exists (vid, v).
    split; [reflexivity|]. apply vehicles_of_elem. auto.
  - intros Hin. apply in_map_iff in Hin. destruct Hin as ([vid' v] & Hfst & Hin).
    simpl in Hfst. subst vid'. apply vehicles_of_elem in Hin.
    destruct Hin as [Hv Hown].
    destruct (createWorkOrder_run env body d vid cid v c Hbv Hv Hbc Hc Hown)
      as (te & evs & Hrun & _).
    cbv zeta in Hrun. rewrite Hrun. reflexivity.
Qed.

Lemma create_accepts_listed_vehicles_witness :
  succeeded (response_of (handle (createWorkOrder Sample.env Cases.parts_only)
                                 Sample.db)) = true.
Proof.
  apply (proj2 (create_accepts_listed_vehicles Sample.env Cases.parts_only
                  Sample.db "c1" "v1" (vehicles_of "c1" Sample.db)
                  eq_refl eq_refl eq_refl)).
  vm_compute. left. reflexivity.
Defined.

(** ** What the work-order handlers keep *)

Lemma put_vehicle_owner (vid : Id) (v0 sv : Vehicle) (d : DB) (x : Id) (v' : Vehicle) :
  vehicles d !! vid = Some v0 ->
  v_customer sv = v_customer v0 ->
  <[vid := sv]> (vehicles d) !! x = Some v' ->
  exists v, vehicles d !! x = Some v /\ v_customer v' = v_customer v.
Proof.
  intros Hv0 Hown Hx. destruct (decide (x = vid)) as [->|Hne].
  - rewrite lookup_insert_eq in Hx. injection Hx as <-. eauto.
  - rewrite lookup_insert_ne in Hx by congruence. eauto.
Qed.

Lemma after_owners env m d :
  customers (after env m d) = customers d /\
  (forall vid v',
     vehicles (after env m d) !! vid = Some v' ->
     exists v, vehicles d !! vid = Some v /\ v_customer v' = v_customer v).
Proof.
  unfold after.
  destruct m as [body | id body | id part | id l | id st]; simpl.
  - destruct (create_outcome body d) as [[code Hrej]|H].
    + destruct (createWorkOrder_rejected env body d code Hrej) as [msg ->].
      unfold db_of. simpl. eauto.
    + destruct H as (vid & cid & v & c & Hbv & Hv & Hbc & Hc & Hown).
      destruct (createWorkOrder_run env body d vid cid v c Hbv Hv Hbc Hc Hown)
        as (te & evs & Hrun & _).
      cbv zeta in Hrun. rewrite Hrun. unfold db_of. simpl.
      split; [reflexivity|]. intros x v' Hx.
      apply (put_vehicle_owner vid v _ d x v' Hv) in Hx; [exact Hx|].
      unfold serviced_vehicle.
      destruct (mileage_update env (b_currentMileage body)); reflexivity.
  - destruct (workOrders d !! id) as [w|] eqn:Hw.
    + destruct (updateWorkOrder_store env id body d w Hw)
        as (te & t & evs & Hrun & _).
      rewrite Hrun. unfold db_of. simpl.
      destruct (mileage_synced_frame env id body d) as (_ & Hcu & _ & Hve & _).
      split; [assumption|]. intros x v' Hx.
      destruct (Hve x v' Hx) as (v & Hv & _ & Hown). eauto.
    + rewrite (updateWorkOrder_missing env id body d Hw). unfold db_of. simpl. eauto.
  - destruct (workOrders d !! id) as [w|] eqn:Hw.
    + pose proof (addPart_run id part d w Hw) as Hrun. cbv zeta in Hrun.
      rewrite Hrun. unfold db_of. simpl. eauto.
    + rewrite (addPart_missing id part d Hw). unfold db_of. simpl. eauto.
  - destruct (workOrders d !! id) as [w|] eqn:Hw.
    + pose proof (addLabor_run id l d w Hw) as Hrun. cbv zeta in Hrun.
      rewrite Hrun. unfold db_of. simpl. eauto.
    + rewrite (addLabor_missing id l d Hw). unfold db_of. simpl. eauto.
  - destruct (truthy_str st) eqn:Ht.
    2: { rewrite (updateStatus_no_status env id st d Ht). unfold db_of. simpl. eauto. }
    destruct (workOrders d !! id) as [w|] eqn:Hw.
    2: { rewrite (updateStatus_missing env id st d Ht Hw). unfold db_of. simpl. eauto. }
    destruct st as [s|]; [|discriminate]. simpl in Ht. apply negb_true_iff in Ht.
    rewrite (updateStatus_run env id s d w Ht Hw). unfold db_of. simpl. eauto.
Qed.

Lemma deleteWorkOrder_owners id d :
  customers (db_of (handle (deleteWorkOrder id) d)) = customers d /\
  (forall vid v',
     vehicles (db_of (handle (deleteWorkOrder id) d)) !! vid = Some v' ->
     exists v, vehicles d !! vid = Some v /\ v_customer v' = v_customer v).
Proof.
  destruct (workOrders d !! id) as [w|] eqn:Hw.
  - destruct (deleteWorkOrder_run id d w Hw) as (t & ->). unfold db_of. simpl.
    destruct (vehicles d !! wo_vehicle w) as [v0|] eqn:Hv0; simpl; [|eauto].
    split; [reflexivity|]. intros x v' Hx.
    exact (put_vehicle_owner (wo_vehicle w) v0 (pull_serviceHistory id v0) d x v'
             Hv0 eq_refl Hx).
  - rewrite (deleteWorkOrder_missing id d Hw). unfold db_of. simpl. eauto.
Qed.

(** X19: no work-order request orphans a vehicle. createWorkOrder,
    updateWorkOrder, addPart, addLabor, updateStatus and deleteWorkOrder
    leave the customers as they are and give no vehicle another owner, so
    when every vehicle's owner is a stored customer before the request, the
    same holds after it. *)
Theorem work_orders_keep_owners env m id d :
  owners_exist d ->
  owners_exist (after env m d) /\
  owners_exist (db_of (handle (deleteWorkOrder id) d)).
Proof.
  intros Hinv. split.
  - destruct (after_owners env m d) as [Hcu Hve].
    intros vid v' Hv'. destruct (Hve vid v' Hv') as (v & Hv & Hown).
    rewrite Hcu, Hown. exact (Hinv vid v Hv).
  - destruct (deleteWorkOrder_owners id d) as [Hcu Hve].
    intros vid v' Hv'. destruct (Hve vid v' Hv') as (v & Hv & Hown).
    rewrite Hcu, Hown. exact (Hinv vid v Hv).
Qed.

Lemma sample_owners_exist : owners_exist Sample.db.
Proof.
  intros vid v Hv.
  assert (Hin : In (vid, v) (map_to_list (vehicles Sample.db)))
    by now apply list_elem_of_In, elem_of_map_to_list.
  vm_compute in Hin.
  destruct Hin as [[= <- <-]|[[= <- <-]|[]]]; vm_compute; eauto.
Qed.

Lemma work_orders_keep_owners_witness :
  owners_exist (after Sample.env (Create Cases.parts_only) Sample.db) /\
  owners_exist (db_of (handle (deleteWorkOrder "wo1") Sample.db)).
Proof.
  apply work_orders_keep_owners. exact sample_owners_exist.
Defined.

(** ** Repeated and reordered requests *)

Lemma put_workOrder_twice (id : Id) (w w' : WorkOrder) (d : DB) :
  put_workOrder id w' (put_workOrder id w d) = put_workOrder id w' d.
Proof.
  unfold put_workOrder. simpl. now rewrite insert_insert_eq.
Qed.

Lemma status_document_again (s : string) (w : WorkOrder) :
  status_document s (status_document s w) = status_document s w.
Proof.
  unfold status_document. destruct (sets_totalActual s); reflexivity.
Qed.

Lemma status_document_refs (s : string) (w : WorkOrder) :
  wo_customer (status_document s w) = wo_customer w /\
  wo_vehicle (status_document s w) = wo_vehicle w /\
  lines_total (status_document s w) = lines_total w.
Proof.
  unfold status_document. destruct (sets_totalActual s); auto.
Qed.

(** X20: updateStatus is idempotent: sent a second time with the same
    status it gives the same response, leaves the same store and goes
    through the same steps as the first time (the status is assigned, the
    total recomputed for a closing status, the work order saved again). *)
Theorem updateStatus_repeat env id st d :
  handle (updateStatus env id st) (db_of (handle (updateStatus env id st) d)) =
  handle (updateStatus env id st) d.
Proof.
  destruct (truthy_str st) eqn:Ht.
  2: { now rewrite !(updateStatus_no_status env id st _ Ht). }
  destruct (workOrders d !! id) as [w|] eqn:Hw.
  2: { rewrite (updateStatus_missing env id st d Ht Hw). unfold db_of. simpl.
       apply (updateStatus_missing env id st d Ht Hw). }
  destruct st as [s|]; [|discriminate]. simpl in Ht. apply negb_true_iff in Ht.
  rewrite (updateStatus_run env id s d w Ht Hw). unfold db_of. simpl.
  rewrite (updateStatus_run env id s _ (status_document s w) Ht)
    by (simpl; apply lookup_insert_eq).
  destruct (status_document_refs s w) as (Hc & Hv & Hl).
  rewrite status_document_again, put_workOrder_twice, Hl. reflexivity.
Qed.

Lemma updated_status env id body d s w' :
  b_status body = Some s ->
  workOrders (after env (Update id body) d) !! id = Some w' ->
  status w' = Some s.
Proof.
  intros Hs Hw'. unfold after in Hw'. simpl in Hw'.
  destruct (workOrders d !! id) as [w|] eqn:Hw.
  - destruct (updateWorkOrder_store env id body d w Hw)
      as (te & t & evs & Hrun & _).
    rewrite Hrun in Hw'. unfold db_of in Hw'. simpl in Hw'.
    rewrite lookup_insert_eq in Hw'. injection Hw' as <-. simpl.
    destruct (update_services_keeps body) as (-> & _). now rewrite Hs.
  - rewrite (updateWorkOrder_missing env id body d Hw) in Hw'.
    unfold db_of in Hw'. simpl in Hw'. congruence.
Qed.

(** X21: updateWorkOrder texts the customer about a status once: whatever
    the body and the store, the same update sent again right after the
    first attempts no text message. *)
Theorem update_repeat_sends_no_sms env id body d s :
  ~ sms_attempted s
      (trace_of (handle (updateWorkOrder env id body)
                        (after env (Update id body) d))).
Proof.
  intros Hsms. apply updateWorkOrder_sms in Hsms.
  destruct Hsms as (Hs & _ & w' & c & Hw' & Hdiff & _).
  apply Hdiff. exact (updated_status env id body d s w' Hs Hw').
Qed.

(** X22: addPart and addLabor commute: adding a part and then a labor line
    to a work order leaves the same store as adding the labor line and then
    the part. *)
Theorem addPart_addLabor_commute env id part l d :
  after env (AddLabor id l) (after env (AddPart id part) d) =
  after env (AddPart id part) (after env (AddLabor id l) d).
Proof.
  unfold after. simpl.
  destruct (workOrders d !! id) as [w|] eqn:Hw.
  - pose proof (addPart_run id part d w Hw) as Hp. cbv zeta in Hp.
    pose proof (addLabor_run id l d w Hw) as Hl. cbv zeta in Hl.
    rewrite Hp, Hl. unfold db_of. simpl.
    pose proof (addLabor_run id l (put_workOrder id
      (set_totalEstimate (set_parts w (parts w ++ [part]))
         (Some (lines_total (set_parts w (parts w ++ [part]))))) d) _
      (lookup_insert_eq _ _ _)) as Hl2. cbv zeta in Hl2.
    pose proof (addPart_run id part (put_workOrder id
      (set_totalEstimate (set_labor w (labor w ++ [l]))
         (Some (lines_total (set_labor w (labor w ++ [l]))))) d) _
      (lookup_insert_eq _ _ _)) as Hp2. cbv zeta in Hp2.
    rewrite Hl2, Hp2. simpl. rewrite !put_workOrder_twice. reflexivity.
  - rewrite (addPart_missing id part d Hw), (addLabor_missing id l d Hw).
    unfold db_of. simpl.
    now rewrite (addPart_missing id part d Hw), (addLabor_missing id l d Hw).
Qed.

(** ** The vehicles' service histories *)

Lemma linked_rewrite (id : Id) (w W : WorkOrder) (d D : DB) :
  history_linked d ->
  workOrders d !! id = Some w ->
  wo_vehicle W = wo_vehicle w ->
  workOrders D = workOrders d ->
  (forall x v', vehicles D !! x = Some v' ->
     exists v, vehicles d !! x = Some v /\ serviceHistory v' = serviceHistory v) ->
  history_linked (put_workOrder id W D).
Proof.
  intros Hinv Hw HW Hwo Hve x v' i Hx Hi. simpl in *.
  destruct (Hve x v' Hx) as (v & Hv & Hh). rewrite Hh in Hi.
  destruct (Hinv x v i Hv Hi) as (w0 & Hw0 & Hx0).
  destruct (decide (i = id)) as [->|Hne].
  - rewrite lookup_insert_eq. exists W. split; [reflexivity|]. congruence.
  - rewrite lookup_insert_ne by congruence. rewrite Hwo. eauto.
Qed.

Lemma linked_put_workOrder (id : Id) (w W : WorkOrder) (d : DB) :
  history_linked d ->
  workOrders d !! id = Some w ->
  wo_vehicle W = wo_vehicle w ->
  history_linked (put_workOrder id W d).
Proof.
  intros Hinv Hw HW. apply (linked_rewrite id w W d d Hinv Hw HW eq_refl). eauto.
Qed.

Lemma linked_create env body d vid cid v c :
  history_linked d ->
  workOrders d !! newObjectId env = None ->
  b_vehicle body = Some vid -> vehicles d !! vid = Some v ->
  b_customer body = Some cid -> customers d !! cid = Some c ->
  v_customer v = cid ->
  history_linked (after env (Create body) d).
Proof.
  intros Hinv Hfresh Hbv Hv Hbc Hc Hown. unfold after. simpl.
  destruct (createWorkOrder_run env body d vid cid v c Hbv Hv Hbc Hc Hown)
    as (te & evs & Hrun & _).
  cbv zeta in Hrun. rewrite Hrun. unfold db_of. simpl.
  assert (Hold : forall x v0 i, vehicles d !! x = Some v0 ->
            In i (serviceHistory v0) ->
            exists w, <[newObjectId env :=
                         new_document env cid vid
                           (set_b_totalEstimate (create_services body) te)]>
                        (workOrders d) !! i = Some w /\ wo_vehicle w = x).
  { intros x v0 i Hx Hi. destruct (Hinv x v0 i Hx Hi) as (w0 & Hw0 & Hx0).
    rewrite lookup_insert_ne by congruence. eauto. }
  intros x v' i Hx Hi. simpl in *.
  destruct (decide (x = vid)) as [->|Hne].
  - rewrite lookup_insert_eq in Hx. injection Hx as <-.
    assert (Hh : In i (serviceHistory v) \/ i = newObjectId env).
    { unfold serviced_vehicle in Hi.
      destruct (mileage_update env (b_currentMileage body)); simpl in Hi;
        apply in_app_or in Hi; destruct Hi as [Hi|[Hi|[]]]; auto. }
    destruct Hh as [Hh| ->]; [exact (Hold vid v i Hv Hh)|].
    rewrite lookup_insert_eq. eexists. split; reflexivity.
  - rewrite lookup_insert_ne in Hx by congruence. exact (Hold x v' i Hx Hi).
Qed.

Lemma linked_delete id d :
  history_linked d -> history_linked (db_of (handle (deleteWorkOrder id) d)).
Proof.
  intros Hinv. destruct (workOrders d !! id) as [w|] eqn:Hw.
  2: { now rewrite (deleteWorkOrder_missing id d Hw). }
  destruct (deleteWorkOrder_run id d w Hw) as (t & ->). unfold db_of. simpl.
  assert (Hold : forall x v0 i, vehicles d !! x = Some v0 ->
            In i (serviceHistory v0) -> i <> id ->
            exists w0, delete id (workOrders d) !! i = Some w0 /\ wo_vehicle w0 = x).
  { intros x v0 i Hx Hi Hne. destruct (Hinv x v0 i Hx Hi) as (w0 & Hw0 & Hx0).
    rewrite lookup_delete_ne by congruence. eauto. }
  destruct (vehicles d !! wo_vehicle w) as [v0|] eqn:Hv0; simpl.
  - intros x v' i Hx Hi. simpl in *.
    destruct (decide (x = wo_vehicle w)) as [->|Hne].
    + rewrite lookup_insert_eq in Hx. injection Hx as <-.
      apply pulled_history in Hi. destruct Hi as [Hi Hne].
      exact (Hold _ v0 i Hv0 Hi Hne).
    + rewrite lookup_insert_ne in Hx by congruence.
      apply (Hold x v' i Hx Hi). intros ->.
      destruct (Hinv x v' id Hx Hi) as (w0 & Hw0 & Hx0). congruence.
  - intros x v' i Hx Hi. simpl in *.
    apply (Hold x v' i Hx Hi). intros ->.
    destruct (Hinv x v' id Hx Hi) as (w0 & Hw0 & Hx0). congruence.
Qed.

(** X23: the service histories stay linked. If every entry of every
    vehicle's serviceHistory is a stored work order of that vehicle, the
    same holds after createWorkOrder (given an id no stored work order
    has), after updateWorkOrder (unless it moves the work order to another
    vehicle), after addPart, addLabor and updateStatus, and after
    deleteWorkOrder, which leaves no entry for the deleted work order
    behind. *)
Theorem history_stays_linked env m id d :
  history_linked d ->
  keeps_vehicle env d m ->
  history_linked (after env m d) /\
  history_linked (db_of (handle (deleteWorkOrder id) d)).
Proof.
  intros Hinv Hkeep. split; [|exact (linked_delete id d Hinv)].
  destruct m as [body | id' body | id' part | id' l | id' st]; simpl in Hkeep.
  - destruct (create_outcome body d) as [[code Hrej]|H].
    + unfold after. simpl.
      destruct (createWorkOrder_rejected env body d code Hrej) as [msg ->].
      exact Hinv.
    + destruct H as (vid & cid & v & c & Hbv & Hv & Hbc & Hc & Hown).
      exact (linked_create env body d vid cid v c Hinv Hkeep Hbv Hv Hbc Hc Hown).
  - unfold after. simpl. destruct (workOrders d !! id') as [w|] eqn:Hw.
    + destruct (updateWorkOrder_store env id' body d w Hw)
        as (te & t & evs & Hrun & _).
      rewrite Hrun. unfold db_of. simpl.
      destruct (mileage_synced_frame env id' body d) as (Hwo & _ & _ & Hve & _).
      apply (linked_rewrite id' w _ d _ Hinv Hw); [|exact Hwo|].
      * simpl. destruct (update_services_keeps_rest body) as (_ & _ & -> & _).
        exact (Hkeep w eq_refl).
      * intros x v' Hx. destruct (Hve x v' Hx) as (v & Hv & Hh & _). eauto.
    + now rewrite (updateWorkOrder_missing env id' body d Hw).
  - unfold after. simpl. destruct (workOrders d !! id') as [w|] eqn:Hw.
    + pose proof (addPart_run id' part d w Hw) as Hrun. cbv zeta in Hrun.
      rewrite Hrun. unfold db_of. simpl.
      now apply (linked_put_workOrder id' w).
    + now rewrite (addPart_missing id' part d Hw).
  - unfold after. simpl. destruct (workOrders d !! id') as [w|] eqn:Hw.
    + pose proof (addLabor_run id' l d w Hw) as Hrun. cbv zeta in Hrun.
      rewrite Hrun. unfold db_of. simpl.
      now apply (linked_put_workOrder id' w).
    + now rewrite (addLabor_missing id' l d Hw).
  - unfold after. simpl. destruct (truthy_str st) eqn:Ht.
    2: { now rewrite (updateStatus_no_status env id' st d Ht). }
    destruct (workOrders d !! id') as [w|] eqn:Hw.
    2: { now rewrite (updateStatus_missing env id' st d Ht Hw). }
    destruct st as [s|]; [|discriminate]. simpl in Ht. apply negb_true_iff in Ht.
    rewrite (updateStatus_run env id' s d w Ht Hw). unfold db_of. simpl.
    apply (linked_put_workOrder id' w _ d Hinv Hw).
    apply status_document_refs.
Qed.

Lemma sample_history_linked : history_linked Sample.db.
Proof.
  intros vid v i Hv Hi.
  assert (Hin : In (vid, v) (map_to_list (vehicles Sample.db)))
    by now apply list_elem_of_In, elem_of_map_to_list.
  vm_compute in Hin.
  destruct Hin as [[= <- <-]|[[= <- <-]|[]]]; simpl in Hi;
    destruct Hi as [<-|[]]; eexists; split; vm_compute; reflexivity.
Qed.

Lemma history_stays_linked_witness :
  history_linked (after Sample.env (Create Cases.parts_only) Sample.db) /\
  history_linked (db_of (handle (deleteWorkOrder "wo1") Sample.db)).
Proof.
  apply history_stays_linked.
  - exact sample_history_linked.
  - vm_compute. reflexivity.
Defined.
